(** * camera-streamer-esp32: the frame pipeline, embedded and verified

    The development follows the C sources function by function.

    - [AppUvc] embeds [src/main/app_uvc.c]: one subscriber queue
      ([rx_frames_queue]) drained by [frame_handling_task], with a
      user-registered frame handler.
    - [TwoQueue] embeds the two-queue program of [src/unnamed/part_001] (the
      WiFi streamer and the main file that feeds it): [frame_callback] fans
      a frame out to [rx_frames_queue] and [wifi_frame_queue], and
      [stream_handler] turns queued frames into an MJPEG multipart
      response.

    FreeRTOS, the UVC host driver, the HTTP server and libc are external
    collaborators.  The queue primitives are modelled by their documented
    contract ([Queue]); every other external call is recorded, with the tick
    at which it was issued, in a trace, and the values such a call returns
    are arguments supplied by the environment. *)

From Stdlib Require Import ZArith String Ascii Bool Lia List.
From Stdlib Require Import RelationClasses.
From Stdlib Require Import Strings.Byte.
Import ListNotations.
Local Open Scope Z_scope.

(** ** C scalars *)

(** Object and function pointers are addresses; [NULL] is address 0. *)
Definition ptr := Z.
Definition NULL : ptr := 0.

(** [esp_err.h] *)
Definition esp_err_t := Z.
Definition ESP_OK : esp_err_t := 0.
Definition ESP_FAIL : esp_err_t := -1.
Definition ESP_ERR_INVALID_ARG : esp_err_t := 258. (* 0x102 *)

(** FreeRTOS [BaseType_t] results. *)
Definition BaseType_t := Z.
Definition pdPASS : BaseType_t := 1.
Definition pdTRUE : BaseType_t := 1.
Definition pdFALSE : BaseType_t := 0.
Definition errQUEUE_FULL : BaseType_t := 0.
Definition errQUEUE_EMPTY : BaseType_t := 0.

(** [uvc_host_frame_t]: the fields the program reads.  [buf] identifies the
    driver buffer the frame lives in; [data] is [None] for a NULL pointer. *)
Record uvc_host_frame_t := mk_frame {
  buf : nat;
  data : option (list byte);
  data_len : Z
}.

(** A [uvc_host_frame_t *]; [None] is NULL. *)
Definition frame_ptr := option uvc_host_frame_t.

(** [uvc_host_stream_event_data_t]: the event type with the member of the
    union that belongs to it.  [UVC_HOST_EVENT_OTHER] stands for any value of
    the enum outside the four the switch names. *)
Inductive uvc_host_stream_event_data_t :=
| UVC_HOST_TRANSFER_ERROR (error : esp_err_t)
| UVC_HOST_DEVICE_DISCONNECTED (stream_hdl : ptr)
| UVC_HOST_FRAME_BUFFER_OVERFLOW
| UVC_HOST_FRAME_BUFFER_UNDERFLOW
| UVC_HOST_EVENT_OTHER (type : Z).

(** ** The trace of external calls *)

Inductive esp_log_level := LOG_E | LOG_W | LOG_I | LOG_D.

Inductive call :=
| ESP_LOG (lvl : esp_log_level) (tag fmt : string)
| uvc_host_stream_open (timeout : Z)
| uvc_host_stream_open_ret (err : esp_err_t) (hdl : ptr)
| uvc_host_stream_start (hdl : ptr)
| uvc_host_stream_stop (hdl : ptr)
| uvc_host_stream_close (hdl : ptr)
| uvc_host_frame_return (hdl : ptr) (frame : uvc_host_frame_t)
| vTaskDelay (ticks : Z)
| user_frame_cb (cb : ptr) (buffer : option (list byte)) (len : Z) (ctx : ptr)
| usb_host_install
| uvc_host_install
| xTaskCreatePinnedToCore (name : string)
| external (name : string)
| httpd_send (sent : list byte) (ret : Z)
| httpd_req_get_hdr_value_len (field : string)
| driver_recycle (frame : uvc_host_frame_t).

(** The part of the state that belongs to the environment: the tick count
    (logical, not wrapped) and the calls made so far, oldest first. *)
Record world := mk_world {
  xTickCount : Z;
  trace : list (Z * call)
}.

Definition emit_w (c : call) (w : world) : world :=
  mk_world (xTickCount w) (trace w ++ [(xTickCount w, c)]).

Definition elapse_w (ticks : Z) (w : world) : world :=
  mk_world (xTickCount w + ticks) (trace w).

(** ** Programs: state passing with [abort] *)

Inductive outcome (A : Type) :=
| Done (a : A)
| Aborted.
Arguments Done {A} a.
Arguments Aborted {A}.

Section Prog.
Context {S : Type}.

Definition M (A : Type) := S -> outcome (A * S).

Definition ret {A} (a : A) : M A := fun s => Done (a, s).

Definition bind {A B} (c : M A) (k : A -> M B) : M B :=
  fun s => match c s with
           | Done (a, s') => k a s'
           | Aborted => Aborted
           end.

Definition gets {A} (f : S -> A) : M A := fun s => Done (f s, s).
Definition modify (f : S -> S) : M unit := fun s => Done (tt, f s).

(** [abort()] *)
Definition abort {A} : M A := fun _ => Aborted.

(** [assert(c)] *)
Definition assert (c : bool) : M unit := if c then ret tt else abort.
End Prog.

Declare Scope prog_scope.
Delimit Scope prog_scope with prog.
Notation "x <- c ;; k" := (bind c (fun x => k))
  (at level 61, c at next level, right associativity) : prog_scope.
Notation "c ;; k" := (bind c (fun _ => k))
  (at level 61, right associativity) : prog_scope.
Local Open Scope prog_scope.

(** ** FreeRTOS queues

    The queue implementation is FreeRTOS's.  The model is its documented
    contract: a FIFO of at most [uxLength] items.  A send that finds the
    queue full, and a receive that finds it empty, wait for at most
    [xTicksToWait] ticks; a step of the model is atomic, so such a call runs
    into its timeout, and the third component of the result is the number of
    ticks the caller was blocked. *)
Module Queue.
Section Queue.
Context {A : Type}.

Record t := mk { uxLength : nat; items : list A }.

Definition xQueueCreate (uxQueueLength : nat) : t := mk uxQueueLength [].

Definition uxQueueMessagesWaiting (q : t) : nat := length (items q).

Definition xQueueSendToBack (q : t) (item : A) (xTicksToWait : Z)
  : BaseType_t * t * Z :=
  if (length (items q) <? uxLength q)%nat
  then (pdPASS, mk (uxLength q) (items q ++ [item]), 0)
  else (errQUEUE_FULL, q, xTicksToWait).

Definition xQueueReceive (q : t) (xTicksToWait : Z)
  : BaseType_t * option A * t * Z :=
  match items q with
  | item :: rest => (pdPASS, Some item, mk (uxLength q) rest, 0)
  | [] => (errQUEUE_EMPTY, None, q, xTicksToWait)
  end.

(** A sequence of sends and receives, applied in order. *)
Inductive op :=
| Send (item : A) (xTicksToWait : Z)
| Receive (xTicksToWait : Z).

Definition apply (q : t) (o : op) : t :=
  match o with
  | Send item ticks => snd (fst (xQueueSendToBack q item ticks))
  | Receive ticks => snd (fst (xQueueReceive q ticks))
  end.
End Queue.
Arguments t A : clear implicits.
Arguments op A : clear implicits.
End Queue.

(** [QueueHandle_t]: [None] is a NULL handle, [Some q] the queue object. *)
Definition QueueHandle_t := option (Queue.t frame_ptr).

(** * Observing traces *)

(** The calls of [uvc_host_frame_return] in a trace, and those on the
    buffer [b]. *)
Definition is_return (c : Z * call) : bool :=
  match snd c with
  | uvc_host_frame_return _ _ => true
  | _ => false
  end.

Definition is_return_of (b : nat) (c : Z * call) : bool :=
  match snd c with
  | uvc_host_frame_return _ frame => Nat.eqb (buf frame) b
  | _ => false
  end.

Definition returns_of (b : nat) (tr : list (Z * call)) : nat :=
  length (filter (is_return_of b) tr).

(** The buffers the driver has put back itself. *)
Definition is_recycle_of (b : nat) (c : Z * call) : bool :=
  match snd c with
  | driver_recycle frame => Nat.eqb (buf frame) b
  | _ => false
  end.

(** The bytes [httpd_send] has put on the connection, in order. *)
Definition http_output (tr : list (Z * call)) : list byte :=
  flat_map (fun c => match snd c with
                     | httpd_send sent _ => sent
                     | _ => []
                     end) tr.

(** The device-open attempts of a trace: each is a call followed by its
    return. *)
Definition is_open_event (c : call) : bool :=
  match c with
  | uvc_host_stream_open _ | uvc_host_stream_open_ret _ _ => true
  | _ => false
  end.

Definition open_events (tr : list (Z * call)) : list (Z * call) :=
  filter (fun c => is_open_event (snd c)) tr.

Definition is_failed_open (c : call) : bool :=
  match c with
  | uvc_host_stream_open_ret err _ => negb (ESP_OK =? err)
  | _ => false
  end.

Definition is_open_call (c : call) : bool :=
  match c with uvc_host_stream_open _ => true | _ => false end.

(** Every failed open is at least [interval] ticks before the open that
    follows it. *)
Fixpoint spaced (interval : Z) (l : list (Z * call)) : Prop :=
  match l with
  | a :: (b :: _) as rest =>
      (is_failed_open (snd a) = true -> is_open_call (snd b) = true ->
       fst a + interval <= fst b) /\ spaced interval rest
  | _ => True
  end.

(** [w'] continues [w]: time has not gone back, and the trace has grown by
    calls that satisfy [P], stamped between the two tick counts. *)
Definition grows (P : call -> bool) (w w' : world) : Prop :=
  xTickCount w <= xTickCount w' /\
  exists new,
    trace w' = trace w ++ new /\
    Forall (fun c => xTickCount w <= fst c <= xTickCount w' /\ P (snd c) = true)
           new.

(** A program all of whose runs relate the state before to the state
    after by [R]. *)
Definition respects {S A} (R : S -> S -> Prop) (c : @M S A) : Prop :=
  forall s a s', c s = Done (a, s') -> R s s'.

(** The calls that are not open events. *)
Definition quiet_call (c : call) : bool := negb (is_open_event c).

(** The relation "if [I] held before, it holds after". *)
Definition keeps {S} (I : S -> Prop) (s s' : S) : Prop := I s -> I s'.

(** The invariant behind the spacing of retries: the open events so far are
    spaced, and if the last of them is a failed open, the retry interval
    has passed since. *)
Definition open_inv (interval : Z) (w : world) : Prop :=
  spaced interval (open_events (trace w)) /\
  match last (map Some (open_events (trace w))) None with
  | Some a => is_failed_open (snd a) = true ->
              fst a + interval <= xTickCount w
  | None => True
  end.

(** A queue handle that designates a queue of length 3 holding at most 3
    items. *)
Definition bounded3 (h : QueueHandle_t) : Prop :=
  exists q, h = Some q /\ Queue.uxLength q = 3%nat /\
            (length (Queue.items q) <= 3)%nat.

(** [ESP_ERROR_CHECK(x)]: abort unless [x] is [ESP_OK]. *)
Definition ESP_ERROR_CHECK {S} (x : esp_err_t) : @M S unit :=
  if x =? ESP_OK then ret tt else abort.

(** [pdMS_TO_TICKS]: the product is taken in [uint64_t], the quotient cast
    to the 32-bit [TickType_t]. *)
Definition pdMS_TO_TICKS (configTICK_RATE_HZ xTimeInMs : Z) : Z :=
  ((xTimeInMs * configTICK_RATE_HZ) mod 2 ^ 64 / 1000) mod 2 ^ 32.

(** * [src/main/app_uvc.c] *)
Module AppUvc.

Definition TAG : string := "app_uvc".

(** The file's static variables, and the environment. *)
Record state := mk_state {
  rx_frames_queue : QueueHandle_t;
  dev_connected : bool;
  g_user_frame_callback : ptr;
  g_user_callback_ctx : ptr;
  env : world
}.

Definition set_rx_frames_queue (q : QueueHandle_t) (s : state) : state :=
  mk_state q (dev_connected s) (g_user_frame_callback s)
           (g_user_callback_ctx s) (env s).
Definition set_dev_connected (b : bool) (s : state) : state :=
  mk_state (rx_frames_queue s) b (g_user_frame_callback s)
           (g_user_callback_ctx s) (env s).
Definition set_g_user_frame_callback (p : ptr) (s : state) : state :=
  mk_state (rx_frames_queue s) (dev_connected s) p
           (g_user_callback_ctx s) (env s).
Definition set_g_user_callback_ctx (p : ptr) (s : state) : state :=
  mk_state (rx_frames_queue s) (dev_connected s) (g_user_frame_callback s)
           p (env s).
Definition set_env (w : world) (s : state) : state :=
  mk_state (rx_frames_queue s) (dev_connected s) (g_user_frame_callback s)
           (g_user_callback_ctx s) w.

(** The statics as the C runtime zero-initialises them. *)
Definition boot (now : Z) : state :=
  mk_state None false NULL NULL (mk_world now []).

(** The environment of [s'] continues that of [s] by calls in [P]. *)
Definition evolves (P : call -> bool) (s s' : state) : Prop :=
  grows P (env s) (env s').

Definition emit (c : call) : M unit := modify (fun s => set_env (emit_w c (env s)) s).
Definition elapse (ticks : Z) : M unit :=
  modify (fun s => set_env (elapse_w ticks (env s)) s).
Definition ESP_LOGx (lvl : esp_log_level) (fmt : string) : M unit :=
  emit (ESP_LOG lvl TAG fmt).

(** [vTaskDelay(n)]: the task resumes [n] ticks later. *)
Definition task_delay (ticks : Z) : M unit :=
  emit (vTaskDelay ticks) ;; elapse ticks.

(** The one address [stream_config.user_ctx] holds: [&rx_frames_queue]. *)
Inductive queue_var := addr_rx_frames_queue.

(** [xQueueSendToBack] on the queue whose handle [var] points to; FreeRTOS
    asserts the handle. *)
Definition queue_send (var : queue_var) (item : frame_ptr) (xTicksToWait : Z)
  : M BaseType_t :=
  h <- gets rx_frames_queue ;;
  match h with
  | None => abort
  | Some q =>
      let '(result, q', waited) := Queue.xQueueSendToBack q item xTicksToWait in
      modify (set_rx_frames_queue (Some q')) ;;
      elapse waited ;;
      ret result
  end.

(** [xQueueReceive] on the queue whose handle [var] points to: the result
    and the item received. *)
Definition queue_receive (var : queue_var) (xTicksToWait : Z)
  : M (BaseType_t * option frame_ptr) :=
  h <- gets rx_frames_queue ;;
  match h with
  | None => abort
  | Some q =>
      let '(result, item, q', waited) := Queue.xQueueReceive q xTicksToWait in
      modify (set_rx_frames_queue (Some q')) ;;
      elapse waited ;;
      ret (result, item)
  end.

Definition is_null {A} (p : option A) : bool :=
  match p with None => true | Some _ => false end.

(** [frame_callback] *)
Definition frame_callback (frame : frame_ptr) (user_ctx : option queue_var)
  : M bool :=
  assert (negb (is_null frame)) ;;
  assert (negb (is_null user_ctx)) ;;
  match user_ctx with
  | None => abort
  | Some frame_q =>
      ESP_LOGx LOG_D "Frame callback! data len: %d" ;;
      result <- queue_send frame_q frame 0 ;;
      if negb (pdPASS =? result) then
        ESP_LOGx LOG_W "Queue full, losing frame" ;;
        ret true
      else
        ret false
  end.

(** [stream_callback].  [close_ret] is what [uvc_host_stream_close] answers
    if it is called. *)
Definition stream_callback (event : uvc_host_stream_event_data_t)
    (user_ctx : ptr) (close_ret : esp_err_t) : M unit :=
  match event with
  | UVC_HOST_TRANSFER_ERROR _ =>
      ESP_LOGx LOG_E "USB error has occurred, err_no = %i"
  | UVC_HOST_DEVICE_DISCONNECTED stream_hdl =>
      ESP_LOGx LOG_I "Device suddenly disconnected" ;;
      modify (set_dev_connected false) ;;
      emit (uvc_host_stream_close stream_hdl) ;;
      ESP_ERROR_CHECK close_ret
  | UVC_HOST_FRAME_BUFFER_OVERFLOW =>
      ESP_LOGx LOG_W "Frame buffer overflow"
  | UVC_HOST_FRAME_BUFFER_UNDERFLOW =>
      ESP_LOGx LOG_W "Frame buffer underflow"
  | UVC_HOST_EVENT_OTHER _ =>
      abort
  end.

(** [app_uvc_register_frame_callback] *)
Definition app_uvc_register_frame_callback (frame_cb user_ctx : ptr)
  : M esp_err_t :=
  if frame_cb =? NULL then
    ESP_LOGx LOG_E "Frame callback cannot be NULL" ;;
    ret ESP_ERR_INVALID_ARG
  else
    modify (set_g_user_frame_callback frame_cb) ;;
    modify (set_g_user_callback_ctx user_ctx) ;;
    ESP_LOGx LOG_I "Frame callback registered" ;;
    ret ESP_OK.

(** The queue invariant: the queue exists and is bounded. *)
Definition queue_ok (s : state) : Prop := bounded3 (rx_frames_queue s).

(** What the environment answers during [app_uvc_init]. *)
Record init_env := mk_init_env {
  queue_allocated : bool;
  usb_host_install_ret : esp_err_t;
  usb_lib_task_created : BaseType_t;
  uvc_host_install_ret : esp_err_t;
  frame_hdl_task_created : BaseType_t
}.

(** [app_uvc_init] *)
Definition app_uvc_init (e : init_env) : M esp_err_t :=
  modify (set_rx_frames_queue
            (if queue_allocated e then Some (Queue.xQueueCreate 3) else None)) ;;
  q <- gets rx_frames_queue ;;
  assert (negb (is_null q)) ;;
  ESP_LOGx LOG_I "Installing USB Host" ;;
  emit usb_host_install ;;
  ESP_ERROR_CHECK (usb_host_install_ret e) ;;
  emit (xTaskCreatePinnedToCore "usb_lib") ;;
  assert (usb_lib_task_created e =? pdTRUE) ;;
  ESP_LOGx LOG_I "Installing UVC driver" ;;
  emit uvc_host_install ;;
  ESP_ERROR_CHECK (uvc_host_install_ret e) ;;
  emit (xTaskCreatePinnedToCore "frame_hdl") ;;
  assert (frame_hdl_task_created e =? pdTRUE) ;;
  ret ESP_OK.

Section Task.
Variable configTICK_RATE_HZ : Z.
Definition ms_to_ticks : Z -> Z := pdMS_TO_TICKS configTICK_RATE_HZ.

(** Where [frame_handling_task] stands: at the head of the outer loop, or
    at the test of the streaming loop with its local [uvc_stream]. *)
Inductive task_pc :=
| Searching
| Streaming (uvc_stream : ptr).

(** What [uvc_host_stream_open] answers, and how long it took. *)
Record open_env := mk_open_env {
  open_err : esp_err_t;
  open_hdl : ptr;
  open_ticks : N
}.

(** The outer loop of [frame_handling_task], from its head to [continue]
    or to the entry of the streaming loop. *)
Definition task_search (o : open_env) : M task_pc :=
  ESP_LOGx LOG_I "Looking for UVC camera..." ;;
  emit (uvc_host_stream_open (ms_to_ticks 5000)) ;;
  elapse (Z.of_N (open_ticks o)) ;;
  emit (uvc_host_stream_open_ret (open_err o) (open_hdl o)) ;;
  if negb (ESP_OK =? open_err o) then
    ESP_LOGx LOG_I "Failed to open device" ;;
    task_delay (ms_to_ticks 5000) ;;
    ret Searching
  else
    modify (set_dev_connected true) ;;
    ESP_LOGx LOG_I "Camera connected! Starting stream..." ;;
    task_delay (ms_to_ticks 100) ;;
    emit (uvc_host_stream_start (open_hdl o)) ;;
    ret (Streaming (open_hdl o)).

(** The streaming loop: one test of [dev_connected], then either one pass
    of the body or the code after the loop.  A NULL frame pointer taken
    from the queue would be dereferenced; that is [abort] here
    ([frame_callback] asserts that none is ever queued). *)
Definition task_stream (uvc_stream : ptr) : M task_pc :=
  connected <- gets dev_connected ;;
  if connected then
    r <- queue_receive addr_rx_frames_queue (ms_to_ticks 5000) ;;
    (if fst r =? pdPASS then
       match snd r with
       | Some (Some frame) =>
           cb <- gets g_user_frame_callback ;;
           (if negb (cb =? NULL) then
              ctx <- gets g_user_callback_ctx ;;
              emit (user_frame_cb cb (data frame) (data_len frame) ctx)
            else ret tt) ;;
           emit (uvc_host_frame_return uvc_stream frame)
       | _ => abort
       end
     else ret tt) ;;
    ret (Streaming uvc_stream)
  else
    still <- gets dev_connected ;;
    (if still then
       ESP_LOGx LOG_I "Stream stop" ;;
       emit (uvc_host_stream_stop uvc_stream) ;;
       task_delay (ms_to_ticks 2000)
     else
       ESP_LOGx LOG_I "Device disconnected") ;;
    ret Searching.

(** [frame_handling_task], one step from [pc]. *)
Definition frame_handling_task (pc : task_pc) (o : open_env) : M task_pc :=
  match pc with
  | Searching => task_search o
  | Streaming uvc_stream => task_stream uvc_stream
  end.

(** ** The running system

    The driver thread, the frame task and the application interleave;
    each action below is one atomic step. *)
Inductive action :=
| Capture (frame : uvc_host_frame_t)
| StreamEvent (event : uvc_host_stream_event_data_t) (close_ret : esp_err_t)
| TaskStep (o : open_env)
| Register (frame_cb user_ctx : ptr)
| Idle (ticks : N).

Record sys := mk_sys { st : state; pc : task_pc }.

(** The driver's side of the frame callback, as the comments in
    [frame_callback] state it: a frame for which the callback returns
    [true] goes back to the pool at once. *)
Definition driver_capture (frame : uvc_host_frame_t) : M unit :=
  immediate <- frame_callback (Some frame) (Some addr_rx_frames_queue) ;;
  if (immediate : bool) then emit (driver_recycle frame) else ret tt.

Definition lift (c : M unit) (x : sys) : outcome sys :=
  match c (st x) with
  | Done (_, s') => Done (mk_sys s' (pc x))
  | Aborted => Aborted
  end.

Definition step (a : action) (x : sys) : outcome sys :=
  match a with
  | Capture frame => lift (driver_capture frame) x
  | StreamEvent event close_ret => lift (stream_callback event NULL close_ret) x
  | TaskStep o =>
      match frame_handling_task (pc x) o (st x) with
      | Done (pc', s') => Done (mk_sys s' pc')
      | Aborted => Aborted
      end
  | Register frame_cb user_ctx =>
      lift (app_uvc_register_frame_callback frame_cb user_ctx ;; ret tt) x
  | Idle ticks => lift (elapse (Z.of_N ticks)) x
  end.

Fixpoint run (acts : list action) (x : sys) : outcome sys :=
  match acts with
  | [] => Done x
  | a :: rest =>
      match step a x with
      | Done x' => run rest x'
      | Aborted => Aborted
      end
  end.

(** The states the system can be in: [app_uvc_init] has returned, the
    frame task is at its start, and any actions have followed. *)
Inductive reachable : sys -> Prop :=
| reachable_init now e r s :
    app_uvc_init e (boot now) = Done (r, s) ->
    reachable (mk_sys s Searching)
| reachable_step a x x' :
    reachable x -> step a x = Done x' -> reachable x'.
End Task.

End AppUvc.

(** * libc: [snprintf] with a ["%d"] conversion *)
Module Libc.

(** The decimal digits of a non-negative number, most significant first;
    [fuel] bounds the number of digits. *)
Fixpoint digits (fuel : nat) (n : Z) (acc : list ascii) : list ascii :=
  match fuel with
  | O => acc
  | S fuel' =>
      let acc' := ascii_of_N (Z.to_N (48 + n mod 10)) :: acc in
      if n / 10 =? 0 then acc' else digits fuel' (n / 10) acc'
  end.

(** A number below [2 ^ k] has at most [k] digits (and at least one). *)
Definition utoa (n : Z) : list ascii :=
  digits (S (Z.to_nat (Z.log2 n))) n [].

(** ["%d"] applied to an [int]. *)
Definition fmt_d (n : Z) : list ascii :=
  if n <? 0 then "-"%char :: utoa (- n) else utoa n.

(** A 32-bit unsigned value read as an [int], which is what ["%d"] does
    with the [size_t] it is handed on this target. *)
Definition as_int (n : Z) : Z :=
  let m := n mod 2 ^ 32 in
  if m <? 2 ^ 31 then m else m - 2 ^ 32.

(** [snprintf(buf, size, ...)] given the fully formatted text: the buffer
    receives at most [size - 1] characters; the result is the length the
    whole text has. *)
Definition snprintf (size : Z) (text : list ascii) : list ascii * Z :=
  (firstn (Z.to_nat (size - 1)) text, Z.of_nat (length text)).

(** The characters ['0'] to ['9']. *)
Definition is_digit (c : ascii) : bool :=
  ((48 <=? N_of_ascii c) && (N_of_ascii c <=? 57))%N.

(** The number a string of decimal digits denotes. *)
Definition atoi_digits (l : list ascii) : Z :=
  fold_left (fun v c => 10 * v + (Z.of_N (N_of_ascii c) - 48)) l 0.

End Libc.

Definition bytes_of (l : list ascii) : list byte := map byte_of_ascii l.
Definition text (s : string) : list ascii := list_ascii_of_string s.
Definition CRLF : list ascii := [ascii_of_nat 13; ascii_of_nat 10].

(** * [src/unnamed/part_001]: the WiFi streamer and its main file *)
Module TwoQueue.

Definition TAG_wifi : string := "app_wifi".
Definition TAG : string := "app_uvc".

(** The statics of the two files, and the environment.  [frame_queue] (the
    streamer's) and [wifi_frame_queue] (the main file's copy of the handle
    [app_wifi_init] returns) designate one queue object: it is the field
    [frame_queue], and [wifi_frame_queue] reads it. *)
Record state := mk_state {
  rx_frames_queue : QueueHandle_t;
  frame_queue : QueueHandle_t;
  dev_connected : bool;
  uvc_stream : ptr;
  env : world
}.

Definition wifi_frame_queue : state -> QueueHandle_t := frame_queue.

Definition set_rx_frames_queue (q : QueueHandle_t) (s : state) : state :=
  mk_state q (frame_queue s) (dev_connected s) (uvc_stream s) (env s).
Definition set_frame_queue (q : QueueHandle_t) (s : state) : state :=
  mk_state (rx_frames_queue s) q (dev_connected s) (uvc_stream s) (env s).
Definition set_dev_connected (b : bool) (s : state) : state :=
  mk_state (rx_frames_queue s) (frame_queue s) b (uvc_stream s) (env s).
Definition set_uvc_stream (h : ptr) (s : state) : state :=
  mk_state (rx_frames_queue s) (frame_queue s) (dev_connected s) h (env s).
Definition set_env (w : world) (s : state) : state :=
  mk_state (rx_frames_queue s) (frame_queue s) (dev_connected s)
           (uvc_stream s) w.

Definition boot (now : Z) : state :=
  mk_state None None false NULL (mk_world now []).

(** The environment of [s'] continues that of [s] by calls in [P]. *)
Definition evolves (P : call -> bool) (s s' : state) : Prop :=
  grows P (env s) (env s').

Definition emit (c : call) : M unit := modify (fun s => set_env (emit_w c (env s)) s).
Definition elapse (ticks : Z) : M unit :=
  modify (fun s => set_env (elapse_w ticks (env s)) s).
Definition ESP_LOGx (lvl : esp_log_level) (tag fmt : string) : M unit :=
  emit (ESP_LOG lvl tag fmt).
Definition task_delay (ticks : Z) : M unit :=
  emit (vTaskDelay ticks) ;; elapse ticks.

(** The queue handle variables. *)
Inductive queue_var := addr_rx_frames_queue | addr_frame_queue.

Definition load (var : queue_var) : state -> QueueHandle_t :=
  match var with
  | addr_rx_frames_queue => rx_frames_queue
  | addr_frame_queue => frame_queue
  end.

Definition store (var : queue_var) : QueueHandle_t -> state -> state :=
  match var with
  | addr_rx_frames_queue => set_rx_frames_queue
  | addr_frame_queue => set_frame_queue
  end.

(** [xQueueSendToBack] on the queue whose handle [var] holds. *)
Definition queue_send (var : queue_var) (item : frame_ptr) (xTicksToWait : Z)
  : M BaseType_t :=
  h <- gets (load var) ;;
  match h with
  | None => abort
  | Some q =>
      let '(result, q', waited) := Queue.xQueueSendToBack q item xTicksToWait in
      modify (store var (Some q')) ;;
      elapse waited ;;
      ret result
  end.

(** [xQueueReceive] on the queue whose handle [var] holds. *)
Definition queue_receive (var : queue_var) (xTicksToWait : Z)
  : M (BaseType_t * option frame_ptr) :=
  h <- gets (load var) ;;
  match h with
  | None => abort
  | Some q =>
      let '(result, item, q', waited) := Queue.xQueueReceive q xTicksToWait in
      modify (store var (Some q')) ;;
      elapse waited ;;
      ret (result, item)
  end.

Definition is_null {A} (p : option A) : bool :=
  match p with None => true | Some _ => false end.

(** [frame_callback] of the main file. *)
Definition frame_callback (frame : frame_ptr) (user_ctx : option queue_var)
  : M bool :=
  assert (negb (is_null frame)) ;;
  match user_ctx with
  | None => abort
  | Some frame_q =>
      result <- queue_send frame_q frame 0 ;;
      wq <- gets wifi_frame_queue ;;
      (if negb (is_null wq) then
         queue_send addr_frame_queue frame 0 ;; ret tt
       else ret tt) ;;
      if negb (pdPASS =? result) then
        ESP_LOGx LOG_W TAG "Local queue full, losing frame" ;;
        ret true
      else
        ret false
  end.

(** [stream_callback] of the main file. *)
Definition stream_callback (event : uvc_host_stream_event_data_t)
    (user_ctx : ptr) (close_ret : esp_err_t) : M unit :=
  match event with
  | UVC_HOST_TRANSFER_ERROR _ =>
      ESP_LOGx LOG_E TAG "USB error has occurred, err_no = %i"
  | UVC_HOST_DEVICE_DISCONNECTED stream_hdl =>
      ESP_LOGx LOG_I TAG "Device suddenly disconnected" ;;
      modify (set_dev_connected false) ;;
      emit (uvc_host_stream_close stream_hdl) ;;
      ESP_ERROR_CHECK close_ret
  | UVC_HOST_FRAME_BUFFER_OVERFLOW =>
      ESP_LOGx LOG_W TAG "Frame buffer overflow"
  | UVC_HOST_FRAME_BUFFER_UNDERFLOW =>
      ESP_LOGx LOG_W TAG "Frame buffer underflow"
  | UVC_HOST_EVENT_OTHER _ =>
      abort
  end.

(** ** [stream_handler] *)

(** [httpd_send(req, buf, buf_len)] when the server answers [answer]: a
    negative answer is an error and nothing is sent, otherwise that many
    bytes of the buffer (at most [buf_len]) went out. *)
Definition send (buffer : list byte) (buf_len : Z) (answer : Z) : M Z :=
  emit (httpd_send
          (if answer <? 0 then []
           else firstn (Z.to_nat (Z.min answer buf_len)) buffer) answer) ;;
  ret answer.

(** The multipart preamble. *)
Definition header : list ascii :=
  text "HTTP/1.1 200 OK" ++ CRLF ++
  text "Content-Type: multipart/x-mixed-replace; boundary=frame" ++ CRLF ++
  CRLF.

(** The text [snprintf] formats for a frame of [len] bytes. *)
Definition frame_header_text (len : Z) : list ascii :=
  text "--frame" ++ CRLF ++
  text "Content-Type: image/jpeg" ++ CRLF ++
  text "Content-Length: " ++ Libc.fmt_d (Libc.as_int len) ++ CRLF ++
  CRLF.

(** What the server answers during one pass of the loop. *)
Record http_env := mk_http_env {
  ret_header : Z;
  ret_data : Z;
  ret_separator : Z;
  host_hdr_len : Z
}.

Inductive loop_ctl := Continue | Break.

Section Http.
Variable configTICK_RATE_HZ : Z.

(** The body of [while (true)] in [stream_handler]. *)
Definition stream_handler_body (e : http_env) : M loop_ctl :=
r <- queue_receive addr_frame_queue (pdMS_TO_TICKS configTICK_RATE_HZ 1000) ;;
sent <-
  (if fst r =? pdTRUE then
     match snd r with
     | Some (Some frame) =>
         match data frame with
         | Some bytes =>
             if data_len frame >? 0 then
               let '(frame_header, header_len) :=
                 Libc.snprintf 128 (frame_header_text (data_len frame)) in
               r1 <- send (bytes_of frame_header) header_len (ret_header e) ;;
               if r1 <? 0 then
                 ESP_LOGx LOG_I TAG_wifi "Client disconnected during header" ;;
                 ret Break
               else
                 r2 <- send bytes (data_len frame) (ret_data e) ;;
                 if r2 <? 0 then
                   ESP_LOGx LOG_I TAG_wifi "Client disconnected during frame" ;;
                   ret Break
                 else
                   send (bytes_of CRLF) 2 (ret_separator e) ;;
                   emit (uvc_host_frame_return NULL frame) ;;
                   ret Continue
             else ret Continue
         | None => ret Continue
         end
     | _ => ret Continue
     end
   else ret Continue) ;;
match sent with
| Break => ret Break
| Continue =>
    emit (httpd_req_get_hdr_value_len "Host") ;;
    if host_hdr_len e =? 0 then
      ESP_LOGx LOG_I TAG_wifi "Client disconnected" ;;
      ret Break
    else ret Continue
end.

(** The loop, for as many passes as the environment has answers. [None]:
  the handler is still in its loop. *)
Fixpoint stream_handler_loop (es : list http_env) : M (option esp_err_t) :=
match es with
| [] => ret None
| e :: rest =>
    c <- stream_handler_body e ;;
    match c with
    | Break =>
        ESP_LOGx LOG_I TAG_wifi "Stream client disconnected" ;;
        ret (Some ESP_OK)
    | Continue => stream_handler_loop rest
    end
end.

(** [stream_handler]. *)
Definition stream_handler (ret_preamble : Z) (es : list http_env)
: M (option esp_err_t) :=
ESP_LOGx LOG_I TAG_wifi "Stream client connected" ;;
send (bytes_of header) (Z.of_nat (length header)) ret_preamble ;;
stream_handler_loop es.

End Http.

(** The queue invariant: the local queue exists and is bounded; the
    streamer's queue, if it exists, is bounded. *)
Definition queue_ok (s : state) : Prop :=
  bounded3 (rx_frames_queue s) /\
  (frame_queue s = None \/ bounded3 (frame_queue s)).

(** The queues as start-up leaves them: the local queue created, the
    streamer's queue created or NULL; empty, of length 3. *)
Definition queues_created (s : state) : Prop :=
  rx_frames_queue s = Some (Queue.xQueueCreate 3) /\
  (frame_queue s = None \/ frame_queue s = Some (Queue.xQueueCreate 3)).

(** ** [app_wifi_init], [app_wifi_start] and the start of [app_main] *)

(** What the environment answers during start-up. *)
Record init_env := mk_init_env {
  rx_queue_allocated : bool;
  wifi_queue_allocated : bool;
  esp_netif_init_ret : esp_err_t;
  esp_event_loop_create_default_ret : esp_err_t;
  sta_netif : ptr;
  esp_wifi_init_ret : esp_err_t;
  register_wifi_event_ret : esp_err_t;
  register_ip_event_ret : esp_err_t;
  esp_wifi_set_mode_ret : esp_err_t;
  esp_wifi_set_config_ret : esp_err_t;
  esp_wifi_start_ret : esp_err_t;
  usb_host_install_ret : esp_err_t;
  usb_lib_task_created : BaseType_t;
  uvc_host_install_ret : esp_err_t;
  frame_hdl_task_created : BaseType_t
}.

Definition checked (name : string) (answer : esp_err_t) : M unit :=
  emit (external name) ;; ESP_ERROR_CHECK answer.

(** [app_wifi_init]: the handle it returns. *)
Definition app_wifi_init (e : init_env) : M QueueHandle_t :=
  ESP_LOGx LOG_I TAG_wifi "Initializing WiFi" ;;
  modify (set_frame_queue
            (if wifi_queue_allocated e then Some (Queue.xQueueCreate 3)
             else None)) ;;
  q <- gets frame_queue ;;
  if is_null q then
    ESP_LOGx LOG_E TAG_wifi "Failed to create frame queue" ;;
    ret None
  else
    checked "esp_netif_init" (esp_netif_init_ret e) ;;
    checked "esp_event_loop_create_default"
            (esp_event_loop_create_default_ret e) ;;
    emit (external "esp_netif_create_default_wifi_sta") ;;
    assert (negb (sta_netif e =? NULL)) ;;
    checked "esp_wifi_init" (esp_wifi_init_ret e) ;;
    checked "esp_event_handler_instance_register" (register_wifi_event_ret e) ;;
    checked "esp_event_handler_instance_register" (register_ip_event_ret e) ;;
    checked "esp_wifi_set_mode" (esp_wifi_set_mode_ret e) ;;
    checked "esp_wifi_set_config" (esp_wifi_set_config_ret e) ;;
    ESP_LOGx LOG_I TAG_wifi "WiFi initialization complete" ;;
    gets frame_queue.

(** [app_wifi_start] *)
Definition app_wifi_start (e : init_env) : M unit :=
  ESP_LOGx LOG_I TAG_wifi "Starting WiFi" ;;
  checked "esp_wifi_start" (esp_wifi_start_ret e).

(** [app_main], up to its closing status loop.  The assignment to
    [wifi_frame_queue] stores the handle [app_wifi_init] has just put in
    [frame_queue]; the two share the field. *)
Definition app_main (e : init_env) : M unit :=
  ESP_LOGx LOG_I TAG "Starting ESP32 Camera System" ;;
  modify (set_rx_frames_queue
            (if rx_queue_allocated e then Some (Queue.xQueueCreate 3)
             else None)) ;;
  q <- gets rx_frames_queue ;;
  assert (negb (is_null q)) ;;
  app_wifi_init e ;;
  wq <- gets wifi_frame_queue ;;
  (if negb (is_null wq) then
     app_wifi_start e ;;
     ESP_LOGx LOG_I TAG "WiFi streaming enabled - waiting for connection..."
   else
     ESP_LOGx LOG_W TAG "WiFi initialization failed") ;;
  ESP_LOGx LOG_I TAG "Initializing USB subsystem" ;;
  emit usb_host_install ;;
  ESP_ERROR_CHECK (usb_host_install_ret e) ;;
  emit (xTaskCreatePinnedToCore "usb_lib") ;;
  assert (usb_lib_task_created e =? pdTRUE) ;;
  ESP_LOGx LOG_I TAG "Installing UVC driver" ;;
  emit uvc_host_install ;;
  ESP_ERROR_CHECK (uvc_host_install_ret e) ;;
  emit (xTaskCreatePinnedToCore "frame_hdl") ;;
  assert (frame_hdl_task_created e =? pdTRUE) ;;
  ESP_LOGx LOG_I TAG "Camera system started successfully!".

(** ** [frame_handling_task] of the main file *)

Inductive task_pc := Searching | Streaming.

Record open_env := mk_open_env {
  open_err : esp_err_t;
  open_hdl : ptr;
  open_ticks : N
}.

Section Task.
Variable configTICK_RATE_HZ : Z.
Definition ms_to_ticks : Z -> Z := pdMS_TO_TICKS configTICK_RATE_HZ.

(** The outer loop from its head to [continue] or to the entry of the
    streaming loop.  The driver stores the handle through the pointer it
    is given when it succeeds. *)
Definition task_search (o : open_env) : M task_pc :=
  ESP_LOGx LOG_I TAG "Looking for UVC camera..." ;;
  emit (uvc_host_stream_open (ms_to_ticks 5000)) ;;
  elapse (Z.of_N (open_ticks o)) ;;
  emit (uvc_host_stream_open_ret (open_err o) (open_hdl o)) ;;
  (if ESP_OK =? open_err o then modify (set_uvc_stream (open_hdl o))
   else ret tt) ;;
  if negb (ESP_OK =? open_err o) then
    ESP_LOGx LOG_I TAG "No camera found, retrying..." ;;
    task_delay (ms_to_ticks 2000) ;;
    ret Searching
  else
    modify (set_dev_connected true) ;;
    ESP_LOGx LOG_I TAG "Camera connected! Starting stream..." ;;
    h <- gets uvc_stream ;;
    emit (uvc_host_stream_start h) ;;
    ret Streaming.

(** The streaming loop: one test of [dev_connected], then one pass of the
    body or the clean-up after the loop.  A NULL frame pointer taken from
    the queue would be dereferenced; that is [abort] here. *)
Definition task_stream : M task_pc :=
  connected <- gets dev_connected ;;
  if connected then
    r <- queue_receive addr_rx_frames_queue (ms_to_ticks 1000) ;;
    (if fst r =? pdPASS then
       match snd r with
       | Some (Some frame) =>
           ESP_LOGx LOG_D TAG "Frame: %dx%d, %d bytes" ;;
           h <- gets uvc_stream ;;
           emit (uvc_host_frame_return h frame)
       | _ => abort
       end
     else ret tt) ;;
    ret Streaming
  else
    ESP_LOGx LOG_I TAG "Camera disconnected, cleaning up..." ;;
    h <- gets uvc_stream ;;
    emit (uvc_host_stream_close h) ;;
    modify (set_uvc_stream NULL) ;;
    ret Searching.

Definition frame_handling_task (pc : task_pc) (o : open_env) : M task_pc :=
  match pc with
  | Searching => task_search o
  | Streaming => task_stream
  end.

(** ** The running system *)
Inductive action :=
| Capture (frame : uvc_host_frame_t)
| StreamEvent (event : uvc_host_stream_event_data_t) (close_ret : esp_err_t)
| TaskStep (o : open_env)
| HttpConnect (ret_preamble : Z)
| HttpPass (e : http_env)
| Idle (ticks : N).

(** [serving]: the HTTP server task is inside [stream_handler]'s loop. *)
Record sys := mk_sys { st : state; pc : task_pc; serving : bool }.

(** The driver's side of the frame callback: a frame for which the
    callback returns [true] goes back to the pool at once. *)
Definition driver_capture (frame : uvc_host_frame_t) : M unit :=
  immediate <- frame_callback (Some frame) (Some addr_rx_frames_queue) ;;
  if (immediate : bool) then emit (driver_recycle frame) else ret tt.

Definition lift (c : M unit) (x : sys) : outcome sys :=
  match c (st x) with
  | Done (_, s') => Done (mk_sys s' (pc x) (serving x))
  | Aborted => Aborted
  end.

Definition step (a : action) (x : sys) : outcome sys :=
  match a with
  | Capture frame => lift (driver_capture frame) x
  | StreamEvent event close_ret => lift (stream_callback event NULL close_ret) x
  | TaskStep o =>
      match frame_handling_task (pc x) o (st x) with
      | Done (pc', s') => Done (mk_sys s' pc' (serving x))
      | Aborted => Aborted
      end
  | HttpConnect ret_preamble =>
      if serving x then Done x
      else
        match stream_handler configTICK_RATE_HZ ret_preamble [] (st x) with
        | Done (_, s') => Done (mk_sys s' (pc x) true)
        | Aborted => Aborted
        end
  | HttpPass e =>
      if serving x then
        match stream_handler_loop configTICK_RATE_HZ [e] (st x) with
        | Done (r, s') => Done (mk_sys s' (pc x) (is_null r))
        | Aborted => Aborted
        end
      else Done x
  | Idle ticks => lift (elapse (Z.of_N ticks)) x
  end.

Fixpoint run (acts : list action) (x : sys) : outcome sys :=
  match acts with
  | [] => Done x
  | a :: rest =>
      match step a x with
      | Done x' => run rest x'
      | Aborted => Aborted
      end
  end.

Inductive reachable : sys -> Prop :=
| reachable_init now e s :
    app_main e (boot now) = Done (tt, s) ->
    reachable (mk_sys s Searching false)
| reachable_step a x x' :
    reachable x -> step a x = Done x' -> reachable x'.
End Task.

End TwoQueue.

(** * Further observers *)

(** The frames handed to [uvc_host_frame_return], and the frames the driver
    has put back itself, in the order of the trace. *)
Definition returned (tr : list (Z * call)) : list uvc_host_frame_t :=
  flat_map (fun c => match snd c with
                     | uvc_host_frame_return _ frame => [frame]
                     | _ => []
                     end) tr.

Definition recycled (tr : list (Z * call)) : list uvc_host_frame_t :=
  flat_map (fun c => match snd c with
                     | driver_recycle frame => [frame]
                     | _ => []
                     end) tr.

(** The calls that neither return nor recycle a frame. *)
Definition inert_call (c : call) : bool :=
  match c with
  | uvc_host_frame_return _ _ | driver_recycle _ => false
  | _ => true
  end.

(** [l] is an interleaving of [l1] and [l2]: every element of [l] comes
    from exactly one of the two, and each keeps its order. *)
Inductive Merge {A : Type} : list A -> list A -> list A -> Prop :=
| Merge_nil : Merge [] [] []
| Merge_left x l1 l2 l : Merge l1 l2 l -> Merge (x :: l1) l2 (x :: l)
| Merge_right x l1 l2 l : Merge l1 l2 l -> Merge l1 (x :: l2) (x :: l).

(** The calls of an external function, by name. *)
Definition is_external (name : string) (c : Z * call) : bool :=
  match snd c with
  | external n => String.eqb n name
  | _ => false
  end.

Definition calls_of (name : string) (tr : list (Z * call)) : nat :=
  length (filter (is_external name) tr).


Definition is_stream_close (c : Z * call) : bool :=
  match snd c with uvc_host_stream_close _ => true | _ => false end.

(** The events the WiFi handlers are registered for: every [WIFI_EVENT] and
    [IP_EVENT_STA_GOT_IP].  [IP2STR] reads the address of a got-IP event as
    four byte values; [WIFI_EVENT_OTHER] is a [WIFI_EVENT] with another
    id. *)
Inductive wifi_event :=
| WIFI_EVENT_STA_START
| WIFI_EVENT_STA_DISCONNECTED
| IP_EVENT_STA_GOT_IP (a b c d : Z)
| WIFI_EVENT_OTHER (id : Z).

Definition is_sta_start (e : wifi_event) : bool :=
  match e with WIFI_EVENT_STA_START => true | _ => false end.
Definition is_sta_disconnected (e : wifi_event) : bool :=
  match e with WIFI_EVENT_STA_DISCONNECTED => true | _ => false end.
Definition is_got_ip (e : wifi_event) : bool :=
  match e with IP_EVENT_STA_GOT_IP _ _ _ _ => true | _ => false end.

(** * [src/main/app_http.c] *)
Module AppHttp.
Import AppUvc.

Definition TAG : string := "app_http".

(** [process_frame]: the body is empty. *)
Definition process_frame (buffer : option (list byte)) (len : Z) (user_ctx : ptr)
  : @M state unit := ret tt.

(** [app_http_init]; [process_frame_addr] is the address of [process_frame]. *)
Definition app_http_init (process_frame_addr : ptr) : M esp_err_t :=
  emit (ESP_LOG LOG_I TAG "Initializing streaming module") ;;
  r <- app_uvc_register_frame_callback process_frame_addr NULL ;;
  if negb (r =? ESP_OK) then
    emit (ESP_LOG LOG_E TAG "Failed to register frame callback") ;;
    ret r
  else
    emit (ESP_LOG LOG_I TAG "Streaming module initialized successfully") ;;
    ret ESP_OK.

End AppHttp.

(** * [app_wifi.c] of [src/main]: station start-up with bounded retries *)
Module AppWifi.

Definition TAG : string := "app_wifi".
Definition WIFI_CONNECTED_BIT : Z := 1. (* BIT0 *)
Definition WIFI_FAIL_BIT : Z := 2.      (* BIT1 *)
Definition EXAMPLE_ESP_MAXIMUM_RETRY : Z := 5.

(** [nvs.h] *)
Definition ESP_ERR_NVS_NO_FREE_PAGES : esp_err_t := 4365.     (* 0x110d *)
Definition ESP_ERR_NVS_NEW_VERSION_FOUND : esp_err_t := 4368. (* 0x1110 *)

(** The file's statics.  [wifi_event_group] is [None] while the handle is
    NULL, and otherwise holds the bits of the group. *)
Record state := mk_state {
  wifi_event_group : option Z;
  s_retry_num : Z;
  init_connection_done : bool;
  ap_connected : bool;
  env : world
}.

Definition set_wifi_event_group (g : option Z) (s : state) : state :=
  mk_state g (s_retry_num s) (init_connection_done s) (ap_connected s) (env s).
Definition set_s_retry_num (n : Z) (s : state) : state :=
  mk_state (wifi_event_group s) n (init_connection_done s) (ap_connected s)
           (env s).
Definition set_init_connection_done (b : bool) (s : state) : state :=
  mk_state (wifi_event_group s) (s_retry_num s) b (ap_connected s) (env s).
Definition set_ap_connected (b : bool) (s : state) : state :=
  mk_state (wifi_event_group s) (s_retry_num s) (init_connection_done s) b
           (env s).
Definition set_env (w : world) (s : state) : state :=
  mk_state (wifi_event_group s) (s_retry_num s) (init_connection_done s)
           (ap_connected s) w.

Definition boot (now : Z) : state :=
  mk_state None 0 false false (mk_world now []).

Definition emit (c : call) : M unit :=
  modify (fun s => set_env (emit_w c (env s)) s).
Definition ESP_LOGx (lvl : esp_log_level) (fmt : string) : M unit :=
  emit (ESP_LOG lvl TAG fmt).
Definition checked (name : string) (answer : esp_err_t) : M unit :=
  emit (external name) ;; ESP_ERROR_CHECK answer.

(** [xEventGroupSetBits(wifi_event_group, bits)]; FreeRTOS asserts the
    handle. *)
Definition xEventGroupSetBits (bits : Z) : M unit :=
  g <- gets wifi_event_group ;;
  match g with
  | None => abort
  | Some v => modify (set_wifi_event_group (Some (Z.lor v bits)))
  end.

(** [event_handler] *)
Definition event_handler (event : wifi_event) : M unit :=
  ESP_LOGx LOG_I "EVENT type %s id %d" ;;
  match event with
  | WIFI_EVENT_STA_START =>
      emit (external "esp_wifi_connect")
  | WIFI_EVENT_STA_DISCONNECTED =>
      modify (set_ap_connected false) ;;
      done <- gets init_connection_done ;;
      if negb done then
        n <- gets s_retry_num ;;
        if n <? EXAMPLE_ESP_MAXIMUM_RETRY then
          emit (external "esp_wifi_connect") ;;
          modify (set_s_retry_num (Libc.as_int (n + 1))) ;;
          ESP_LOGx LOG_I "retry to connect to the AP"
        else
          xEventGroupSetBits WIFI_FAIL_BIT ;;
          ESP_LOGx LOG_I "connect to the AP failed"
      else
        emit (external "esp_wifi_connect") ;;
        ESP_LOGx LOG_I "Disconnected from AP, attempting reconnection..."
  | IP_EVENT_STA_GOT_IP _ _ _ _ =>
      ESP_LOGx LOG_I "got ip:%d.%d.%d.%d" ;;
      modify (set_s_retry_num 0) ;;
      modify (set_init_connection_done true) ;;
      xEventGroupSetBits WIFI_CONNECTED_BIT
  | WIFI_EVENT_OTHER _ => ret tt
  end.

(** What the environment answers during [app_wifi_init]. *)
Record init_env := mk_init_env {
  nvs_flash_init_ret : esp_err_t;
  nvs_flash_erase_ret : esp_err_t;
  nvs_flash_init_again_ret : esp_err_t;
  event_group_created : bool;
  esp_netif_init_ret : esp_err_t;
  esp_event_loop_create_default_ret : esp_err_t;
  esp_wifi_init_ret : esp_err_t;
  register_wifi_event_ret : esp_err_t;
  register_ip_event_ret : esp_err_t;
  esp_wifi_set_mode_ret : esp_err_t;
  esp_wifi_set_config_ret : esp_err_t;
  esp_wifi_start_ret : esp_err_t
}.

(** [wifi_init] up to its call of [xEventGroupWaitBits]. *)
Definition wifi_init_setup (e : init_env) : M unit :=
  modify (set_wifi_event_group (if event_group_created e then Some 0 else None)) ;;
  checked "esp_netif_init" (esp_netif_init_ret e) ;;
  checked "esp_event_loop_create_default" (esp_event_loop_create_default_ret e) ;;
  emit (external "esp_netif_create_default_wifi_sta") ;;
  checked "esp_wifi_init" (esp_wifi_init_ret e) ;;
  checked "esp_event_handler_instance_register" (register_wifi_event_ret e) ;;
  checked "esp_event_handler_instance_register" (register_ip_event_ret e) ;;
  checked "esp_wifi_set_mode" (esp_wifi_set_mode_ret e) ;;
  checked "esp_wifi_set_config" (esp_wifi_set_config_ret e) ;;
  checked "esp_wifi_start" (esp_wifi_start_ret e) ;;
  ESP_LOGx LOG_I "STA initialization complete".

(** [wifi_init] from [xEventGroupWaitBits] on.  The wait has no timeout and
    clears nothing; it returns the bits of the group once one of the two is
    set.  The result is [false] while the caller is still blocked. *)
Definition wifi_init_wait : M bool :=
  g <- gets wifi_event_group ;;
  match g with
  | None => abort
  | Some bits =>
      if Z.land bits (Z.lor WIFI_CONNECTED_BIT WIFI_FAIL_BIT) =? 0 then
        ret false
      else
        (if negb (Z.land bits WIFI_CONNECTED_BIT =? 0) then
           ESP_LOGx LOG_I "Connected to ap" ;;
           modify (set_ap_connected true)
         else if negb (Z.land bits WIFI_FAIL_BIT =? 0) then
           ESP_LOGx LOG_I "Failed to connect to ap" ;;
           modify (set_ap_connected false)
         else
           ESP_LOGx LOG_E "UNEXPECTED EVENT" ;;
           modify (set_ap_connected false)) ;;
        ret true
  end.

(** [app_wifi_init] up to the wait inside [wifi_init]. *)
Definition app_wifi_init_setup (e : init_env) : M unit :=
  emit (external "nvs_flash_init") ;;
  r <- (if (nvs_flash_init_ret e =? ESP_ERR_NVS_NO_FREE_PAGES)
           || (nvs_flash_init_ret e =? ESP_ERR_NVS_NEW_VERSION_FOUND) then
          checked "nvs_flash_erase" (nvs_flash_erase_ret e) ;;
          emit (external "nvs_flash_init") ;;
          ret (nvs_flash_init_again_ret e)
        else ret (nvs_flash_init_ret e)) ;;
  ESP_ERROR_CHECK r ;;
  wifi_init_setup e.

(** [app_wifi_init] from the wait on: [None] while it is blocked, else the
    value it returns. *)
Definition app_wifi_init_finish : M (option esp_err_t) :=
  woke <- wifi_init_wait ;;
  if (woke : bool) then ret (Some ESP_OK) else ret None.

(** [app_wifi_is_connected] *)
Definition app_wifi_is_connected (s : state) : bool := ap_connected s.

(** The event loop delivering events one after the other. *)
Fixpoint handle_events (events : list wifi_event) : M unit :=
  match events with
  | [] => ret tt
  | event :: rest => event_handler event ;; handle_events rest
  end.

(** Counting events, and the calls of [esp_wifi_connect] made so far. *)
Definition n_start (evs : list wifi_event) : nat :=
  length (filter is_sta_start evs).
Definition n_disconnected (evs : list wifi_event) : nat :=
  length (filter is_sta_disconnected evs).
Definition connects (s : state) : nat :=
  calls_of "esp_wifi_connect" (trace (env s)).

(** [ap_connected] is clear. *)
Definition is_down (s : state) : Prop := ap_connected s = false.

(** The statics as [wifi_init] leaves them when it starts to wait. *)
Definition started (s : state) : Prop :=
  wifi_event_group s = Some 0 /\ s_retry_num s = 0 /\
  init_connection_done s = false.

(** The group exists and [WIFI_CONNECTED_BIT] is set in it. *)
Definition connected_bit_set (s : state) : Prop :=
  exists bits, wifi_event_group s = Some bits /\
               Z.land bits WIFI_CONNECTED_BIT = WIFI_CONNECTED_BIT.

End AppWifi.

(** * The WiFi side of [src/unnamed/part_001]: server life cycle *)
Module Streamer.

Definition TAG : string := "app_wifi".
Definition WIFI_MAX_RETRY : Z := 5.
Definition SERVER_PORT : Z := 8080.

(** The statics, with [retry_count] of [wifi_event_handler]. *)
Record state := mk_state {
  server : ptr;
  wifi_connected : bool;
  ip_addr : list ascii;
  retry_count : Z;
  env : world
}.

Definition set_server (h : ptr) (s : state) : state :=
  mk_state h (wifi_connected s) (ip_addr s) (retry_count s) (env s).
Definition set_wifi_connected (b : bool) (s : state) : state :=
  mk_state (server s) b (ip_addr s) (retry_count s) (env s).
Definition set_ip_addr (t : list ascii) (s : state) : state :=
  mk_state (server s) (wifi_connected s) t (retry_count s) (env s).
Definition set_retry_count (n : Z) (s : state) : state :=
  mk_state (server s) (wifi_connected s) (ip_addr s) n (env s).
Definition set_env (w : world) (s : state) : state :=
  mk_state (server s) (wifi_connected s) (ip_addr s) (retry_count s) w.

Definition boot (now : Z) : state :=
  mk_state NULL false (text "0.0.0.0") 0 (mk_world now []).

Definition emit (c : call) : M unit :=
  modify (fun s => set_env (emit_w c (env s)) s).
Definition ESP_LOGx (lvl : esp_log_level) (fmt : string) : M unit :=
  emit (ESP_LOG lvl TAG fmt).

(** What [httpd_start] answers. *)
Record httpd_env := mk_httpd_env {
  httpd_start_ret : esp_err_t;
  httpd_start_hdl : ptr
}.

(** [start_webserver]: the handle it returns. *)
Definition start_webserver (h : httpd_env) : M ptr :=
  ESP_LOGx LOG_I "Starting server on port: '%d'" ;;
  emit (external "httpd_start") ;;
  if httpd_start_ret h =? ESP_OK then
    ESP_LOGx LOG_I "Registering URI handlers" ;;
    emit (external "httpd_register_uri_handler") ;;
    emit (external "httpd_register_uri_handler") ;;
    ret (httpd_start_hdl h)
  else
    ESP_LOGx LOG_I "Error starting server!" ;;
    ret NULL.

(** [stop_webserver] *)
Definition stop_webserver (srv : ptr) : M unit :=
  if negb (srv =? NULL) then
    emit (external "httpd_stop") ;;
    ESP_LOGx LOG_I "Server stopped"
  else ret tt.

(** The text [IPSTR] formats from the four values of [IP2STR]. *)
Definition ip_text (a b c d : Z) : list ascii :=
  Libc.fmt_d (Libc.as_int a) ++ text "." ++
  Libc.fmt_d (Libc.as_int b) ++ text "." ++
  Libc.fmt_d (Libc.as_int c) ++ text "." ++
  Libc.fmt_d (Libc.as_int d).

(** [wifi_event_handler] *)
Definition wifi_event_handler (event : wifi_event) (h : httpd_env) : M unit :=
  match event with
  | WIFI_EVENT_STA_START =>
      emit (external "esp_wifi_connect") ;;
      ESP_LOGx LOG_I "WiFi STA starting..."
  | WIFI_EVENT_STA_DISCONNECTED =>
      modify (set_wifi_connected false) ;;
      srv <- gets server ;;
      stop_webserver srv ;;
      modify (set_server NULL) ;;
      n <- gets retry_count ;;
      if n <? WIFI_MAX_RETRY then
        emit (external "esp_wifi_connect") ;;
        modify (set_retry_count (Libc.as_int (n + 1))) ;;
        ESP_LOGx LOG_I "Retry to connect to the AP (%d/%d)"
      else
        ESP_LOGx LOG_I "Failed to connect after %d retries"
  | IP_EVENT_STA_GOT_IP a b c d =>
      modify (set_ip_addr (fst (Libc.snprintf 16 (ip_text a b c d)))) ;;
      modify (set_wifi_connected true) ;;
      modify (set_retry_count 0) ;;
      ESP_LOGx LOG_I "Got IP: %s" ;;
      srv <- start_webserver h ;;
      modify (set_server srv)
  | WIFI_EVENT_OTHER _ => ret tt
  end.

(** [app_wifi_is_connected] and [app_wifi_get_ip] *)
Definition app_wifi_is_connected (s : state) : bool := wifi_connected s.
Definition app_wifi_get_ip (s : state) : list ascii := ip_addr s.

(** The event loop delivering events, each with what [httpd_start] would
    answer. *)
Fixpoint handle_events (events : list (wifi_event * httpd_env)) : M unit :=
  match events with
  | [] => ret tt
  | (event, h) :: rest => wifi_event_handler event h ;; handle_events rest
  end.

(** Counting events, and the calls made so far. *)
Definition n_start (evs : list (wifi_event * httpd_env)) : nat :=
  length (filter (fun p => is_sta_start (fst p)) evs).
Definition n_disconnected (evs : list (wifi_event * httpd_env)) : nat :=
  length (filter (fun p => is_sta_disconnected (fst p)) evs).
Definition connects (s : state) : nat :=
  calls_of "esp_wifi_connect" (trace (env s)).

(** What the link flag is after a list of events. *)
Definition link_after (evs : list (wifi_event * httpd_env)) (before : bool)
  : bool :=
  fold_left (fun up p => match fst p with
                         | WIFI_EVENT_STA_DISCONNECTED => false
                         | IP_EVENT_STA_GOT_IP _ _ _ _ => true
                         | _ => up
                         end) evs before.

(** A server handle is held only while the link is up. *)
Definition served_only_when_up (s : state) : Prop :=
  server s <> NULL -> wifi_connected s = true.

(** The fields of a dotted text: the pieces between the dots. *)
Fixpoint split_dots (l : list ascii) (piece : list ascii) : list (list ascii) :=
  match l with
  | [] => [rev piece]
  | c :: rest =>
      if Ascii.eqb c "."%char then rev piece :: split_dots rest []
      else split_dots rest (c :: piece)
  end.

(** The numbers of a dotted decimal text. *)
Definition parse_dotted (l : list ascii) : list Z :=
  map Libc.atoi_digits (split_dots l []).

End Streamer.

(** * Parts of an MJPEG session *)

(** A frame [stream_handler] writes: it has data, of its stated length,
    which is positive and fits an [int]. *)
Definition writable (f : uvc_host_frame_t) : Prop :=
  exists bytes,
    data f = Some bytes /\ data_len f = Z.of_nat (length bytes) /\
    0 < data_len f < 2 ^ 31.

Definition frame_bytes (f : uvc_host_frame_t) : list byte :=
  match data f with Some bytes => bytes | None => [] end.

(** The multipart segment of a frame. *)
Definition part (f : uvc_host_frame_t) : list byte :=
  bytes_of (TwoQueue.frame_header_text (data_len f)) ++
  frame_bytes f ++ bytes_of CRLF.

(** The server reports the three writes of a pass sent in full, and the
    request still has its Host header. *)
Definition sent_in_full (f : uvc_host_frame_t) (e : TwoQueue.http_env) : Prop :=
  Z.of_nat (length (TwoQueue.frame_header_text (data_len f)))
    <= TwoQueue.ret_header e /\
  data_len f <= TwoQueue.ret_data e /\
  2 <= TwoQueue.ret_separator e /\
  TwoQueue.host_hdr_len e <> 0.

(** * Relations between the states of [src/main/app_uvc.c] *)

(** The frames of the captures in a list of actions. *)
Definition captures (acts : list AppUvc.action) : list uvc_host_frame_t :=
  flat_map (fun a => match a with
                     | AppUvc.Capture frame => [frame]
                     | _ => []
                     end) acts.


(** The queue is the same object with the same content. *)
Definition same_queue (s s' : AppUvc.state) : Prop :=
  AppUvc.rx_frames_queue s' = AppUvc.rx_frames_queue s.

(** The connection flag has not been raised. *)
Definition not_raised (s s' : AppUvc.state) : Prop :=
  AppUvc.dev_connected s' = true -> AppUvc.dev_connected s = true.


(** * Observers of the two-queue program *)

(** The frames of the captures in a list of actions of the two-queue
    program. *)
Definition tq_captures (acts : list TwoQueue.action) : list uvc_host_frame_t :=
  flat_map (fun a => match a with
                     | TwoQueue.Capture frame => [frame]
                     | _ => []
                     end) acts.

(** What [app_main] of the two-queue program needs to get past its
    checks: the local queue; if the streamer's queue was allocated, every
    network call answering [ESP_OK] and the interface created; both
    installs answering [ESP_OK] and both tasks created. *)
Definition start_up_passes (e : TwoQueue.init_env) : bool :=
  TwoQueue.rx_queue_allocated e
  && (if TwoQueue.wifi_queue_allocated e then
        (TwoQueue.esp_netif_init_ret e =? ESP_OK)
        && (TwoQueue.esp_event_loop_create_default_ret e =? ESP_OK)
        && negb (TwoQueue.sta_netif e =? NULL)
        && (TwoQueue.esp_wifi_init_ret e =? ESP_OK)
        && (TwoQueue.register_wifi_event_ret e =? ESP_OK)
        && (TwoQueue.register_ip_event_ret e =? ESP_OK)
        && (TwoQueue.esp_wifi_set_mode_ret e =? ESP_OK)
        && (TwoQueue.esp_wifi_set_config_ret e =? ESP_OK)
        && (TwoQueue.esp_wifi_start_ret e =? ESP_OK)
      else true)
  && (TwoQueue.usb_host_install_ret e =? ESP_OK)
  && (TwoQueue.usb_lib_task_created e =? pdTRUE)
  && (TwoQueue.uvc_host_install_ret e =? ESP_OK)
  && (TwoQueue.frame_hdl_task_created e =? pdTRUE).

(** * Reasoning about programs *)


Section RespectsRules.
Context {S : Type} (R : S -> S -> Prop) {HR : PreOrder R}.

Lemma respects_ret {A} (a : A) : respects R (ret a).
Proof. intros s a' s' H. inversion H; subst. reflexivity. Qed.

Lemma respects_bind {A B} (c : M A) (k : A -> M B) :
  respects R c -> (forall a, respects R (k a)) -> respects R (bind c k).
Proof.
  intros Hc Hk s b s' H. unfold bind in H.
  destruct (c s) as [[a s1]|] eqn:E; [|discriminate].
  transitivity s1; [eapply Hc | eapply Hk]; eassumption.
Qed.

Lemma respects_gets {A} (f : S -> A) : respects R (gets f).
Proof. intros s a s' H. inversion H; subst. reflexivity. Qed.

Lemma respects_abort {A} : respects R (@abort S A).
Proof. intros s a s' H. discriminate. Qed.

Lemma respects_assert (c : bool) : respects R (assert c).
Proof. destruct c; [apply respects_ret | apply respects_abort]. Qed.

Lemma respects_check (x : esp_err_t) : respects R (ESP_ERROR_CHECK x).
Proof.
  unfold ESP_ERROR_CHECK.
  destruct (x =? ESP_OK); [apply respects_ret | apply respects_abort].
Qed.

Lemma respects_modify (f : S -> S) :
  (forall s, R s (f s)) -> respects R (modify f).
Proof. intros Hf s a s' H. inversion H; subst. apply Hf. Qed.
End RespectsRules.

Lemma bind_done {S A B} (c : @M S A) (k : A -> M B) s b s' :
  bind c k s = Done (b, s') ->
  exists a s1, c s = Done (a, s1) /\ k a s1 = Done (b, s').
Proof.
  unfold bind. destruct (c s) as [[a s1]|]; [|discriminate].
  intros H. exists a, s1. split; [reflexivity|exact H].
Qed.

(** One rule of the calculus, or a case split on what the program
    branches on. *)
Ltac respects_step :=
  first
    [ apply respects_ret; typeclasses eauto
    | apply respects_gets; typeclasses eauto
    | apply respects_abort
    | apply respects_assert; typeclasses eauto
    | apply respects_check; typeclasses eauto
    | apply respects_bind; [ typeclasses eauto | | intros ? ]
    | match goal with
      | |- respects _ (if ?b then _ else _) => destruct b
      | |- respects _ (match ?x with _ => _ end) => destruct x
      end ].

(** [grows] is a preorder, and grows with the class of calls. *)
Lemma grows_refl P w : grows P w w.
Proof.
  split; [lia|]. exists []. rewrite app_nil_r. split; [reflexivity|constructor].
Qed.

Lemma grows_trans P w1 w2 w3 : grows P w1 w2 -> grows P w2 w3 -> grows P w1 w3.
Proof.
  intros [H1 [n1 [E1 F1]]] [H2 [n2 [E2 F2]]].
  split; [lia|]. exists (n1 ++ n2). split.
  - rewrite E2, E1, app_assoc. reflexivity.
  - apply Forall_app. split.
    + eapply Forall_impl; [|exact F1]. cbn. intros c [Hc Pc]. split; [lia|exact Pc].
    + eapply Forall_impl; [|exact F2]. cbn. intros c [Hc Pc]. split; [lia|exact Pc].
Qed.

Lemma grows_emit P c w : P c = true -> grows P w (emit_w c w).
Proof.
  intros Pc. split; cbn; [lia|]. exists [(xTickCount w, c)]. split; [reflexivity|].
  constructor; [|constructor]. cbn. split; [lia|exact Pc].
Qed.

Lemma grows_elapse P d w : 0 <= d -> grows P w (elapse_w d w).
Proof.
  intros Hd. split; cbn; [lia|]. exists []. rewrite app_nil_r.
  split; [reflexivity|constructor].
Qed.

(** Calls that are not open events leave [open_events] as it is. *)
Lemma open_events_app tr1 tr2 :
  open_events (tr1 ++ tr2) = open_events tr1 ++ open_events tr2.
Proof. apply filter_app. Qed.

Lemma grows_open_events w w' :
  grows quiet_call w w' ->
  open_events (trace w') = open_events (trace w).
Proof.
  intros [_ [n [E F]]]. rewrite E, open_events_app.
  replace (open_events n) with (@nil (Z * call)); [apply app_nil_r|].
  symmetry. clear E. induction F as [|c n [_ Hc] F IH]; [reflexivity|].
  unfold quiet_call in Hc. cbn. destruct (is_open_event (snd c)); [discriminate|exact IH].
Qed.

#[export] Instance keeps_preorder {S} (I : S -> Prop) : PreOrder (keeps I).
Proof. split; [intros s H; exact H | intros a b c H1 H2 H; auto]. Qed.

(** [pdMS_TO_TICKS] yields a 32-bit tick count. *)
Lemma pdMS_TO_TICKS_range hz ms : 0 <= pdMS_TO_TICKS hz ms < 2 ^ 32.
Proof. unfold pdMS_TO_TICKS. apply Z.mod_pos_bound. lia. Qed.

(** ** Spacing of open events *)

Lemma spaced_snoc interval l x :
  spaced interval (l ++ [x]) <->
  spaced interval l /\
  match last (map Some l) None with
  | Some a => is_failed_open (snd a) = true -> is_open_call (snd x) = true ->
              fst a + interval <= fst x
  | None => True
  end.
Proof.
  induction l as [|a [|b l] IH].
  - cbn. tauto.
  - cbn. tauto.
  - change (spaced interval ((a :: b :: l) ++ [x]))
      with ((is_failed_open (snd a) = true -> is_open_call (snd b) = true ->
             fst a + interval <= fst b) /\ spaced interval ((b :: l) ++ [x])).
    change (spaced interval (a :: b :: l))
      with ((is_failed_open (snd a) = true -> is_open_call (snd b) = true ->
             fst a + interval <= fst b) /\ spaced interval (b :: l)).
    change (last (map Some (a :: b :: l)) None)
      with (last (map Some (b :: l)) None).
    tauto.
Qed.

Lemma last_map_snoc {A} (l : list A) (x : A) :
  last (map Some (l ++ [x])) None = Some x.
Proof. rewrite map_app. cbn. apply last_last. Qed.

(** The invariant survives quiet steps, and an open attempt that starts
    now and, if it fails, is followed by a pause of the interval. *)
Lemma open_inv_quiet interval w w' :
  grows quiet_call w w' -> open_inv interval w -> open_inv interval w'.
Proof.
  intros G [Hs Hl]. pose proof (grows_open_events w w' G) as E.
  destruct G as [Ht _]. unfold open_inv. rewrite E. split; [exact Hs|].
  destruct (last (map Some (open_events (trace w))) None) as [a|]; [|exact I].
  intros Hf. specialize (Hl Hf). lia.
Qed.

Lemma open_inv_attempt interval w w' now back timeout err hdl :
  open_inv interval w ->
  xTickCount w <= now ->
  open_events (trace w') =
    open_events (trace w) ++
    [(now, uvc_host_stream_open timeout);
     (back, uvc_host_stream_open_ret err hdl)] ->
  (negb (ESP_OK =? err) = true -> back + interval <= xTickCount w') ->
  open_inv interval w'.
Proof.
  intros [Hs Hl] Hnow E Hwait. unfold open_inv. rewrite E.
  change (open_events (trace w) ++
          [(now, uvc_host_stream_open timeout);
           (back, uvc_host_stream_open_ret err hdl)])
    with (open_events (trace w) ++
          [(now, uvc_host_stream_open timeout)] ++
          [(back, uvc_host_stream_open_ret err hdl)]).
  rewrite app_assoc. split.
  - apply spaced_snoc. split.
    + apply spaced_snoc. split; [exact Hs|].
      destruct (last (map Some (open_events (trace w))) None) as [a|]; [|exact I].
      intros Hf _. specialize (Hl Hf). cbn. lia.
    + rewrite last_map_snoc. cbn. discriminate.
  - rewrite last_map_snoc. cbn. exact Hwait.
Qed.

Lemma spaced_split interval l1 a b l2 :
  spaced interval (l1 ++ a :: b :: l2) ->
  is_failed_open (snd a) = true -> is_open_call (snd b) = true ->
  fst a + interval <= fst b.
Proof.
  induction l1 as [|c l1 IH].
  - cbn. tauto.
  - intros H. apply IH. destruct l1; cbn in H |- *; tauto.
Qed.

(** * Properties of [src/main/app_uvc.c] *)
Module AppUvcProofs.
Import AppUvc.

#[local] Arguments Nat.ltb : simpl never.

(** Unfold the state-passing plumbing of a program applied to a state. *)
Ltac run_prog :=
  unfold ESP_LOGx, task_delay, emit, elapse, ESP_ERROR_CHECK, assert,
    bind, ret, gets, modify, abort in *;
  cbn in *.

(** What [frame_callback] does with a frame, by the room in the queue. *)
Lemma frame_callback_eq (f : uvc_host_frame_t) (q : Queue.t frame_ptr) (s : state) :
  rx_frames_queue s = Some q ->
  frame_callback (Some f) (Some addr_rx_frames_queue) s =
  let s1 := set_env (emit_w (ESP_LOG LOG_D TAG "Frame callback! data len: %d")
                            (env s)) s in
  if (length (Queue.items q) <? Queue.uxLength q)%nat then
    Done (false,
          set_env (elapse_w 0 (env s1))
            (set_rx_frames_queue
               (Some (Queue.mk (Queue.uxLength q) (Queue.items q ++ [Some f])))
               s1))
  else
    Done (true,
          set_env (emit_w (ESP_LOG LOG_W TAG "Queue full, losing frame")
                          (elapse_w 0 (env s1)))
            (set_rx_frames_queue (Some q) s1)).
Proof.
  intros Hq. unfold frame_callback, queue_send, Queue.xQueueSendToBack.
  run_prog. rewrite Hq.
  destruct (length (Queue.items q) <? Queue.uxLength q)%nat; reflexivity.
Qed.

(** One pass of the streaming loop on a queue whose head is [f]: the
    frame leaves the queue, the registered handler (if any) sees it, and it
    is returned to the driver. *)
Lemma task_stream_head hz uvc_stream (f : uvc_host_frame_t) n rest (s : state) :
  dev_connected s = true ->
  rx_frames_queue s = Some (Queue.mk n (Some f :: rest)) ->
  exists s',
    task_stream hz uvc_stream s = Done (Streaming uvc_stream, s') /\
    rx_frames_queue s' = Some (Queue.mk n rest) /\
    dev_connected s' = true /\
    xTickCount (env s') = xTickCount (env s) /\
    trace (env s') =
      trace (env s) ++
      (if g_user_frame_callback s =? NULL then []
       else [(xTickCount (env s),
              user_frame_cb (g_user_frame_callback s) (data f) (data_len f)
                            (g_user_callback_ctx s))]) ++
      [(xTickCount (env s), uvc_host_frame_return uvc_stream f)].
Proof.
  intros Hc Hq. unfold task_stream, queue_receive, Queue.xQueueReceive.
  run_prog. rewrite Hc, Hq. cbn.
  destruct (g_user_frame_callback s =? NULL) eqn:E; cbn.
  - eexists. repeat split; cbn; rewrite ?Z.add_0_r; auto.
  - eexists. repeat split; cbn; rewrite ?Z.add_0_r; auto.
    rewrite <- app_assoc. reflexivity.
Qed.

Lemma filter_is_return_app tr1 tr2 :
  filter is_return (tr1 ++ tr2) = filter is_return tr1 ++ filter is_return tr2.
Proof. apply filter_app. Qed.

(** ** C2 *)

(** C2.  [frame_callback] returns [true] exactly when the subscriber queue
    had no room, and then the queue is left as it was; it returns [false]
    exactly when the frame reference was appended to the queue.  The router
    itself never returns a frame; a frame that was handed off is returned by
    the consumer: the pass of [frame_handling_task]'s streaming loop that
    dequeues it calls [uvc_host_frame_return] on it, once. *)
Theorem frame_callback_hand_off
    (f : uvc_host_frame_t) (q : Queue.t frame_ptr) (s : state) :
  rx_frames_queue s = Some q ->
  (exists r s' q',
     frame_callback (Some f) (Some addr_rx_frames_queue) s = Done (r, s') /\
     rx_frames_queue s' = Some q' /\
     (r = true <-> (Queue.uxLength q <= length (Queue.items q))%nat) /\
     (r = true <-> Queue.items q' = Queue.items q) /\
     (r = false <-> Queue.items q' = Queue.items q ++ [Some f]) /\
     filter is_return (trace (env s')) = filter is_return (trace (env s))) /\
  (forall hz uvc_stream n rest (t : state),
     dev_connected t = true ->
     rx_frames_queue t = Some (Queue.mk n (Some f :: rest)) ->
     exists t',
       task_stream hz uvc_stream t = Done (Streaming uvc_stream, t') /\
       rx_frames_queue t' = Some (Queue.mk n rest) /\
       filter is_return (trace (env t')) =
         filter is_return (trace (env t)) ++
         [(xTickCount (env t), uvc_host_frame_return uvc_stream f)]).
Proof.
  intros Hq. split.
  - rewrite (frame_callback_eq f q s Hq). cbv zeta.
    assert (Hne : Queue.items q <> Queue.items q ++ [Some f]).
    { intros E. apply (f_equal (@length _)) in E.
      rewrite length_app in E. cbn in E. lia. }
    destruct (length (Queue.items q) <? Queue.uxLength q)%nat eqn:E.
    + apply Nat.ltb_lt in E.
      eexists false, _, _. split; [reflexivity|]. cbn.
      repeat split; try reflexivity; try discriminate; try lia.
      * intros E'. symmetry in E'. contradiction.
      * rewrite filter_is_return_app. cbn. apply app_nil_r.
    + apply Nat.ltb_ge in E.
      eexists true, _, _. split; [reflexivity|]. cbn.
      repeat split; try reflexivity; try discriminate; try lia.
      * intros E'. contradiction.
      * rewrite !filter_is_return_app. cbn. rewrite !app_nil_r. reflexivity.
  - intros hz uvc_stream n rest t Hc Ht.
    destruct (task_stream_head hz uvc_stream f n rest t Hc Ht)
      as [t' [E [Hq' [_ [_ Htr]]]]].
    exists t'. repeat split; [exact E|exact Hq'|].
    rewrite Htr, !filter_is_return_app.
    destruct (g_user_frame_callback t =? NULL); cbn; reflexivity.
Qed.

(** The theorem at a frame of three bytes arriving at an empty queue, and
    at the consumer pass that follows. *)
Lemma frame_callback_hand_off_witness :
  let f := mk_frame 1 (Some [x01; x02; x03]%byte) 3 in
  let s := mk_state (Some (Queue.xQueueCreate 3)) true NULL NULL (mk_world 0 []) in
  let t := mk_state (Some (Queue.mk 3 [Some f])) true NULL NULL (mk_world 0 []) in
  (exists r s' q',
     frame_callback (Some f) (Some addr_rx_frames_queue) s = Done (r, s') /\
     rx_frames_queue s' = Some q' /\
     (r = true <-> (3 <= 0)%nat) /\
     (r = true <-> Queue.items q' = []) /\
     (r = false <-> Queue.items q' = [Some f]) /\
     filter is_return (trace (env s')) = []) /\
  (exists t',
     task_stream 100 4096 t = Done (Streaming 4096, t') /\
     rx_frames_queue t' = Some (Queue.mk 3 []) /\
     filter is_return (trace (env t')) = [(0, uvc_host_frame_return 4096 f)]).
Proof.
  intros f s t.
  pose proof (frame_callback_hand_off f (Queue.xQueueCreate 3) s eq_refl)
    as [H1 H2].
  split; [exact H1|].
  exact (H2 100 4096 3%nat [] t eq_refl eq_refl).
Defined.

(** ** C9 *)

(** C9.  [app_uvc_register_frame_callback] with a NULL callback returns
    [ESP_ERR_INVALID_ARG] and leaves the registered callback and its context
    as they were; with a callback that is not NULL it returns [ESP_OK] and
    replaces both. *)
Theorem register_frame_callback_spec (frame_cb user_ctx : ptr) (s : state) :
  (exists s',
     app_uvc_register_frame_callback NULL user_ctx s =
       Done (ESP_ERR_INVALID_ARG, s') /\
     g_user_frame_callback s' = g_user_frame_callback s /\
     g_user_callback_ctx s' = g_user_callback_ctx s) /\
  (frame_cb <> NULL ->
   exists s',
     app_uvc_register_frame_callback frame_cb user_ctx s = Done (ESP_OK, s') /\
     g_user_frame_callback s' = frame_cb /\
     g_user_callback_ctx s' = user_ctx).
Proof.
  split.
  - eexists. split; [reflexivity|]. split; reflexivity.
  - intros Hcb. unfold app_uvc_register_frame_callback.
    destruct (Z.eqb_spec frame_cb NULL) as [E|_]; [contradiction|].
    eexists. split; [reflexivity|]. split; reflexivity.
Qed.

(** A registration (handler at address 4096, context 512) replaced by a
    failed one and by a successful one. *)
Lemma register_frame_callback_spec_witness :
  let s := mk_state None false 4096 512 (mk_world 0 []) in
  (exists s',
     app_uvc_register_frame_callback NULL 7 s = Done (ESP_ERR_INVALID_ARG, s') /\
     g_user_frame_callback s' = 4096 /\ g_user_callback_ctx s' = 512) /\
  (exists s',
     app_uvc_register_frame_callback 8192 7 s = Done (ESP_OK, s') /\
     g_user_frame_callback s' = 8192 /\ g_user_callback_ctx s' = 7).
Proof.
  intros s.
  pose proof (register_frame_callback_spec 8192 7 s) as [H1 H2].
  split; [exact H1|]. apply H2. discriminate.
Defined.

(** ** C6 *)

(** C6.  A transfer-error, buffer-overflow or buffer-underflow event leaves
    the connection flag, the queue, the registration and the frame task
    (which holds the stream handle) as they were and only writes one log
    line.  The device-disconnected event clears the connection flag and
    closes the stream handle the event carries (and aborts if the driver
    refuses the close).  Any other event type aborts. *)
Theorem stream_callback_effect hz (event : uvc_host_stream_event_data_t)
    (close_ret : esp_err_t) (x : sys) :
  match event with
  | UVC_HOST_DEVICE_DISCONNECTED stream_hdl =>
      exists x',
        step hz (StreamEvent event close_ret) x =
          (if close_ret =? ESP_OK then Done x' else Aborted) /\
        dev_connected (st x') = false /\
        pc x' = pc x /\
        rx_frames_queue (st x') = rx_frames_queue (st x) /\
        trace (env (st x')) =
          trace (env (st x)) ++
          [(xTickCount (env (st x)),
            ESP_LOG LOG_I TAG "Device suddenly disconnected");
           (xTickCount (env (st x)), uvc_host_stream_close stream_hdl)]
  | UVC_HOST_EVENT_OTHER _ =>
      step hz (StreamEvent event close_ret) x = Aborted
  | _ =>
      exists x' lvl fmt,
        step hz (StreamEvent event close_ret) x = Done x' /\
        dev_connected (st x') = dev_connected (st x) /\
        pc x' = pc x /\
        rx_frames_queue (st x') = rx_frames_queue (st x) /\
        g_user_frame_callback (st x') = g_user_frame_callback (st x) /\
        g_user_callback_ctx (st x') = g_user_callback_ctx (st x) /\
        xTickCount (env (st x')) = xTickCount (env (st x)) /\
        trace (env (st x')) =
          trace (env (st x)) ++ [(xTickCount (env (st x)), ESP_LOG lvl TAG fmt)]
  end.
Proof.
  destruct event; cbn.
  - eexists _, _, _. repeat split.
  - unfold lift, stream_callback. run_prog.
    destruct (close_ret =? ESP_OK).
    + eexists. split; [reflexivity|]. cbn. rewrite <- app_assoc.
      repeat split.
    + exists (mk_sys
                (set_env (emit_w (uvc_host_stream_close stream_hdl)
                           (emit_w (ESP_LOG LOG_I TAG
                                      "Device suddenly disconnected")
                                   (env (st x))))
                         (set_dev_connected false (st x)))
                (pc x)).
      split; [reflexivity|]. cbn. rewrite <- app_assoc. repeat split.
  - eexists _, _, _. repeat split.
  - eexists _, _, _. repeat split.
  - reflexivity.
Qed.

(** ** Every program of the file but the device search is quiet, and
    keeps the queue bounded *)

#[export] Instance evolves_preorder P : PreOrder (evolves P).
Proof.
  split; [intros s; apply grows_refl | intros a b c; apply grows_trans].
Qed.

Lemma emit_evolves P c : P c = true -> respects (evolves P) (emit c).
Proof.
  intros Pc s a s' H. inversion H; subst. apply grows_emit, Pc.
Qed.

Lemma elapse_evolves P d : 0 <= d -> respects (evolves P) (elapse d).
Proof.
  intros Hd s a s' H. inversion H; subst. apply grows_elapse, Hd.
Qed.

Lemma queue_send_evolves P var item ticks :
  0 <= ticks -> respects (evolves P) (queue_send var item ticks).
Proof.
  intros Ht. unfold queue_send, Queue.xQueueSendToBack.
  respects_step; [respects_step|]. destruct a as [q|]; [|apply respects_abort].
  destruct (length (Queue.items q) <? Queue.uxLength q)%nat;
    (respects_step; [apply respects_modify; intros s; apply grows_refl|];
     respects_step; [apply elapse_evolves; lia|]; respects_step).
Qed.

Lemma queue_receive_evolves P var ticks :
  0 <= ticks -> respects (evolves P) (queue_receive var ticks).
Proof.
  intros Ht. unfold queue_receive, Queue.xQueueReceive.
  respects_step; [respects_step|]. destruct a as [q|]; [|apply respects_abort].
  destruct (Queue.items q);
    (respects_step; [apply respects_modify; intros s; apply grows_refl|];
     respects_step; [apply elapse_evolves; lia|]; respects_step).
Qed.

(** Close a goal [respects (evolves quiet_call) c] for straight-line [c]. *)
Ltac quiet :=
  unfold ESP_LOGx, task_delay;
  repeat first
    [ apply emit_evolves; reflexivity
    | apply elapse_evolves; first [lia | apply pdMS_TO_TICKS_range]
    | apply queue_send_evolves; first [lia | apply pdMS_TO_TICKS_range]
    | apply queue_receive_evolves; first [lia | apply pdMS_TO_TICKS_range]
    | apply respects_modify; intros ?; apply grows_refl
    | respects_step ].

Lemma frame_callback_quiet frame user_ctx :
  respects (evolves quiet_call) (frame_callback frame user_ctx).
Proof. unfold frame_callback. quiet. Qed.

Lemma driver_capture_quiet frame :
  respects (evolves quiet_call) (driver_capture frame).
Proof.
  unfold driver_capture.
  respects_step; [apply frame_callback_quiet|]. quiet.
Qed.

Lemma stream_callback_quiet event user_ctx close_ret :
  respects (evolves quiet_call) (stream_callback event user_ctx close_ret).
Proof. unfold stream_callback. quiet. Qed.

Lemma register_quiet frame_cb user_ctx :
  respects (evolves quiet_call)
           (app_uvc_register_frame_callback frame_cb user_ctx).
Proof. unfold app_uvc_register_frame_callback. quiet. Qed.

Lemma app_uvc_init_quiet e : respects (evolves quiet_call) (app_uvc_init e).
Proof. unfold app_uvc_init. quiet. Qed.

Lemma task_stream_quiet hz uvc_stream :
  respects (evolves quiet_call) (task_stream hz uvc_stream).
Proof. unfold task_stream, ms_to_ticks. quiet. Qed.

Lemma queue_send_keeps var item ticks :
  respects (keeps queue_ok) (queue_send var item ticks).
Proof.
  intros s a s' H [q [Hq [Hn Hl]]].
  unfold queue_send, Queue.xQueueSendToBack in H. run_prog. rewrite Hq in H.
  destruct (length (Queue.items q) <? Queue.uxLength q)%nat eqn:E;
    inversion H; subst; clear H; eexists; (split; [reflexivity|]); cbn.
  - apply Nat.ltb_lt in E. rewrite length_app. cbn. split; lia.
  - split; assumption.
Qed.

Lemma queue_receive_keeps var ticks :
  respects (keeps queue_ok) (queue_receive var ticks).
Proof.
  intros s a s' H [q [Hq [Hn Hl]]].
  unfold queue_receive, Queue.xQueueReceive in H. run_prog. rewrite Hq in H.
  destruct (Queue.items q) as [|item rest] eqn:E;
    inversion H; subst; clear H; eexists; (split; [reflexivity|]); cbn.
  - rewrite E. cbn. split; [assumption|lia].
  - cbn in Hl. split; [assumption|lia].
Qed.

(** Close a goal [respects (keeps queue_ok) c] for straight-line [c]. *)
Ltac bounded :=
  unfold ESP_LOGx, task_delay, emit, elapse;
  repeat first
    [ apply queue_send_keeps
    | apply queue_receive_keeps
    | apply respects_modify; intros ? H; exact H
    | respects_step ].

Lemma frame_callback_keeps frame user_ctx :
  respects (keeps queue_ok) (frame_callback frame user_ctx).
Proof. unfold frame_callback. bounded. Qed.

Lemma driver_capture_keeps frame :
  respects (keeps queue_ok) (driver_capture frame).
Proof.
  unfold driver_capture.
  respects_step; [apply frame_callback_keeps|]. bounded.
Qed.

Lemma stream_callback_keeps event user_ctx close_ret :
  respects (keeps queue_ok) (stream_callback event user_ctx close_ret).
Proof. unfold stream_callback. bounded. Qed.

Lemma register_keeps frame_cb user_ctx :
  respects (keeps queue_ok) (app_uvc_register_frame_callback frame_cb user_ctx).
Proof. unfold app_uvc_register_frame_callback. bounded. Qed.

Lemma task_search_keeps hz o : respects (keeps queue_ok) (task_search hz o).
Proof. unfold task_search. bounded. Qed.

Lemma task_stream_keeps hz uvc_stream :
  respects (keeps queue_ok) (task_stream hz uvc_stream).
Proof. unfold task_stream. bounded. Qed.

(** [app_uvc_init] returns only with the queue created, empty, of
    length 3. *)
Lemma app_uvc_init_queue e s r s' :
  app_uvc_init e s = Done (r, s') ->
  rx_frames_queue s' = Some (Queue.xQueueCreate 3).
Proof.
  unfold app_uvc_init. intros H.
  unfold bind at 1 in H. cbn in H.
  unfold bind at 1 in H. cbn in H.
  destruct (queue_allocated e); cbn in H; [|discriminate].
  match type of H with
  | ?c ?s1 = _ =>
      assert (K : respects (keeps (fun t => rx_frames_queue t =
                                             Some (Queue.xQueueCreate 3))) c)
  end.
  { unfold ESP_LOGx, emit.
    repeat first [ apply respects_modify; intros ? K; exact K | respects_step ]. }
  apply (K _ _ _ H). reflexivity.
Qed.

Lemma step_keeps_queue hz a x x' :
  step hz a x = Done x' -> queue_ok (st x) -> queue_ok (st x').
Proof.
  destruct a; cbn; unfold lift; intros H.
  - destruct (driver_capture frame (st x)) as [[u s']|] eqn:E; [|discriminate].
    inversion H; subst. apply (driver_capture_keeps _ _ _ _ E).
  - destruct (stream_callback event NULL close_ret (st x)) as [[u s']|] eqn:E;
      [|discriminate].
    inversion H; subst. apply (stream_callback_keeps _ _ _ _ _ _ E).
  - destruct (frame_handling_task hz (pc x) o (st x)) as [[p s']|] eqn:E;
      [|discriminate].
    inversion H; subst. unfold frame_handling_task in E.
    destruct (pc x).
    + apply (task_search_keeps _ _ _ _ _ E).
    + apply (task_stream_keeps _ _ _ _ _ E).
  - destruct ((app_uvc_register_frame_callback frame_cb user_ctx;; ret tt) (st x))
      as [[u s']|] eqn:E; [|discriminate].
    inversion H; subst. revert E.
    match goal with |- ?c _ = _ -> _ => assert (K : respects (keeps queue_ok) c) end.
    { respects_step; [apply register_keeps|respects_step]. }
    apply K.
  - inversion H; subst. cbn. exact (fun K => K).
Qed.

Lemma reachable_queue_ok hz x : reachable hz x -> queue_ok (st x).
Proof.
  induction 1 as [now e r s H | a x x' _ IH H].
  - cbn. exists (Queue.xQueueCreate 3).
    split; [exact (app_uvc_init_queue _ _ _ _ H)|]. cbn. split; lia.
  - exact (step_keeps_queue _ _ _ _ H IH).
Qed.

(** A push on a full queue: [frame_callback] returns [true] at once, and the
    queue holds what it held. *)
Lemma frame_callback_full (f : uvc_host_frame_t) (q : Queue.t frame_ptr) (s : state) :
  rx_frames_queue s = Some q ->
  (Queue.uxLength q <= length (Queue.items q))%nat ->
  exists s',
    frame_callback (Some f) (Some addr_rx_frames_queue) s = Done (true, s') /\
    rx_frames_queue s' = Some q /\
    xTickCount (env s') = xTickCount (env s).
Proof.
  intros Hq Hfull. rewrite (frame_callback_eq f q s Hq). cbv zeta.
  apply Nat.ltb_ge in Hfull. rewrite Hfull.
  eexists. split; [reflexivity|]. cbn. split; [reflexivity|lia].
Qed.

(** ** The device search *)

Lemma task_search_fail hz o s :
  open_err o <> ESP_OK ->
  let now := xTickCount (env s) in
  let back := now + Z.of_N (open_ticks o) in
  task_search hz o s =
  Done (Searching,
        set_env
          (mk_world (back + pdMS_TO_TICKS hz 5000)
             (trace (env s) ++
              [(now, ESP_LOG LOG_I TAG "Looking for UVC camera...");
               (now, uvc_host_stream_open (pdMS_TO_TICKS hz 5000));
               (back, uvc_host_stream_open_ret (open_err o) (open_hdl o));
               (back, ESP_LOG LOG_I TAG "Failed to open device");
               (back, vTaskDelay (pdMS_TO_TICKS hz 5000))]))
          s).
Proof.
  intros He. unfold task_search, ms_to_ticks.
  destruct (Z.eqb_spec ESP_OK (open_err o)) as [E|_]; [congruence|].
  run_prog. unfold set_env, emit_w, elapse_w. cbn.
  rewrite <- !app_assoc. reflexivity.
Qed.

Lemma task_search_ok hz o s :
  open_err o = ESP_OK ->
  let now := xTickCount (env s) in
  let back := now + Z.of_N (open_ticks o) in
  task_search hz o s =
  Done (Streaming (open_hdl o),
        set_env
          (mk_world (back + pdMS_TO_TICKS hz 100)
             (trace (env s) ++
              [(now, ESP_LOG LOG_I TAG "Looking for UVC camera...");
               (now, uvc_host_stream_open (pdMS_TO_TICKS hz 5000));
               (back, uvc_host_stream_open_ret (open_err o) (open_hdl o));
               (back, ESP_LOG LOG_I TAG "Camera connected! Starting stream...");
               (back, vTaskDelay (pdMS_TO_TICKS hz 100));
               (back + pdMS_TO_TICKS hz 100,
                uvc_host_stream_start (open_hdl o))]))
          (set_dev_connected true s)).
Proof.
  intros He. unfold task_search, ms_to_ticks. rewrite He.
  run_prog. unfold set_env, emit_w, elapse_w. cbn.
  rewrite <- !app_assoc. reflexivity.
Qed.

Lemma step_open_inv hz a x x' :
  step hz a x = Done x' ->
  open_inv (pdMS_TO_TICKS hz 5000) (env (st x)) ->
  open_inv (pdMS_TO_TICKS hz 5000) (env (st x')).
Proof.
  destruct a; cbn; unfold lift; intros H.
  - destruct (driver_capture frame (st x)) as [[u s']|] eqn:E; [|discriminate].
    inversion H; subst. apply open_inv_quiet, (driver_capture_quiet _ _ _ _ E).
  - destruct (stream_callback event NULL close_ret (st x)) as [[u s']|] eqn:E;
      [|discriminate].
    inversion H; subst.
    apply open_inv_quiet, (stream_callback_quiet _ _ _ _ _ _ E).
  - destruct (frame_handling_task hz (pc x) o (st x)) as [[p s']|] eqn:E;
      [|discriminate].
    inversion H; subst. unfold frame_handling_task in E.
    destruct (pc x).
    + intros Hinv. destruct (Z.eq_dec (open_err o) ESP_OK) as [Hok|Hfail].
      * rewrite (task_search_ok hz o (st x) Hok) in E. cbv zeta in E.
        inversion E; subst. cbn.
        eapply open_inv_attempt with (now := xTickCount (env (st x)));
          [exact Hinv|lia| |].
        -- cbn. rewrite open_events_app. reflexivity.
        -- rewrite Hok. discriminate.
      * rewrite (task_search_fail hz o (st x) Hfail) in E. cbv zeta in E.
        inversion E; subst. cbn.
        eapply open_inv_attempt with (now := xTickCount (env (st x)));
          [exact Hinv|lia| |].
        -- cbn. rewrite open_events_app. reflexivity.
        -- intros _. cbn. lia.
    + apply open_inv_quiet, (task_stream_quiet _ _ _ _ _ E).
  - destruct ((app_uvc_register_frame_callback frame_cb user_ctx;; ret tt) (st x))
      as [[u s']|] eqn:E; [|discriminate].
    inversion H; subst. apply open_inv_quiet. revert E.
    match goal with
    | |- ?c _ = _ -> _ => assert (K : respects (evolves quiet_call) c)
    end.
    { respects_step; [apply register_quiet|respects_step]. }
    apply K.
  - inversion H; subst. apply open_inv_quiet. cbn. apply grows_elapse. lia.
Qed.

Lemma reachable_open_inv hz x :
  reachable hz x -> open_inv (pdMS_TO_TICKS hz 5000) (env (st x)).
Proof.
  induction 1 as [now e r s H | a x x' _ IH H].
  - cbn. apply (open_inv_quiet _ (env (boot now))).
    + exact (app_uvc_init_quiet _ _ _ _ H).
    + cbn. split; exact I.
  - exact (step_open_inv _ _ _ _ H IH).
Qed.

(** A failed open is followed by the next one no sooner than 5000 ms
    later. *)
Lemma retry_spacing hz x l1 l2 t1 t2 err hdl timeout :
  reachable hz x ->
  err <> ESP_OK ->
  open_events (trace (env (st x))) =
    l1 ++ (t1, uvc_host_stream_open_ret err hdl)
       :: (t2, uvc_host_stream_open timeout) :: l2 ->
  t1 + pdMS_TO_TICKS hz 5000 <= t2.
Proof.
  intros Hr He E. destruct (reachable_open_inv hz x Hr) as [Hs _].
  rewrite E in Hs.
  apply (spaced_split _ _ _ _ _ Hs); [|reflexivity].
  cbn [snd is_failed_open].
  destruct (Z.eqb_spec ESP_OK err); [congruence|reflexivity].
Qed.

(** However many opens fail, the task goes on searching; the open that
    succeeds sets the connection flag, enters the streaming loop with the
    handle it was given, and the last call made is the stream start. *)
Lemma search_until_found hz (fails : list open_env) (o : open_env) (x : sys) :
  pc x = Searching ->
  Forall (fun o' => open_err o' <> ESP_OK) fails ->
  open_err o = ESP_OK ->
  exists x' before t,
    run hz (map TaskStep (fails ++ [o])) x = Done x' /\
    dev_connected (st x') = true /\
    pc x' = Streaming (open_hdl o) /\
    trace (env (st x')) = before ++ [(t, uvc_host_stream_start (open_hdl o))].
Proof.
  intros Hpc Hfails Hok. revert x Hpc.
  induction Hfails as [|o' fails Ho' _ IH]; intros x Hpc.
  - cbn. unfold frame_handling_task. rewrite Hpc.
    rewrite (task_search_ok hz o (st x) Hok). cbv zeta.
    eexists _, _, _. split; [reflexivity|]. cbn.
    split; [reflexivity|]. split; [reflexivity|].
    change (?l ++ [?a; ?b; ?c; ?d; ?e; ?f]) with (l ++ [a; b; c; d; e] ++ [f]).
    rewrite app_assoc. reflexivity.
  - cbn. unfold frame_handling_task. rewrite Hpc.
    rewrite (task_search_fail hz o' (st x) Ho'). cbv zeta.
    apply IH. reflexivity.
Qed.

End AppUvcProofs.

(** * Properties of the ["%d"] conversion *)
Module LibcProofs.
Import Libc.

Lemma digits_length fuel n acc :
  (length (digits fuel n acc) <= fuel + length acc)%nat.
Proof.
  revert n acc. induction fuel as [|fuel IH]; intros n acc; cbn [digits].
  - lia.
  - destruct (n / 10 =? 0).
    + cbn [length]. lia.
    + specialize (IH (n / 10) (ascii_of_N (Z.to_N (48 + n mod 10)) :: acc)).
      cbn [length] in IH. lia.
Qed.

Lemma digit_value d :
  0 <= d < 10 -> Z.of_N (N_of_ascii (ascii_of_N (Z.to_N (48 + d)))) - 48 = d.
Proof.
  intros Hd. rewrite N_ascii_embedding.
  - rewrite Z2N.id; lia.
  - apply N2Z.inj_lt. rewrite Z2N.id; lia.
Qed.

(** The digits read back as the number they were produced from. *)
Lemma digits_value fuel n acc :
  0 <= n < 2 ^ Z.of_nat fuel ->
  atoi_digits (digits fuel n acc) =
  fold_left (fun v c => 10 * v + (Z.of_N (N_of_ascii c) - 48)) acc n.
Proof.
  unfold atoi_digits. revert n acc.
  induction fuel as [|fuel IH]; intros n acc Hn; cbn [digits].
  - cbn in Hn. replace n with 0 by lia. reflexivity.
  - assert (Hm : 0 <= n mod 10 < 10) by (apply Z.mod_pos_bound; lia).
    pose proof (Z.div_mod n 10 ltac:(lia)) as Hdm.
    destruct (Z.eqb_spec (n / 10) 0) as [E|E].
    + cbn [fold_left]. rewrite digit_value by exact Hm.
      f_equal. lia.
    + rewrite IH.
      * cbn [fold_left]. rewrite digit_value by exact Hm. f_equal. lia.
      * rewrite Nat2Z.inj_succ, Z.pow_succ_r in Hn by lia.
        split; [apply Z.div_pos; lia|].
        apply Z.div_lt_upper_bound; lia.
Qed.

(** Only digits come out. *)
Lemma digits_are_digits fuel n acc :
  forallb is_digit acc = true -> forallb is_digit (digits fuel n acc) = true.
Proof.
  revert n acc. induction fuel as [|fuel IH]; intros n acc Hacc; cbn [digits].
  - exact Hacc.
  - assert (Hm : 0 <= n mod 10 < 10) by (apply Z.mod_pos_bound; lia).
    assert (Hd : forallb is_digit (ascii_of_N (Z.to_N (48 + n mod 10)) :: acc)
                 = true).
    { cbn [forallb]. rewrite Hacc, andb_true_r. unfold is_digit.
      rewrite N_ascii_embedding by (apply N2Z.inj_lt; rewrite Z2N.id; lia).
      apply andb_true_iff. split; apply N.leb_le; apply N2Z.inj_le;
        rewrite Z2N.id; lia. }
    destruct (n / 10 =? 0); [exact Hd|apply IH, Hd].
Qed.

Lemma utoa_digits n : forallb is_digit (utoa n) = true.
Proof. apply digits_are_digits. reflexivity. Qed.

Lemma utoa_value n : 0 <= n -> atoi_digits (utoa n) = n.
Proof.
  intros Hn. unfold utoa. rewrite digits_value; [reflexivity|].
  split; [exact Hn|].
  destruct (Z.eq_dec n 0) as [->|Hz]; [cbn; lia|].
  rewrite Nat2Z.inj_succ, Z2Nat.id by apply Z.log2_nonneg.
  apply Z.log2_spec. lia.
Qed.

Lemma utoa_length n : 0 <= n < 2 ^ 32 -> (length (utoa n) <= 32)%nat.
Proof.
  intros Hn. unfold utoa.
  pose proof (digits_length (S (Z.to_nat (Z.log2 n))) n []) as H. cbn [length] in H.
  assert (Z.log2 n < 32).
  { destruct (Z.eq_dec n 0) as [->|Hz]; [cbn; lia|].
    apply Z.log2_lt_pow2; lia. }
  pose proof (Z.log2_nonneg n). lia.
Qed.

Lemma as_int_range n : - 2 ^ 31 <= as_int n < 2 ^ 31.
Proof.
  unfold as_int. pose proof (Z.mod_pos_bound n (2 ^ 32) ltac:(lia)) as H.
  destruct (Z.ltb_spec (n mod 2 ^ 32) (2 ^ 31)); lia.
Qed.

Lemma as_int_small n : 0 <= n < 2 ^ 31 -> as_int n = n.
Proof.
  intros Hn. unfold as_int. rewrite Z.mod_small by lia.
  destruct (Z.ltb_spec n (2 ^ 31)); lia.
Qed.

Lemma fmt_d_length n : - 2 ^ 31 <= n < 2 ^ 31 -> (length (fmt_d n) <= 33)%nat.
Proof.
  intros Hn. unfold fmt_d. destruct (Z.ltb_spec n 0).
  - cbn [length]. pose proof (utoa_length (- n) ltac:(lia)). lia.
  - pose proof (utoa_length n ltac:(lia)). lia.
Qed.

End LibcProofs.

(** * Properties of the two-queue program *)
Module TwoQueueProofs.
Import TwoQueue.

#[local] Arguments Nat.ltb : simpl never.
#[local] Arguments Z.ltb : simpl never.
#[local] Arguments Z.gtb : simpl never.
#[local] Arguments Z.eqb : simpl never.
#[local] Arguments Z.min : simpl never.
#[local] Arguments Z.to_nat : simpl never.
#[local] Arguments Z.of_nat : simpl never.
#[local] Arguments Libc.snprintf : simpl never.
#[local] Arguments firstn : simpl never.
#[local] Arguments frame_header_text : simpl never.
#[local] Arguments bytes_of : simpl never.

Ltac run_prog :=
  unfold ESP_LOGx, task_delay, emit, elapse, ESP_ERROR_CHECK, assert,
    bind, ret, gets, modify, abort in *;
  cbn in *.

Lemma text_lengths :
  length (text "--frame") = 7%nat /\
  length (text "Content-Type: image/jpeg") = 24%nat /\
  length (text "Content-Length: ") = 16%nat /\
  length CRLF = 2%nat.
Proof. repeat split. Qed.

(** The part header always fits the 128-byte buffer [snprintf] writes to. *)
Lemma frame_header_fits len :
  Z.of_nat (length (frame_header_text len)) <= 127.
Proof.
  unfold frame_header_text. rewrite !length_app.
  destruct text_lengths as [-> [-> [-> ->]]].
  pose proof (LibcProofs.fmt_d_length _ (LibcProofs.as_int_range len)). lia.
Qed.

Lemma snprintf_frame_header len :
  Libc.snprintf 128 (frame_header_text len) =
  (frame_header_text len, Z.of_nat (length (frame_header_text len))).
Proof.
  unfold Libc.snprintf. f_equal. apply firstn_all2.
  pose proof (frame_header_fits len). lia.
Qed.

Lemma http_output_app tr1 tr2 :
  http_output (tr1 ++ tr2) = http_output tr1 ++ http_output tr2.
Proof. apply flat_map_app. Qed.

(** One pass of the loop on a queue whose head is a frame with data. *)
Lemma stream_handler_body_frame hz (e : http_env) (f : uvc_host_frame_t)
    bytes n rest (s : state) :
  data f = Some bytes ->
  0 < data_len f ->
  frame_queue s = Some (Queue.mk n (Some f :: rest)) ->
  let hdr := frame_header_text (data_len f) in
  let now := xTickCount (env s) in
  let sent buffer len answer :=
    if answer <? 0 then []
    else firstn (Z.to_nat (Z.min answer len)) buffer in
  let s1 := set_frame_queue (Some (Queue.mk n rest)) s in
  let out1 := (now, httpd_send (sent (bytes_of hdr) (Z.of_nat (length hdr))
                                     (ret_header e)) (ret_header e)) in
  let out2 := (now, httpd_send (sent bytes (data_len f) (ret_data e))
                               (ret_data e)) in
  let out3 := (now, httpd_send (sent (bytes_of CRLF) 2 (ret_separator e))
                               (ret_separator e)) in
  stream_handler_body hz e s =
  if ret_header e <? 0 then
    Done (Break,
          set_env (mk_world now
                     (trace (env s) ++
                      [out1;
                       (now, ESP_LOG LOG_I TAG_wifi
                                     "Client disconnected during header")]))
                  s1)
  else if ret_data e <? 0 then
    Done (Break,
          set_env (mk_world now
                     (trace (env s) ++
                      [out1; out2;
                       (now, ESP_LOG LOG_I TAG_wifi
                                     "Client disconnected during frame")]))
                  s1)
  else if host_hdr_len e =? 0 then
    Done (Break,
          set_env (mk_world now
                     (trace (env s) ++
                      [out1; out2; out3;
                       (now, uvc_host_frame_return NULL f);
                       (now, httpd_req_get_hdr_value_len "Host");
                       (now, ESP_LOG LOG_I TAG_wifi "Client disconnected")]))
                  s1)
  else
    Done (Continue,
          set_env (mk_world now
                     (trace (env s) ++
                      [out1; out2; out3;
                       (now, uvc_host_frame_return NULL f);
                       (now, httpd_req_get_hdr_value_len "Host")]))
                  s1).
Proof.
  intros Hd Hl Hq. cbv zeta.
  unfold stream_handler_body, queue_receive, Queue.xQueueReceive, send.
  run_prog. rewrite Hq. cbn. rewrite Hd.
  replace (data_len f >? 0) with true by (symmetry; apply Z.gtb_lt; lia).
  rewrite snprintf_frame_header.
  unfold set_env, set_frame_queue, emit_w, elapse_w. cbn.
  rewrite Z.add_0_r. change (pdPASS =? pdTRUE) with true. cbn.
  destruct (ret_header e <? 0); cbn.
  { rewrite <- !app_assoc. reflexivity. }
  destruct (ret_data e <? 0); cbn.
  { rewrite <- !app_assoc. reflexivity. }
  destruct (host_hdr_len e =? 0); cbn; rewrite <- !app_assoc; reflexivity.
Qed.

(** ** C7 *)

(** C7.  When the streaming consumer dequeues a frame of [L] bytes
    ([0 < L < 2^31]) and the server reports each of the three writes as
    sent in full, the bytes put on the connection by that pass are exactly
    the part header ["--frame" CRLF "Content-Type: image/jpeg" CRLF
    "Content-Length: " L CRLF CRLF], then the [L] frame bytes, then [CRLF];
    [L] is written in decimal (digits only, which read back as [L]). *)
Theorem mjpeg_part_bytes hz (e : http_env) (f : uvc_host_frame_t)
    bytes n rest (s : state) :
  data f = Some bytes ->
  data_len f = Z.of_nat (length bytes) ->
  0 < data_len f < 2 ^ 31 ->
  frame_queue s = Some (Queue.mk n (Some f :: rest)) ->
  Z.of_nat (length (frame_header_text (data_len f))) <= ret_header e ->
  data_len f <= ret_data e ->
  2 <= ret_separator e ->
  exists ctl s',
    stream_handler_body hz e s = Done (ctl, s') /\
    http_output (trace (env s')) =
      http_output (trace (env s)) ++
      bytes_of (text "--frame" ++ CRLF ++
                text "Content-Type: image/jpeg" ++ CRLF ++
                text "Content-Length: " ++ Libc.utoa (data_len f) ++ CRLF ++
                CRLF) ++
      bytes ++
      bytes_of CRLF /\
    forallb Libc.is_digit (Libc.utoa (data_len f)) = true /\
    Libc.atoi_digits (Libc.utoa (data_len f)) = data_len f.
Proof.
  intros Hd Hlen Hl Hq H1 H2 H3.
  rewrite (stream_handler_body_frame hz e f bytes n rest s Hd (proj1 Hl) Hq).
  cbv zeta.
  pose proof (frame_header_fits (data_len f)) as Hfit.
  assert (E1 : (ret_header e <? 0) = false) by (apply Z.ltb_ge; lia).
  assert (E2 : (ret_data e <? 0) = false) by (apply Z.ltb_ge; lia).
  assert (E3 : (ret_separator e <? 0) = false) by (apply Z.ltb_ge; lia).
  rewrite E1, E2, E3.
  rewrite !firstn_all2;
    [ | change (length (bytes_of CRLF)) with 2%nat; lia
      | lia
      | unfold bytes_of; rewrite length_map; lia ].
  assert (Htext : frame_header_text (data_len f) =
                  text "--frame" ++ CRLF ++
                  text "Content-Type: image/jpeg" ++ CRLF ++
                  text "Content-Length: " ++ Libc.utoa (data_len f) ++ CRLF ++
                  CRLF).
  { unfold frame_header_text. rewrite LibcProofs.as_int_small by lia.
    unfold Libc.fmt_d.
    replace (data_len f <? 0) with false by (symmetry; apply Z.ltb_ge; lia).
    reflexivity. }
  rewrite <- Htext.
  destruct (host_hdr_len e =? 0);
    (eexists _, _; split; [reflexivity|]; split;
     [ cbn [env set_env trace]; rewrite http_output_app;
       unfold http_output at 2; cbn [flat_map snd];
       rewrite ?app_nil_r, <- ?app_assoc; reflexivity
     | split; [apply LibcProofs.utoa_digits | apply LibcProofs.utoa_value; lia] ]).
Qed.

(** The theorem at a frame of three bytes, alone in the queue, every write
    sent in full. *)
Lemma mjpeg_part_bytes_witness :
  let f := mk_frame 1 (Some [xff; xd8; xd9]%byte) 3 in
  let s := mk_state (Some (Queue.xQueueCreate 3)) (Some (Queue.mk 3 [Some f]))
                    true 4096 (mk_world 0 []) in
  exists ctl s',
    stream_handler_body 100 (mk_http_env 56 3 2 9) s = Done (ctl, s') /\
    http_output (trace (env s')) =
      bytes_of (text "--frame" ++ CRLF ++
                text "Content-Type: image/jpeg" ++ CRLF ++
                text "Content-Length: " ++ ["3"%char] ++ CRLF ++ CRLF) ++
      [xff; xd8; xd9]%byte ++
      bytes_of CRLF /\
    forallb Libc.is_digit ["3"%char] = true /\
    Libc.atoi_digits ["3"%char] = 3.
Proof.
  intros f s.
  refine (mjpeg_part_bytes 100 (mk_http_env 56 3 2 9) f [xff; xd8; xd9]%byte
            3%nat [] s eq_refl eq_refl _ eq_refl _ _ _).
  - split; reflexivity.
  - vm_compute. discriminate.
  - vm_compute. discriminate.
  - vm_compute. discriminate.
Defined.

(** ** The fan-out *)

(** What [frame_callback] does when both queues exist: each queue takes the
    frame if it has room, whatever the other does; the result looks at the
    local queue only. *)
Lemma frame_callback_fanout (f : uvc_host_frame_t)
    (q w : Queue.t frame_ptr) (s : state) :
  rx_frames_queue s = Some q ->
  frame_queue s = Some w ->
  exists s',
    frame_callback (Some f) (Some addr_rx_frames_queue) s =
      Done (negb (length (Queue.items q) <? Queue.uxLength q)%nat, s') /\
    rx_frames_queue s' =
      Some (if (length (Queue.items q) <? Queue.uxLength q)%nat
            then Queue.mk (Queue.uxLength q) (Queue.items q ++ [Some f])
            else q) /\
    frame_queue s' =
      Some (if (length (Queue.items w) <? Queue.uxLength w)%nat
            then Queue.mk (Queue.uxLength w) (Queue.items w ++ [Some f])
            else w) /\
    xTickCount (env s') = xTickCount (env s) /\
    filter is_return (trace (env s')) = filter is_return (trace (env s)).
Proof.
  intros Hq Hw.
  unfold frame_callback, wifi_frame_queue, queue_send, Queue.xQueueSendToBack.
  run_prog. rewrite Hq.
  destruct (length (Queue.items q) <? Queue.uxLength q)%nat; cbn;
    repeat (progress (rewrite ?Hw; cbn));
    destruct (length (Queue.items w) <? Queue.uxLength w)%nat; cbn;
    change (pdPASS =? pdPASS) with true;
    change (pdPASS =? errQUEUE_FULL) with false; cbn;
    (eexists; split; [reflexivity|]; cbn;
     repeat split; rewrite ?Z.add_0_r; try reflexivity;
     rewrite ?filter_app; cbn; rewrite ?app_nil_r; reflexivity).
Qed.

(** ** Every program but the device search is quiet, and keeps both queues
    bounded *)

#[export] Instance tq_evolves_preorder P : PreOrder (evolves P).
Proof.
  split; [intros s; apply grows_refl | intros a b c; apply grows_trans].
Qed.

Lemma tq_emit_evolves P c : P c = true -> respects (evolves P) (emit c).
Proof.
  intros Pc s a s' H. inversion H; subst. apply grows_emit, Pc.
Qed.

Lemma tq_elapse_evolves P d : 0 <= d -> respects (evolves P) (elapse d).
Proof.
  intros Hd s a s' H. inversion H; subst. apply grows_elapse, Hd.
Qed.

Lemma store_env var h s : env (store var h s) = env s.
Proof. destruct var; reflexivity. Qed.

Lemma tq_queue_send_evolves P var item ticks :
  0 <= ticks -> respects (evolves P) (queue_send var item ticks).
Proof.
  intros Ht. unfold queue_send, Queue.xQueueSendToBack.
  respects_step; [respects_step|]. destruct a as [q|]; [|apply respects_abort].
  destruct (length (Queue.items q) <? Queue.uxLength q)%nat;
    (respects_step;
     [apply respects_modify; intros s; unfold evolves; rewrite store_env;
      apply grows_refl|];
     respects_step; [apply tq_elapse_evolves; lia|]; respects_step).
Qed.

Lemma tq_queue_receive_evolves P var ticks :
  0 <= ticks -> respects (evolves P) (queue_receive var ticks).
Proof.
  intros Ht. unfold queue_receive, Queue.xQueueReceive.
  respects_step; [respects_step|]. destruct a as [q|]; [|apply respects_abort].
  destruct (Queue.items q);
    (respects_step;
     [apply respects_modify; intros s; unfold evolves; rewrite store_env;
      apply grows_refl|];
     respects_step; [apply tq_elapse_evolves; lia|]; respects_step).
Qed.

Ltac quiet :=
  unfold ESP_LOGx, task_delay, checked, send;
  repeat first
    [ apply tq_emit_evolves; reflexivity
    | apply tq_elapse_evolves; first [lia | apply pdMS_TO_TICKS_range]
    | apply tq_queue_send_evolves; first [lia | apply pdMS_TO_TICKS_range]
    | apply tq_queue_receive_evolves; first [lia | apply pdMS_TO_TICKS_range]
    | apply respects_modify; intros ?; apply grows_refl
    | respects_step ].

Lemma tq_frame_callback_quiet frame user_ctx :
  respects (evolves quiet_call) (frame_callback frame user_ctx).
Proof. unfold frame_callback. quiet. Qed.

Lemma tq_driver_capture_quiet frame :
  respects (evolves quiet_call) (driver_capture frame).
Proof.
  unfold driver_capture.
  respects_step; [apply tq_frame_callback_quiet|]. quiet.
Qed.

Lemma tq_stream_callback_quiet event user_ctx close_ret :
  respects (evolves quiet_call) (stream_callback event user_ctx close_ret).
Proof. unfold stream_callback. quiet. Qed.

Lemma app_main_quiet e : respects (evolves quiet_call) (app_main e).
Proof. unfold app_main, app_wifi_init, app_wifi_start. quiet. Qed.

Lemma tq_task_stream_quiet hz : respects (evolves quiet_call) (task_stream hz).
Proof. unfold task_stream, ms_to_ticks. quiet. Qed.

Lemma stream_handler_body_quiet hz e :
  respects (evolves quiet_call) (stream_handler_body hz e).
Proof. unfold stream_handler_body. quiet. Qed.

Lemma stream_handler_loop_quiet hz es :
  respects (evolves quiet_call) (stream_handler_loop hz es).
Proof.
  induction es as [|e es IH]; cbn [stream_handler_loop].
  - quiet.
  - respects_step; [apply stream_handler_body_quiet|].
    destruct a; [exact IH|quiet].
Qed.

Lemma stream_handler_quiet hz ret_preamble es :
  respects (evolves quiet_call) (stream_handler hz ret_preamble es).
Proof.
  unfold stream_handler.
  respects_step; [quiet|]. respects_step; [quiet|].
  apply stream_handler_loop_quiet.
Qed.

Lemma bounded3_send (q : Queue.t frame_ptr) item ticks :
  bounded3 (Some q) ->
  bounded3 (Some (snd (fst (Queue.xQueueSendToBack q item ticks)))).
Proof.
  intros [q' [E [Hn Hl]]]. inversion E; subst q'.
  unfold Queue.xQueueSendToBack.
  destruct (length (Queue.items q) <? Queue.uxLength q)%nat eqn:L;
    eexists; (split; [reflexivity|]); cbn.
  - apply Nat.ltb_lt in L. rewrite length_app. cbn. split; lia.
  - split; assumption.
Qed.

Lemma bounded3_receive (q : Queue.t frame_ptr) ticks :
  bounded3 (Some q) ->
  bounded3 (Some (snd (fst (Queue.xQueueReceive q ticks)))).
Proof.
  intros [q' [E [Hn Hl]]]. inversion E; subst q'.
  unfold Queue.xQueueReceive.
  destruct (Queue.items q) as [|item rest] eqn:L;
    eexists; (split; [reflexivity|]); cbn.
  - rewrite L. cbn. split; [assumption|lia].
  - cbn in Hl. split; [assumption|lia].
Qed.

Lemma tq_queue_send_keeps var item ticks :
  respects (keeps queue_ok) (queue_send var item ticks).
Proof.
  intros s a s' H [Hrx Hfq].
  unfold queue_send in H. run_prog.
  destruct (load var s) as [q|] eqn:Hq; [|discriminate].
  pose proof (bounded3_send q item ticks) as B.
  destruct (Queue.xQueueSendToBack q item ticks) as [[r q'] waited].
  cbn in H, B. inversion H; subst; clear H.
  destruct var; cbn in Hq |- *; split; cbn.
  - apply B. rewrite <- Hq. exact Hrx.
  - exact Hfq.
  - exact Hrx.
  - right. apply B. rewrite <- Hq. destruct Hfq as [Hn|Hb]; [congruence|exact Hb].
Qed.

Lemma tq_queue_receive_keeps var ticks :
  respects (keeps queue_ok) (queue_receive var ticks).
Proof.
  intros s a s' H [Hrx Hfq].
  unfold queue_receive in H. run_prog.
  destruct (load var s) as [q|] eqn:Hq; [|discriminate].
  pose proof (bounded3_receive q ticks) as B.
  destruct (Queue.xQueueReceive q ticks) as [[[r item] q'] waited].
  cbn in H, B. inversion H; subst; clear H.
  destruct var; cbn in Hq |- *; split; cbn.
  - apply B. rewrite <- Hq. exact Hrx.
  - exact Hfq.
  - exact Hrx.
  - right. apply B. rewrite <- Hq. destruct Hfq as [Hn|Hb]; [congruence|exact Hb].
Qed.

Ltac bounded :=
  unfold ESP_LOGx, task_delay, checked, send, emit, elapse;
  repeat first
    [ apply tq_queue_send_keeps
    | apply tq_queue_receive_keeps
    | apply respects_modify; intros ? H; exact H
    | respects_step ].

Lemma tq_frame_callback_keeps frame user_ctx :
  respects (keeps queue_ok) (frame_callback frame user_ctx).
Proof. unfold frame_callback. bounded. Qed.

Lemma tq_driver_capture_keeps frame :
  respects (keeps queue_ok) (driver_capture frame).
Proof.
  unfold driver_capture.
  respects_step; [apply tq_frame_callback_keeps|]. bounded.
Qed.

Lemma tq_stream_callback_keeps event user_ctx close_ret :
  respects (keeps queue_ok) (stream_callback event user_ctx close_ret).
Proof. unfold stream_callback. bounded. Qed.

Lemma tq_task_search_keeps hz o : respects (keeps queue_ok) (task_search hz o).
Proof. unfold task_search. bounded. Qed.

Lemma tq_task_stream_keeps hz : respects (keeps queue_ok) (task_stream hz).
Proof. unfold task_stream. bounded. Qed.

Lemma stream_handler_body_keeps hz e :
  respects (keeps queue_ok) (stream_handler_body hz e).
Proof. unfold stream_handler_body. bounded. Qed.

Lemma stream_handler_loop_keeps hz es :
  respects (keeps queue_ok) (stream_handler_loop hz es).
Proof.
  induction es as [|e es IH]; cbn [stream_handler_loop].
  - bounded.
  - respects_step; [apply stream_handler_body_keeps|].
    destruct a; [exact IH|bounded].
Qed.

Lemma stream_handler_keeps hz ret_preamble es :
  respects (keeps queue_ok) (stream_handler hz ret_preamble es).
Proof.
  unfold stream_handler.
  respects_step; [bounded|]. respects_step; [bounded|].
  apply stream_handler_loop_keeps.
Qed.

(** [app_main] reaches its status loop only with the queues created. *)
Lemma app_main_queues e now s :
  app_main e (boot now) = Done (tt, s) -> queues_created s.
Proof.
  unfold app_main. intros H.
  apply bind_done in H. destruct H as [u0 [s0 [H0 H]]].
  apply bind_done in H. destruct H as [u1 [s1 [H1 H]]].
  apply bind_done in H. destruct H as [q [s2 [H2 H]]].
  apply bind_done in H. destruct H as [u3 [s3 [H3 H]]].
  inversion H0; subst; clear H0. inversion H1; subst; clear H1.
  inversion H2; subst; clear H2. cbn in H3.
  destruct (rx_queue_allocated e); cbn in H3; [|discriminate].
  inversion H3; subst; clear H3.
  match type of H with
  | ?c ?s1 = _ => assert (K : respects (keeps queues_created) c)
  end.
  { unfold app_wifi_init, app_wifi_start, ESP_LOGx, checked, emit.
    repeat first
      [ apply respects_modify; intros ? K; exact K
      | apply respects_modify; intros ? [K1 K2]; split;
        [exact K1|destruct (wifi_queue_allocated e); cbn; auto]
      | respects_step ]. }
  apply (K _ _ _ H). split; [reflexivity|left; reflexivity].
Qed.

Lemma queues_created_ok s : queues_created s -> queue_ok s.
Proof.
  intros [H1 H2]. split.
  - eexists. split; [exact H1|]. cbn. split; lia.
  - destruct H2 as [H2|H2]; [left; exact H2|right].
    eexists. split; [exact H2|]. cbn. split; lia.
Qed.

Lemma tq_step_keeps_queue hz a x x' :
  step hz a x = Done x' -> queue_ok (st x) -> queue_ok (st x').
Proof.
  destruct a; unfold step, lift; intros H.
  - destruct (driver_capture frame (st x)) as [[u s']|] eqn:E; [|discriminate].
    inversion H; subst. apply (tq_driver_capture_keeps _ _ _ _ E).
  - destruct (stream_callback event NULL close_ret (st x)) as [[u s']|] eqn:E;
      [|discriminate].
    inversion H; subst. apply (tq_stream_callback_keeps _ _ _ _ _ _ E).
  - destruct (frame_handling_task hz (pc x) o (st x)) as [[p s']|] eqn:E;
      [|discriminate].
    inversion H; subst. unfold frame_handling_task in E.
    destruct (pc x).
    + apply (tq_task_search_keeps _ _ _ _ _ E).
    + apply (tq_task_stream_keeps _ _ _ _ E).
  - destruct (serving x); [inversion H; subst; exact (fun K => K)|].
    destruct (stream_handler hz ret_preamble [] (st x)) as [[u s']|] eqn:E;
      [|discriminate].
    inversion H; subst. apply (stream_handler_keeps _ _ _ _ _ _ E).
  - destruct (serving x); [|inversion H; subst; exact (fun K => K)].
    destruct (stream_handler_loop hz [e] (st x)) as [[u s']|] eqn:E;
      [|discriminate].
    inversion H; subst. apply (stream_handler_loop_keeps _ _ _ _ _ E).
  - inversion H; subst. cbn. exact (fun K => K).
Qed.

Lemma tq_reachable_queue_ok hz x : reachable hz x -> queue_ok (st x).
Proof.
  induction 1 as [now e s H | a x x' _ IH H].
  - cbn. exact (queues_created_ok _ (app_main_queues _ _ _ H)).
  - exact (tq_step_keeps_queue _ _ _ _ H IH).
Qed.

(** ** The device search *)

Lemma tq_task_search_fail hz o s :
  open_err o <> ESP_OK ->
  let now := xTickCount (env s) in
  let back := now + Z.of_N (open_ticks o) in
  task_search hz o s =
  Done (Searching,
        set_env
          (mk_world (back + pdMS_TO_TICKS hz 2000)
             (trace (env s) ++
              [(now, ESP_LOG LOG_I TAG "Looking for UVC camera...");
               (now, uvc_host_stream_open (pdMS_TO_TICKS hz 5000));
               (back, uvc_host_stream_open_ret (open_err o) (open_hdl o));
               (back, ESP_LOG LOG_I TAG "No camera found, retrying...");
               (back, vTaskDelay (pdMS_TO_TICKS hz 2000))]))
          s).
Proof.
  intros He. unfold task_search, ms_to_ticks.
  destruct (Z.eqb_spec ESP_OK (open_err o)) as [E|_]; [congruence|].
  run_prog. unfold set_env, emit_w, elapse_w. cbn.
  rewrite <- !app_assoc. reflexivity.
Qed.

Lemma tq_task_search_ok hz o s :
  open_err o = ESP_OK ->
  let now := xTickCount (env s) in
  let back := now + Z.of_N (open_ticks o) in
  task_search hz o s =
  Done (Streaming,
        set_env
          (mk_world back
             (trace (env s) ++
              [(now, ESP_LOG LOG_I TAG "Looking for UVC camera...");
               (now, uvc_host_stream_open (pdMS_TO_TICKS hz 5000));
               (back, uvc_host_stream_open_ret (open_err o) (open_hdl o));
               (back, ESP_LOG LOG_I TAG "Camera connected! Starting stream...");
               (back, uvc_host_stream_start (open_hdl o))]))
          (set_dev_connected true (set_uvc_stream (open_hdl o) s))).
Proof.
  intros He. unfold task_search, ms_to_ticks. rewrite He.
  change (ESP_OK =? ESP_OK) with true.
  run_prog. unfold set_env, emit_w, elapse_w. cbn.
  rewrite <- !app_assoc. reflexivity.
Qed.

Lemma tq_step_open_inv hz a x x' :
  step hz a x = Done x' ->
  open_inv (pdMS_TO_TICKS hz 2000) (env (st x)) ->
  open_inv (pdMS_TO_TICKS hz 2000) (env (st x')).
Proof.
  destruct a; unfold step, lift; intros H.
  - destruct (driver_capture frame (st x)) as [[u s']|] eqn:E; [|discriminate].
    inversion H; subst. apply open_inv_quiet, (tq_driver_capture_quiet _ _ _ _ E).
  - destruct (stream_callback event NULL close_ret (st x)) as [[u s']|] eqn:E;
      [|discriminate].
    inversion H; subst.
    apply open_inv_quiet, (tq_stream_callback_quiet _ _ _ _ _ _ E).
  - destruct (frame_handling_task hz (pc x) o (st x)) as [[p s']|] eqn:E;
      [|discriminate].
    inversion H; subst. unfold frame_handling_task in E.
    destruct (pc x).
    + intros Hinv. destruct (Z.eq_dec (open_err o) ESP_OK) as [Hok|Hfail].
      * rewrite (tq_task_search_ok hz o (st x) Hok) in E. cbv zeta in E.
        inversion E; subst. cbn [st env set_env].
        eapply open_inv_attempt with (now := xTickCount (env (st x)));
          [exact Hinv|lia| |].
        -- cbn [trace]. rewrite open_events_app. reflexivity.
        -- rewrite Hok. discriminate.
      * rewrite (tq_task_search_fail hz o (st x) Hfail) in E. cbv zeta in E.
        inversion E; subst. cbn [st env set_env].
        eapply open_inv_attempt with (now := xTickCount (env (st x)));
          [exact Hinv|lia| |].
        -- cbn [trace]. rewrite open_events_app. reflexivity.
        -- intros _. cbn [xTickCount]. lia.
    + apply open_inv_quiet, (tq_task_stream_quiet _ _ _ _ E).
  - destruct (serving x); [inversion H; subst; exact (fun K => K)|].
    destruct (stream_handler hz ret_preamble [] (st x)) as [[u s']|] eqn:E;
      [|discriminate].
    inversion H; subst. apply open_inv_quiet, (stream_handler_quiet _ _ _ _ _ _ E).
  - destruct (serving x); [|inversion H; subst; exact (fun K => K)].
    destruct (stream_handler_loop hz [e] (st x)) as [[u s']|] eqn:E;
      [|discriminate].
    inversion H; subst.
    apply open_inv_quiet, (stream_handler_loop_quiet _ _ _ _ _ E).
  - inversion H; subst. apply open_inv_quiet. cbn. apply grows_elapse. lia.
Qed.

Lemma tq_reachable_open_inv hz x :
  reachable hz x -> open_inv (pdMS_TO_TICKS hz 2000) (env (st x)).
Proof.
  induction 1 as [now e s H | a x x' _ IH H].
  - cbn. apply (open_inv_quiet _ (env (boot now))).
    + exact (app_main_quiet _ _ _ _ H).
    + cbn. split; exact I.
  - exact (tq_step_open_inv _ _ _ _ H IH).
Qed.

(** In the two-queue program a failed open is followed by the next one no
    sooner than 2000 ms later. *)
Lemma tq_retry_spacing hz x l1 l2 t1 t2 err hdl timeout :
  reachable hz x ->
  err <> ESP_OK ->
  open_events (trace (env (st x))) =
    l1 ++ (t1, uvc_host_stream_open_ret err hdl)
       :: (t2, uvc_host_stream_open timeout) :: l2 ->
  t1 + pdMS_TO_TICKS hz 2000 <= t2.
Proof.
  intros Hr He E. destruct (tq_reachable_open_inv hz x Hr) as [Hs _].
  rewrite E in Hs.
  apply (spaced_split _ _ _ _ _ Hs); [|reflexivity].
  cbn [snd is_failed_open].
  destruct (Z.eqb_spec ESP_OK err); [congruence|reflexivity].
Qed.

Lemma tq_search_until_found hz (fails : list open_env) (o : open_env)
    (x : sys) :
  pc x = Searching ->
  Forall (fun o' => open_err o' <> ESP_OK) fails ->
  open_err o = ESP_OK ->
  exists x' before t,
    run hz (map TaskStep (fails ++ [o])) x = Done x' /\
    dev_connected (st x') = true /\
    pc x' = Streaming /\
    uvc_stream (st x') = open_hdl o /\
    trace (env (st x')) = before ++ [(t, uvc_host_stream_start (open_hdl o))].
Proof.
  intros Hpc Hfails Hok. revert x Hpc.
  induction Hfails as [|o' fails Ho' _ IH]; intros x Hpc.
  - cbn [app map run step]. unfold frame_handling_task. rewrite Hpc.
    rewrite (tq_task_search_ok hz o (st x) Hok). cbv zeta.
    eexists _, _, _. split; [reflexivity|]. cbn [st pc].
    split; [reflexivity|]. split; [reflexivity|]. split; [reflexivity|].
    cbn [env set_env trace].
    change (?l ++ [?a; ?b; ?c; ?d; ?e]) with (l ++ [a; b; c; d] ++ [e]).
    rewrite app_assoc. reflexivity.
  - cbn [app map run step]. unfold frame_handling_task. rewrite Hpc.
    rewrite (tq_task_search_fail hz o' (st x) Ho'). cbv zeta.
    apply IH. reflexivity.
Qed.

(** ** The release protocol on concrete runs *)

(** C1.  A run of the two-queue program: start-up with every answer
    favourable, the camera found, a client connected; then one frame is
    captured with room in both queues.  [frame_callback] returns [false]
    (the frame is accepted), the local consumer dequeues and returns it, and
    the streaming consumer dequeues, writes and returns it again: two calls
    of [uvc_host_frame_return] on the one buffer. *)
Theorem accepted_frame_returned_twice :
  let f := mk_frame 1 (Some [xff; xd8; xd9]%byte) 3 in
  let answers := mk_init_env true true 0 0 1 0 0 0 0 0 0 0 1 0 1 in
  let cam := mk_open_env ESP_OK 4096 10 in
  exists s0 x1 s1 x2,
    app_main answers (boot 0) = Done (tt, s0) /\
    run 100 [TaskStep cam; HttpConnect 76] (mk_sys s0 Searching false) = Done x1 /\
    frame_callback (Some f) (Some addr_rx_frames_queue) (st x1) = Done (false, s1) /\
    run 100 [Capture f; TaskStep cam; HttpPass (mk_http_env 56 3 2 9)] x1 =
      Done x2 /\
    filter (is_return_of (buf f)) (trace (env (st x2))) =
      [(10, uvc_host_frame_return 4096 f); (10, uvc_host_frame_return NULL f)] /\
    returns_of (buf f) (trace (env (st x2))) = 2%nat.
Proof.
  intros f answers cam. eexists _, _, _, _.
  split; [vm_compute; reflexivity|].
  split; [vm_compute; reflexivity|].
  split; [vm_compute; reflexivity|].
  split; [vm_compute; reflexivity|].
  split; vm_compute; reflexivity.
Qed.

(** C3.  A run of the two-queue program in which the local queue is full
    and the streamer's queue is not: three frames are captured, the
    streaming consumer writes all three, the local consumer has not run.
    The fourth frame is dropped for the local queue and is delivered to the
    streamer's queue, but [frame_callback] returns [true], so the driver
    puts the buffer back at once while the streamer's queue holds the
    reference. *)
Theorem full_local_queue_recycles_delivered_frame :
  let g k := mk_frame k (Some [xff; xd8; xd9]%byte) 3 in
  let f := mk_frame 9%nat (Some [xff; xd8; xd9]%byte) 3 in
  let answers := mk_init_env true true 0 0 1 0 0 0 0 0 0 0 1 0 1 in
  let cam := mk_open_env ESP_OK 4096 10 in
  let sent := mk_http_env 56 3 2 9 in
  exists s0 x1 s1 x2,
    app_main answers (boot 0) = Done (tt, s0) /\
    run 100 [TaskStep cam; HttpConnect 76;
             Capture (g 1%nat); Capture (g 2%nat); Capture (g 3%nat);
             HttpPass sent; HttpPass sent; HttpPass sent]
        (mk_sys s0 Searching false) = Done x1 /\
    rx_frames_queue (st x1) =
      Some (Queue.mk 3 [Some (g 1%nat); Some (g 2%nat); Some (g 3%nat)]) /\
    frame_queue (st x1) = Some (Queue.mk 3 []) /\
    frame_callback (Some f) (Some addr_rx_frames_queue) (st x1) = Done (true, s1) /\
    step 100 (Capture f) x1 = Done x2 /\
    rx_frames_queue (st x2) = rx_frames_queue (st x1) /\
    frame_queue (st x2) = Some (Queue.mk 3 [Some f]) /\
    filter (is_recycle_of (buf f)) (trace (env (st x2))) =
      [(10, driver_recycle f)].
Proof.
  intros g f answers cam sent. eexists _, _, _, _.
  split; [vm_compute; reflexivity|].
  split; [vm_compute; reflexivity|].
  split; [vm_compute; reflexivity|].
  split; [vm_compute; reflexivity|].
  split; [vm_compute; reflexivity|].
  split; [vm_compute; reflexivity|].
  split; [vm_compute; reflexivity|].
  split; vm_compute; reflexivity.
Qed.

(** C8.  [stream_handler] on a queue holding one frame, when the write of
    the part header fails, and when the write of the frame data fails: the
    handler leaves its loop and returns [ESP_OK], the frame has left the
    queue, and the trace holds no call of [uvc_host_frame_return]. *)
Theorem write_failure_leaks_frame :
  let f := mk_frame 1 (Some [xff; xd8; xd9]%byte) 3 in
  let s := mk_state (Some (Queue.xQueueCreate 3)) (Some (Queue.mk 3 [Some f]))
                    true 4096 (mk_world 0 []) in
  (exists s',
     stream_handler 100 76 [mk_http_env (-1) 3 2 9] s = Done (Some ESP_OK, s') /\
     frame_queue s' = Some (Queue.mk 3 []) /\
     filter is_return (trace (env s')) = []) /\
  (exists s',
     stream_handler 100 76 [mk_http_env 56 (-1) 2 9] s = Done (Some ESP_OK, s') /\
     frame_queue s' = Some (Queue.mk 3 []) /\
     filter is_return (trace (env s')) = []).
Proof.
  intros f s. split; eexists;
    (split; [vm_compute; reflexivity|]); split; vm_compute; reflexivity.
Qed.

(** Whatever the state, a pass of the loop whose header write or data
    write fails ends the loop without a call of [uvc_host_frame_return]. *)
Lemma failed_write_skips_return hz (e : http_env) (f : uvc_host_frame_t)
    bytes n rest (s : state) :
  data f = Some bytes ->
  0 < data_len f ->
  frame_queue s = Some (Queue.mk n (Some f :: rest)) ->
  ret_header e < 0 \/ ret_data e < 0 ->
  exists s',
    stream_handler_body hz e s = Done (Break, s') /\
    frame_queue s' = Some (Queue.mk n rest) /\
    filter is_return (trace (env s')) = filter is_return (trace (env s)).
Proof.
  intros Hd Hl Hq Hfail.
  rewrite (stream_handler_body_frame hz e f bytes n rest s Hd Hl Hq). cbv zeta.
  destruct (Z.ltb_spec (ret_header e) 0) as [H1|H1].
  - eexists. split; [reflexivity|]. split; [reflexivity|].
    cbn [env set_env trace]. rewrite filter_app. cbn. apply app_nil_r.
  - destruct (Z.ltb_spec (ret_data e) 0) as [H2|H2]; [|lia].
    eexists. split; [reflexivity|]. split; [reflexivity|].
    cbn [env set_env trace]. rewrite filter_app. cbn. apply app_nil_r.
Qed.

End TwoQueueProofs.

(** * Both programs: queue bound and retry interval *)

Lemma queue_ops_bounded {A} (ops : list (Queue.op A)) (q : Queue.t A) :
  (length (Queue.items q) <= Queue.uxLength q)%nat ->
  (length (Queue.items (fold_left Queue.apply ops q)) <= Queue.uxLength q)%nat /\
  Queue.uxLength (fold_left Queue.apply ops q) = Queue.uxLength q.
Proof.
  revert q. induction ops as [|o ops IH]; intros q Hq; cbn [fold_left].
  - split; [exact Hq|reflexivity].
  - assert (H : (length (Queue.items (Queue.apply q o)) <= Queue.uxLength q)%nat
                /\ Queue.uxLength (Queue.apply q o) = Queue.uxLength q).
    { destruct o as [item ticks|ticks]; cbn [Queue.apply].
      - unfold Queue.xQueueSendToBack.
        destruct (Nat.ltb_spec (length (Queue.items q)) (Queue.uxLength q));
          cbn; [rewrite length_app; cbn; lia | lia].
      - unfold Queue.xQueueReceive.
        destruct (Queue.items q) as [|item rest] eqn:E; cbn.
        + rewrite E. cbn. lia.
        + cbn in Hq. lia. }
    destruct H as [H1 H2].
    destruct (IH (Queue.apply q o)) as [H3 H4]; [lia|].
    split; [lia|congruence].
Qed.

Lemma reachable_run hz acts x x' :
  AppUvc.reachable hz x -> AppUvc.run hz acts x = Done x' ->
  AppUvc.reachable hz x'.
Proof.
  revert x. induction acts as [|a acts IH]; intros x Hr H; cbn [AppUvc.run] in H.
  - inversion H; subst. exact Hr.
  - destruct (AppUvc.step hz a x) as [x1|] eqn:E; [|discriminate].
    apply (IH x1); [|exact H].
    exact (AppUvc.reachable_step hz a x x1 Hr E).
Qed.

Lemma tq_reachable_run hz acts x x' :
  TwoQueue.reachable hz x -> TwoQueue.run hz acts x = Done x' ->
  TwoQueue.reachable hz x'.
Proof.
  revert x. induction acts as [|a acts IH]; intros x Hr H; cbn [TwoQueue.run] in H.
  - inversion H; subst. exact Hr.
  - destruct (TwoQueue.step hz a x) as [x1|] eqn:E; [|discriminate].
    apply (IH x1); [|exact H].
    exact (TwoQueue.reachable_step hz a x x1 Hr E).
Qed.

(** ** C4 *)

(** C4.  A queue created with length [n] never holds more than [n] items,
    whatever sends and receives are applied to it.  In both programs the
    queues are created with length 3, and in every state the program
    reaches after start-up, by any interleaving of captures, stream events,
    task steps (and registrations or HTTP passes), each queue holds at most
    3 frame references.  A frame pushed by [frame_callback] onto a full
    queue is dropped: the queue holds what it held, nothing older is
    evicted, and the tick count has not moved (the producer did not
    block). *)
Theorem queue_bound :
  (forall (ops : list (Queue.op frame_ptr)) (n : nat),
     (length (Queue.items (fold_left Queue.apply ops (Queue.xQueueCreate n)))
      <= n)%nat) /\
  (forall hz now e r s acts x,
     AppUvc.app_uvc_init e (AppUvc.boot now) = Done (r, s) ->
     AppUvc.run hz acts (AppUvc.mk_sys s AppUvc.Searching) = Done x ->
     bounded3 (AppUvc.rx_frames_queue (AppUvc.st x))) /\
  (forall hz now e s acts x,
     TwoQueue.app_main e (TwoQueue.boot now) = Done (tt, s) ->
     TwoQueue.run hz acts (TwoQueue.mk_sys s TwoQueue.Searching false) = Done x ->
     bounded3 (TwoQueue.rx_frames_queue (TwoQueue.st x)) /\
     (TwoQueue.frame_queue (TwoQueue.st x) = None \/
      bounded3 (TwoQueue.frame_queue (TwoQueue.st x)))) /\
  (forall f q s,
     AppUvc.rx_frames_queue s = Some q ->
     (Queue.uxLength q <= length (Queue.items q))%nat ->
     exists s',
       AppUvc.frame_callback (Some f) (Some AppUvc.addr_rx_frames_queue) s =
         Done (true, s') /\
       AppUvc.rx_frames_queue s' = Some q /\
       xTickCount (AppUvc.env s') = xTickCount (AppUvc.env s)) /\
  (forall f q w s,
     TwoQueue.rx_frames_queue s = Some q ->
     TwoQueue.frame_queue s = Some w ->
     exists r s',
       TwoQueue.frame_callback (Some f) (Some TwoQueue.addr_rx_frames_queue) s =
         Done (r, s') /\
       ((Queue.uxLength q <= length (Queue.items q))%nat ->
        TwoQueue.rx_frames_queue s' = Some q) /\
       ((Queue.uxLength w <= length (Queue.items w))%nat ->
        TwoQueue.frame_queue s' = Some w) /\
       xTickCount (TwoQueue.env s') = xTickCount (TwoQueue.env s)).
Proof.
  split; [|split; [|split; [|split]]].
  - intros ops n.
    apply (queue_ops_bounded ops (Queue.xQueueCreate n)). cbn. lia.
  - intros hz now e r s acts x Hinit Hrun.
    apply (AppUvcProofs.reachable_queue_ok hz).
    eapply reachable_run; [|exact Hrun].
    eapply AppUvc.reachable_init. exact Hinit.
  - intros hz now e s acts x Hinit Hrun.
    apply (TwoQueueProofs.tq_reachable_queue_ok hz).
    eapply tq_reachable_run; [|exact Hrun].
    eapply TwoQueue.reachable_init. exact Hinit.
  - intros f q s Hq Hfull. exact (AppUvcProofs.frame_callback_full f q s Hq Hfull).
  - intros f q w s Hq Hw.
    destruct (TwoQueueProofs.frame_callback_fanout f q w s Hq Hw)
      as [s' [E [Hq' [Hw' [Ht _]]]]].
    eexists _, s'. split; [exact E|]. split; [|split; [|exact Ht]].
    + intros Hfull. apply Nat.ltb_ge in Hfull. rewrite Hq', Hfull. reflexivity.
    + intros Hfull. apply Nat.ltb_ge in Hfull. rewrite Hw', Hfull. reflexivity.
Qed.

(** The queue bound on concrete runs: four captures in a row with no
    consumer step, in either program, and a fifth frame offered to the full
    queue. *)
Lemma queue_bound_witness :
  let f k := mk_frame k (Some [xff; xd8; xd9]%byte) 3 in
  let full :=
    [Some (f 1%nat); Some (f 2%nat); Some (f 3%nat)] in
  (exists s x,
     AppUvc.app_uvc_init (AppUvc.mk_init_env true 0 1 0 1) (AppUvc.boot 0) =
       Done (ESP_OK, s) /\
     AppUvc.run 100
       [AppUvc.Capture (f 1%nat); AppUvc.Capture (f 2%nat);
        AppUvc.Capture (f 3%nat); AppUvc.Capture (f 4%nat)]
       (AppUvc.mk_sys s AppUvc.Searching) = Done x /\
     bounded3 (AppUvc.rx_frames_queue (AppUvc.st x))) /\
  (exists s x,
     TwoQueue.app_main (TwoQueue.mk_init_env true true 0 0 1 0 0 0 0 0 0 0 1 0 1)
                     (TwoQueue.boot 0) = Done (tt, s) /\
     TwoQueue.run 100
       [TwoQueue.Capture (f 1%nat); TwoQueue.Capture (f 2%nat);
        TwoQueue.Capture (f 3%nat); TwoQueue.Capture (f 4%nat)]
       (TwoQueue.mk_sys s TwoQueue.Searching false) = Done x /\
     bounded3 (TwoQueue.rx_frames_queue (TwoQueue.st x)) /\
     (TwoQueue.frame_queue (TwoQueue.st x) = None \/
      bounded3 (TwoQueue.frame_queue (TwoQueue.st x)))) /\
  (exists s',
     AppUvc.frame_callback (Some (f 5%nat)) (Some AppUvc.addr_rx_frames_queue)
       (AppUvc.mk_state (Some (Queue.mk 3 full)) true NULL NULL (mk_world 0 [])) =
       Done (true, s') /\
     AppUvc.rx_frames_queue s' = Some (Queue.mk 3 full) /\
     xTickCount (AppUvc.env s') = 0) /\
  (exists r s',
     TwoQueue.frame_callback (Some (f 5%nat)) (Some TwoQueue.addr_rx_frames_queue)
       (TwoQueue.mk_state (Some (Queue.mk 3 full)) (Some (Queue.mk 3 full))
                        true 4096 (mk_world 0 [])) = Done (r, s') /\
     TwoQueue.rx_frames_queue s' = Some (Queue.mk 3 full) /\
     TwoQueue.frame_queue s' = Some (Queue.mk 3 full) /\
     xTickCount (TwoQueue.env s') = 0).
Proof.
  intros f full.
  destruct queue_bound as [_ [Hmain [Htwo [Hfull Hfanout]]]].
  split; [|split; [|split]].
  - eexists _, _.
    split; [vm_compute; reflexivity|]. split; [vm_compute; reflexivity|].
    eapply (Hmain 100 0 (AppUvc.mk_init_env true 0 1 0 1) ESP_OK _
                  [AppUvc.Capture (f 1%nat); AppUvc.Capture (f 2%nat);
                   AppUvc.Capture (f 3%nat); AppUvc.Capture (f 4%nat)]);
      vm_compute; reflexivity.
  - eexists _, _.
    split; [vm_compute; reflexivity|]. split; [vm_compute; reflexivity|].
    eapply (Htwo 100 0
              (TwoQueue.mk_init_env true true 0 0 1 0 0 0 0 0 0 0 1 0 1) _
              [TwoQueue.Capture (f 1%nat); TwoQueue.Capture (f 2%nat);
               TwoQueue.Capture (f 3%nat); TwoQueue.Capture (f 4%nat)]);
      vm_compute; reflexivity.
  - apply (Hfull (f 5%nat) (Queue.mk 3 full)); [reflexivity|].
    cbn. lia.
  - destruct (Hfanout (f 5%nat) (Queue.mk 3 full) (Queue.mk 3 full)
                (TwoQueue.mk_state (Some (Queue.mk 3 full)) (Some (Queue.mk 3 full))
                                 true 4096 (mk_world 0 []))
                eq_refl eq_refl) as [r [s' [E [H1 [H2 H3]]]]].
    exists r, s'. split; [exact E|]. split; [|split; [|exact H3]].
    + apply H1. cbn. lia.
    + apply H2. cbn. lia.
Defined.

(** ** C5 *)

(** C5.  In every run of the program after start-up, a device open that
    failed is followed by the next device open no sooner than the retry
    interval after the failure was reported: [pdMS_TO_TICKS(5000)] ticks in
    [src/main/app_uvc.c], [pdMS_TO_TICKS(2000)] ticks in the two-queue
    program.  However many opens fail in a row, the task keeps searching,
    and the open that succeeds sets [dev_connected], takes the task into its
    streaming loop with the handle it was given, and the call of
    [uvc_host_stream_start] on that handle is the last the step makes. *)
Theorem open_retry_interval :
  (forall hz now e r s acts x l1 l2 t1 t2 err hdl timeout,
     AppUvc.app_uvc_init e (AppUvc.boot now) = Done (r, s) ->
     AppUvc.run hz acts (AppUvc.mk_sys s AppUvc.Searching) = Done x ->
     err <> ESP_OK ->
     open_events (trace (AppUvc.env (AppUvc.st x))) =
       l1 ++ (t1, uvc_host_stream_open_ret err hdl)
          :: (t2, uvc_host_stream_open timeout) :: l2 ->
     t1 + pdMS_TO_TICKS hz 5000 <= t2) /\
  (forall hz now e s acts x l1 l2 t1 t2 err hdl timeout,
     TwoQueue.app_main e (TwoQueue.boot now) = Done (tt, s) ->
     TwoQueue.run hz acts (TwoQueue.mk_sys s TwoQueue.Searching false) = Done x ->
     err <> ESP_OK ->
     open_events (trace (TwoQueue.env (TwoQueue.st x))) =
       l1 ++ (t1, uvc_host_stream_open_ret err hdl)
          :: (t2, uvc_host_stream_open timeout) :: l2 ->
     t1 + pdMS_TO_TICKS hz 2000 <= t2) /\
  (forall hz (fails : list AppUvc.open_env) (o : AppUvc.open_env) (x : AppUvc.sys),
     AppUvc.pc x = AppUvc.Searching ->
     Forall (fun o' => AppUvc.open_err o' <> ESP_OK) fails ->
     AppUvc.open_err o = ESP_OK ->
     exists x' before t,
       AppUvc.run hz (map AppUvc.TaskStep (fails ++ [o])) x = Done x' /\
       AppUvc.dev_connected (AppUvc.st x') = true /\
       AppUvc.pc x' = AppUvc.Streaming (AppUvc.open_hdl o) /\
       trace (AppUvc.env (AppUvc.st x')) =
         before ++ [(t, uvc_host_stream_start (AppUvc.open_hdl o))]) /\
  (forall hz (fails : list TwoQueue.open_env) (o : TwoQueue.open_env) (x : TwoQueue.sys),
     TwoQueue.pc x = TwoQueue.Searching ->
     Forall (fun o' => TwoQueue.open_err o' <> ESP_OK) fails ->
     TwoQueue.open_err o = ESP_OK ->
     exists x' before t,
       TwoQueue.run hz (map TwoQueue.TaskStep (fails ++ [o])) x = Done x' /\
       TwoQueue.dev_connected (TwoQueue.st x') = true /\
       TwoQueue.pc x' = TwoQueue.Streaming /\
       TwoQueue.uvc_stream (TwoQueue.st x') = TwoQueue.open_hdl o /\
       trace (TwoQueue.env (TwoQueue.st x')) =
         before ++ [(t, uvc_host_stream_start (TwoQueue.open_hdl o))]).
Proof.
  split; [|split; [|split]].
  - intros hz now e r s acts x l1 l2 t1 t2 err hdl timeout Hinit Hrun He E.
    apply (AppUvcProofs.retry_spacing hz x l1 l2 t1 t2 err hdl timeout);
      [|exact He|exact E].
    eapply reachable_run; [|exact Hrun].
    eapply AppUvc.reachable_init. exact Hinit.
  - intros hz now e s acts x l1 l2 t1 t2 err hdl timeout Hinit Hrun He E.
    apply (TwoQueueProofs.tq_retry_spacing hz x l1 l2 t1 t2 err hdl timeout);
      [|exact He|exact E].
    eapply tq_reachable_run; [|exact Hrun].
    eapply TwoQueue.reachable_init. exact Hinit.
  - exact AppUvcProofs.search_until_found.
  - exact TwoQueueProofs.tq_search_until_found.
Qed.

(** The retry interval on concrete runs at 100 ticks per second: two opens
    that fail after 3 and 4 ticks, and a search that fails once and then
    finds the camera. *)
Lemma open_retry_interval_witness :
  let lost := AppUvc.mk_open_env ESP_FAIL NULL in
  let lost' := TwoQueue.mk_open_env ESP_FAIL NULL in
  3 + pdMS_TO_TICKS 100 5000 <= 503 /\
  3 + pdMS_TO_TICKS 100 2000 <= 203 /\
  (exists x' before t,
     AppUvc.run 100
       (map AppUvc.TaskStep ([lost 3%N] ++ [AppUvc.mk_open_env ESP_OK 4096 7]))
       (AppUvc.mk_sys (AppUvc.boot 0) AppUvc.Searching) = Done x' /\
     AppUvc.dev_connected (AppUvc.st x') = true /\
     AppUvc.pc x' = AppUvc.Streaming 4096 /\
     trace (AppUvc.env (AppUvc.st x')) =
       before ++ [(t, uvc_host_stream_start 4096)]) /\
  (exists x' before t,
     TwoQueue.run 100
       (map TwoQueue.TaskStep ([lost' 3%N] ++ [TwoQueue.mk_open_env ESP_OK 4096 7]))
       (TwoQueue.mk_sys (TwoQueue.boot 0) TwoQueue.Searching false) = Done x' /\
     TwoQueue.dev_connected (TwoQueue.st x') = true /\
     TwoQueue.pc x' = TwoQueue.Streaming /\
     TwoQueue.uvc_stream (TwoQueue.st x') = 4096 /\
     trace (TwoQueue.env (TwoQueue.st x')) =
       before ++ [(t, uvc_host_stream_start 4096)]).
Proof.
  intros lost lost'.
  destruct open_retry_interval as [Hmain [Htwo [Hfound Hfound']]].
  split; [|split; [|split]].
  - eapply (Hmain 100 0 (AppUvc.mk_init_env true 0 1 0 1) ESP_OK _
              [AppUvc.TaskStep (lost 3%N); AppUvc.TaskStep (lost 4%N)] _
              [(0, uvc_host_stream_open 500)]
              [(507, uvc_host_stream_open_ret ESP_FAIL NULL)]
              3 503 ESP_FAIL NULL 500).
    + vm_compute. reflexivity.
    + vm_compute. reflexivity.
    + discriminate.
    + vm_compute. reflexivity.
  - eapply (Htwo 100 0
              (TwoQueue.mk_init_env true true 0 0 1 0 0 0 0 0 0 0 1 0 1) _
              [TwoQueue.TaskStep (lost' 3%N); TwoQueue.TaskStep (lost' 4%N)] _
              [(0, uvc_host_stream_open 500)]
              [(207, uvc_host_stream_open_ret ESP_FAIL NULL)]
              3 203 ESP_FAIL NULL 500).
    + vm_compute. reflexivity.
    + vm_compute. reflexivity.
    + discriminate.
    + vm_compute. reflexivity.
  - apply (Hfound 100 [lost 3%N] (AppUvc.mk_open_env ESP_OK 4096 7)).
    + reflexivity.
    + constructor; [discriminate|constructor].
    + reflexivity.
  - apply (Hfound' 100 [lost' 3%N] (TwoQueue.mk_open_env ESP_OK 4096 7)).
    + reflexivity.
    + constructor; [discriminate|constructor].
    + reflexivity.
Defined.

(** * More on [src/main/app_uvc.c] and [src/main/app_http.c] *)
Module AppUvcMore.
Import AppUvc AppUvcProofs.

Lemma Merge_snoc_left {A} (x : A) l1 l2 l :
  Merge l1 l2 l -> Merge (l1 ++ [x]) l2 (l ++ [x]).
Proof.
  induction 1; cbn.
  - apply Merge_left, Merge_nil.
  - apply Merge_left. assumption.
  - apply Merge_right. assumption.
Qed.

Lemma Merge_snoc_right {A} (x : A) l1 l2 l :
  Merge l1 l2 l -> Merge l1 (l2 ++ [x]) (l ++ [x]).
Proof.
  induction 1; cbn.
  - apply Merge_right, Merge_nil.
  - apply Merge_left. assumption.
  - apply Merge_right. assumption.
Qed.

Lemma returned_app tr1 tr2 : returned (tr1 ++ tr2) = returned tr1 ++ returned tr2.
Proof. apply flat_map_app. Qed.

Lemma recycled_app tr1 tr2 : recycled (tr1 ++ tr2) = recycled tr1 ++ recycled tr2.
Proof. apply flat_map_app. Qed.

Lemma grows_inert w w' :
  grows inert_call w w' ->
  returned (trace w') = returned (trace w) /\
  recycled (trace w') = recycled (trace w).
Proof.
  intros [_ [n [E F]]]. rewrite E, returned_app, recycled_app.
  assert (H : returned n = [] /\ recycled n = []).
  { clear E. induction F as [|c n [_ Hc] F [IH1 IH2]]; [split; reflexivity|].
    unfold returned, recycled in *. cbn [flat_map]. rewrite IH1, IH2.
    destruct c as [t []]; cbn in Hc |- *; try discriminate; split; reflexivity. }
  destruct H as [-> ->]. rewrite !app_nil_r. split; reflexivity.
Qed.

#[export] Instance same_queue_preorder : PreOrder same_queue.
Proof.
  split; [intros s; reflexivity|].
  intros a b c H1 H2. unfold same_queue in *. congruence.
Qed.

#[export] Instance not_raised_preorder : PreOrder not_raised.
Proof.
  split; [intros s H; exact H|]. intros a b c H1 H2 H. auto.
Qed.

(** Close [respects same_queue c] for a program without queue calls. *)
Ltac keeps_queue :=
  unfold ESP_LOGx, task_delay, emit, elapse;
  repeat first
    [ apply respects_modify; intros ?; reflexivity
    | respects_step ].


(** What a capture does to the queue and to the frames of the trace. *)
Lemma driver_capture_cases (f : uvc_host_frame_t) (q : Queue.t frame_ptr) (s : state) :
  rx_frames_queue s = Some q ->
  exists s' q',
    driver_capture f s = Done (tt, s') /\
    rx_frames_queue s' = Some q' /\
    returned (trace (env s')) = returned (trace (env s)) /\
    ((Queue.items q' = Queue.items q ++ [Some f] /\
      recycled (trace (env s')) = recycled (trace (env s))) \/
     (Queue.items q' = Queue.items q /\
      recycled (trace (env s')) = recycled (trace (env s)) ++ [f])).
Proof.
  intros Hq. unfold driver_capture, bind.
  rewrite (frame_callback_eq f q s Hq). cbv zeta.
  destruct (length (Queue.items q) <? Queue.uxLength q)%nat.
  - eexists _, _. split; [reflexivity|]. cbn. split; [reflexivity|].
    rewrite returned_app, recycled_app. cbn. rewrite !app_nil_r.
    split; [reflexivity|]. left. split; reflexivity.
  - eexists _, _. split; [reflexivity|]. cbn. split; [reflexivity|].
    rewrite !returned_app, !recycled_app. cbn. rewrite !app_nil_r.
    split; [reflexivity|]. right. split; reflexivity.
Qed.

(** The streaming loop once the connection flag is down: the task leaves
    the loop through the branch that only logs. *)
Lemma task_stream_down hz uvc_stream (s : state) :
  dev_connected s = false ->
  task_stream hz uvc_stream s =
  Done (Searching,
        set_env (emit_w (ESP_LOG LOG_I TAG "Device disconnected") (env s)) s).
Proof.
  intros Hd. unfold task_stream. run_prog.
  repeat (rewrite Hd; cbn). reflexivity.
Qed.

(** The streaming loop with the flag up and nothing queued: the receive
    runs into its timeout. *)
Lemma task_stream_idle hz uvc_stream n (s : state) :
  dev_connected s = true ->
  rx_frames_queue s = Some (Queue.mk n []) ->
  task_stream hz uvc_stream s =
  Done (Streaming uvc_stream,
        set_env (elapse_w (pdMS_TO_TICKS hz 5000) (env s))
                (set_rx_frames_queue (Some (Queue.mk n [])) s)).
Proof.
  intros Hd Hq. unfold task_stream, queue_receive, Queue.xQueueReceive, ms_to_ticks.
  run_prog. rewrite Hd, Hq. reflexivity.
Qed.

(** What a pass of the streaming loop does to the queue and to the frames
    of the trace: nothing, or the head of the queue is returned. *)
Lemma task_stream_cases hz uvc_stream (q : Queue.t frame_ptr) (s s' : state) pc' :
  rx_frames_queue s = Some q ->
  task_stream hz uvc_stream s = Done (pc', s') ->
  recycled (trace (env s')) = recycled (trace (env s)) /\
  ((rx_frames_queue s' = Some q /\
    returned (trace (env s')) = returned (trace (env s))) \/
   (exists f rest,
      Queue.items q = Some f :: rest /\
      rx_frames_queue s' = Some (Queue.mk (Queue.uxLength q) rest) /\
      returned (trace (env s')) = returned (trace (env s)) ++ [f])).
Proof.
  intros Hq H. destruct (dev_connected s) eqn:Hd.
  - destruct q as [n [|[f|] rest]].
    + rewrite (task_stream_idle hz uvc_stream n s Hd Hq) in H.
      inversion H; subst. cbn. split; [reflexivity|]. left. split; reflexivity.
    + destruct (task_stream_head hz uvc_stream f n rest s Hd Hq)
        as [t [E [Hq' [_ [_ Htr]]]]].
      rewrite E in H. inversion H; subst.
      rewrite Htr, !recycled_app, !returned_app.
      destruct (g_user_frame_callback s =? NULL); cbn; rewrite ?app_nil_r;
        (split; [reflexivity|]); right; exists f, rest;
        (split; [reflexivity|]); (split; [exact Hq'|reflexivity]).
    + exfalso. unfold task_stream, queue_receive, Queue.xQueueReceive in H.
      run_prog. rewrite Hd, Hq in H. discriminate H.
  - rewrite (task_stream_down hz uvc_stream s Hd) in H.
    inversion H; subst. cbn. rewrite recycled_app, returned_app. cbn.
    rewrite !app_nil_r. split; [reflexivity|]. left. split; [exact Hq|reflexivity].
Qed.

Lemma stream_callback_inert event user_ctx close_ret :
  respects (evolves inert_call) (stream_callback event user_ctx close_ret).
Proof. unfold stream_callback. quiet. Qed.

Lemma stream_callback_same_queue event user_ctx close_ret :
  respects same_queue (stream_callback event user_ctx close_ret).
Proof. unfold stream_callback. keeps_queue. Qed.

Lemma register_inert frame_cb user_ctx :
  respects (evolves inert_call)
           (app_uvc_register_frame_callback frame_cb user_ctx).
Proof. unfold app_uvc_register_frame_callback. quiet. Qed.

Lemma register_same_queue frame_cb user_ctx :
  respects same_queue (app_uvc_register_frame_callback frame_cb user_ctx).
Proof. unfold app_uvc_register_frame_callback. keeps_queue. Qed.

Lemma task_search_inert hz o : respects (evolves inert_call) (task_search hz o).
Proof. unfold task_search, ms_to_ticks. quiet. Qed.

Lemma task_search_same_queue hz o : respects same_queue (task_search hz o).
Proof. unfold task_search. keeps_queue. Qed.

Lemma app_uvc_init_inert e : respects (evolves inert_call) (app_uvc_init e).
Proof. unfold app_uvc_init. quiet. Qed.

(** One step of the system keeps the account of frames: a capture adds its
    frame either to the queue or to the recycled frames; any other step
    leaves the recycled frames alone and moves at most the head of the
    queue to the returned frames. *)
Lemma step_frames hz a x x' (q : Queue.t frame_ptr) :
  rx_frames_queue (st x) = Some q ->
  step hz a x = Done x' ->
  exists q',
    rx_frames_queue (st x') = Some q' /\
    let R := returned (trace (env (st x))) in
    let D := recycled (trace (env (st x))) in
    let R' := returned (trace (env (st x'))) in
    let D' := recycled (trace (env (st x'))) in
    match a with
    | Capture f =>
        R' = R /\
        ((Queue.items q' = Queue.items q ++ [Some f] /\ D' = D) \/
         (Queue.items q' = Queue.items q /\ D' = D ++ [f]))
    | _ =>
        D' = D /\ map Some R' ++ Queue.items q' = map Some R ++ Queue.items q
    end.
Proof.
  intros Hq H. destruct a; unfold step, lift in H; cbv zeta.
  - destruct (driver_capture_cases frame q (st x) Hq)
      as [s' [q' [E [Hq' [HR HD]]]]].
    rewrite E in H. inversion H; subst. exists q'. cbn. auto.
  - destruct (stream_callback event NULL close_ret (st x)) as [[u s']|] eqn:E;
      [|discriminate].
    inversion H; subst. cbn [st].
    pose proof (stream_callback_same_queue _ _ _ _ _ _ E) as Hs.
    destruct (grows_inert _ _ (stream_callback_inert _ _ _ _ _ _ E)) as [HR HD].
    exists q. unfold same_queue in Hs. rewrite Hs, HR, HD. auto.
  - destruct (frame_handling_task hz (pc x) o (st x)) as [[p s']|] eqn:E;
      [|discriminate].
    inversion H; subst. cbn [st]. unfold frame_handling_task in E.
    destruct (pc x).
    + pose proof (task_search_same_queue _ _ _ _ _ E) as Hs.
      destruct (grows_inert _ _ (task_search_inert _ _ _ _ _ E)) as [HR HD].
      exists q. unfold same_queue in Hs. rewrite Hs, HR, HD. auto.
    + destruct (task_stream_cases hz uvc_stream q (st x) s' p Hq E)
        as [HD [[Hq' HR]|[f [rest [Hi [Hq' HR]]]]]].
      * exists q. rewrite HR, HD. auto.
      * eexists. split; [exact Hq'|]. split; [exact HD|].
        rewrite HR, Hi, map_app, <- app_assoc. reflexivity.
  - destruct ((app_uvc_register_frame_callback frame_cb user_ctx;; ret tt) (st x))
      as [[u s']|] eqn:E; [|discriminate].
    inversion H; subst. cbn [st].
    apply bind_done in E. destruct E as [r [s1 [E1 E2]]].
    inversion E2; subst.
    pose proof (register_same_queue _ _ _ _ _ E1) as Hs.
    destruct (grows_inert _ _ (register_inert _ _ _ _ _ E1)) as [HR HD].
    exists q. unfold same_queue in Hs. rewrite Hs, HR, HD. auto.
  - inversion H; subst. exists q. cbn. auto.
Qed.

Lemma run_frames hz acts : forall x x' (q : Queue.t frame_ptr) before,
  rx_frames_queue (st x) = Some q ->
  Merge (map Some (returned (trace (env (st x)))) ++ Queue.items q)
        (map Some (recycled (trace (env (st x)))))
        before ->
  run hz acts x = Done x' ->
  exists q',
    rx_frames_queue (st x') = Some q' /\
    Merge (map Some (returned (trace (env (st x')))) ++ Queue.items q')
          (map Some (recycled (trace (env (st x')))))
          (before ++ map Some (captures acts)).
Proof.
  induction acts as [|a acts IH]; intros x x' q before Hq HM H; cbn [run] in H.
  - inversion H; subst. exists q. cbn. rewrite app_nil_r. auto.
  - destruct (step hz a x) as [x1|] eqn:E; [|discriminate].
    destruct (step_frames hz a x x1 q Hq E) as [q1 [Hq1 Hstep]]. cbv zeta in Hstep.
    assert (HM1 :
      Merge (map Some (returned (trace (env (st x1)))) ++ Queue.items q1)
            (map Some (recycled (trace (env (st x1)))))
            (before ++ map Some (captures [a]))).
    { destruct a; cbn [captures flat_map map app];
        try (destruct Hstep as [HD HRQ]; rewrite HD, HRQ, app_nil_r; exact HM).
      destruct Hstep as [HR [[Hi HD]|[Hi HD]]]; rewrite HR, Hi, HD.
      - rewrite app_assoc. apply Merge_snoc_left, HM.
      - rewrite map_app. apply Merge_snoc_right, HM. }
    destruct (IH x1 x' q1 _ Hq1 HM1 H) as [q' [Hq' HM']].
    exists q'. split; [exact Hq'|].
    change (a :: acts) with ([a] ++ acts).
    unfold captures in *. rewrite flat_map_app, map_app, app_assoc. exact HM'.
Qed.

(** X1.  In every run of [src/main/app_uvc.c] after start-up, the captured
    frames are, in capture order, an interleaving of two sequences: the
    frames the driver took back at once (the queue was full), and the
    frames handed to [uvc_host_frame_return] followed by the frames still
    queued.  No accepted frame is lost, returned twice or out of order. *)
Theorem frame_conservation hz now e r s acts x :
  app_uvc_init e (boot now) = Done (r, s) ->
  run hz acts (mk_sys s Searching) = Done x ->
  exists q,
    rx_frames_queue (st x) = Some q /\
    Merge (map Some (returned (trace (env (st x)))) ++ Queue.items q)
          (map Some (recycled (trace (env (st x)))))
          (map Some (captures acts)).
Proof.
  intros Hinit Hrun.
  pose proof (app_uvc_init_queue _ _ _ _ Hinit) as Hq.
  destruct (grows_inert _ _ (app_uvc_init_inert _ _ _ _ Hinit)) as [HR HD].
  cbn in HR, HD.
  apply (run_frames hz acts (mk_sys s Searching) x (Queue.xQueueCreate 3) []).
  - exact Hq.
  - cbn [st]. rewrite HR, HD. cbn. apply Merge_nil.
  - exact Hrun.
Qed.

(** Five captures with no consumer step, then the camera found and two
    passes of the streaming loop: frames 1 and 2 are returned, 3 is queued,
    4 and 5 were taken back by the driver. *)
Lemma frame_conservation_witness :
  let f k := mk_frame k (Some [xff; xd8; xd9]%byte) 3 in
  let cam := mk_open_env ESP_OK 4096 10 in
  let acts := [Capture (f 1%nat); Capture (f 2%nat); Capture (f 3%nat);
               Capture (f 4%nat); Capture (f 5%nat);
               TaskStep cam; TaskStep cam; TaskStep cam] in
  exists s x,
    app_uvc_init (mk_init_env true 0 1 0 1) (boot 0) = Done (ESP_OK, s) /\
    run 100 acts (mk_sys s Searching) = Done x /\
    returned (trace (env (st x))) = [f 1%nat; f 2%nat] /\
    recycled (trace (env (st x))) = [f 4%nat; f 5%nat] /\
    exists q,
      rx_frames_queue (st x) = Some q /\
      Merge (map Some (returned (trace (env (st x)))) ++ Queue.items q)
            (map Some (recycled (trace (env (st x)))))
            (map Some (captures acts)).
Proof.
  intros f cam acts. eexists _, _.
  split; [vm_compute; reflexivity|].
  split; [vm_compute; reflexivity|].
  split; [vm_compute; reflexivity|].
  split; [vm_compute; reflexivity|].
  eapply (frame_conservation 100 0 (mk_init_env true 0 1 0 1) ESP_OK _ acts);
    vm_compute; reflexivity.
Defined.

(** ** The frame task as a state machine *)

















(** ** Frames queued across a reconnect *)

Lemma disconnect_step hz h (x : sys) :
  step hz (StreamEvent (UVC_HOST_DEVICE_DISCONNECTED h) ESP_OK) x =
  Done (mk_sys
          (set_env
             (emit_w (uvc_host_stream_close h)
                (emit_w (ESP_LOG LOG_I TAG "Device suddenly disconnected")
                        (env (st x))))
             (set_dev_connected false (st x)))
          (pc x)).
Proof. reflexivity. Qed.

(** X3.  When the camera is unplugged while frames are queued, the frame
    task leaves its streaming loop without returning them; they stay in the
    queue, and once a camera is found again the first pass of the streaming
    loop hands the oldest of them to [uvc_host_frame_return] with the
    handle of the new stream. *)
Theorem queued_frames_survive_reconnect hz (x : sys) h (f : uvc_host_frame_t)
    n rest (o1 o2 o3 : open_env) :
  pc x = Streaming h ->
  rx_frames_queue (st x) = Some (Queue.mk n (Some f :: rest)) ->
  open_err o2 = ESP_OK ->
  exists x1 x2 t,
    run hz [StreamEvent (UVC_HOST_DEVICE_DISCONNECTED h) ESP_OK; TaskStep o1] x
      = Done x1 /\
    pc x1 = Searching /\
    rx_frames_queue (st x1) = rx_frames_queue (st x) /\
    filter is_return (trace (env (st x1))) =
      filter is_return (trace (env (st x))) /\
    run hz [TaskStep o2; TaskStep o3] x1 = Done x2 /\
    pc x2 = Streaming (open_hdl o2) /\
    rx_frames_queue (st x2) = Some (Queue.mk n rest) /\
    filter is_return (trace (env (st x2))) =
      filter is_return (trace (env (st x))) ++
      [(t, uvc_host_frame_return (open_hdl o2) f)].
Proof.
  intros Hpc Hq Hok.
  set (s1 := set_env
               (emit_w (uvc_host_stream_close h)
                  (emit_w (ESP_LOG LOG_I TAG "Device suddenly disconnected")
                          (env (st x))))
               (set_dev_connected false (st x))).
  set (s2 := set_env (emit_w (ESP_LOG LOG_I TAG "Device disconnected") (env s1)) s1).
  assert (E1 : run hz [StreamEvent (UVC_HOST_DEVICE_DISCONNECTED h) ESP_OK;
                       TaskStep o1] x = Done (mk_sys s2 Searching)).
  { cbn [run]. rewrite disconnect_step. fold s1.
    cbn [step st pc]. rewrite Hpc. cbn [frame_handling_task].
    rewrite (task_stream_down hz h s1 eq_refl). reflexivity. }
  destruct (task_search_ok hz o2 s2 Hok) as [].
  pose proof (task_search_ok hz o2 s2 Hok) as E2. cbv zeta in E2.
  match type of E2 with
  | _ = Done (_, ?s) => set (s3 := s) in E2
  end.
  assert (Hq3 : rx_frames_queue s3 = Some (Queue.mk n (Some f :: rest))).
  { exact Hq. }
  destruct (task_stream_head hz (open_hdl o2) f n rest s3 eq_refl Hq3)
    as [s4 [E3 [Hq4 [_ [_ Htr]]]]].
  exists (mk_sys s2 Searching), (mk_sys s4 (Streaming (open_hdl o2))), (xTickCount (env s3)).
  split; [exact E1|]. split; [reflexivity|]. split; [reflexivity|].
  split.
  { subst s2 s1. cbn. rewrite !filter_app. cbn. rewrite !app_nil_r. reflexivity. }
  split.
  { cbn [run step st pc frame_handling_task]. rewrite E2.
    cbn [st pc frame_handling_task]. rewrite E3. reflexivity. }
  split; [reflexivity|]. split; [exact Hq4|].
  cbn [st]. rewrite Htr, !filter_app.
  replace (filter is_return (trace (env s3)))
    with (filter is_return (trace (env (st x)))).
  - destruct (g_user_frame_callback s3 =? NULL); cbn; reflexivity.
  - subst s3 s2 s1. cbn. rewrite !filter_app. cbn. rewrite !app_nil_r. reflexivity.
Qed.

(** A frame queued behind stream 4096 is returned on stream 8192. *)
Lemma queued_frames_survive_reconnect_witness :
  let f := mk_frame 1 (Some [xff; xd8; xd9]%byte) 3 in
  let x := mk_sys (mk_state (Some (Queue.mk 3 [Some f])) true NULL NULL
                            (mk_world 0 []))
                  (Streaming 4096) in
  let lost := mk_open_env ESP_FAIL NULL 5 in
  let cam := mk_open_env ESP_OK 8192 7 in
  exists x1 x2 t,
    run 100 [StreamEvent (UVC_HOST_DEVICE_DISCONNECTED 4096) ESP_OK; TaskStep lost] x
      = Done x1 /\
    pc x1 = Searching /\
    rx_frames_queue (st x1) = Some (Queue.mk 3 [Some f]) /\
    filter is_return (trace (env (st x1))) = [] /\
    run 100 [TaskStep cam; TaskStep cam] x1 = Done x2 /\
    pc x2 = Streaming 8192 /\
    rx_frames_queue (st x2) = Some (Queue.mk 3 []) /\
    filter is_return (trace (env (st x2))) = [(t, uvc_host_frame_return 8192 f)].
Proof.
  intros f x lost cam.
  exact (queued_frames_survive_reconnect 100 x 4096 f 3%nat [] lost cam cam
           eq_refl eq_refl eq_refl).
Defined.

(** ** [app_http_init] *)

(** X4.  [app_http_init] cannot fail when handed the address of a function:
    it returns [ESP_OK] with [process_frame] registered and a NULL context,
    and leaves the queue and the connection flag alone.  From then on a
    pass of the streaming loop that dequeues a frame calls the handler on
    the frame's data and length, with the NULL context, and then returns
    the frame; those are the only two calls it makes.  The handler itself
    changes nothing. *)
Theorem app_http_init_dispatch (process_frame_addr : ptr) (s : state) :
  process_frame_addr <> NULL ->
  (exists s',
     AppHttp.app_http_init process_frame_addr s = Done (ESP_OK, s') /\
     g_user_frame_callback s' = process_frame_addr /\
     g_user_callback_ctx s' = NULL /\
     rx_frames_queue s' = rx_frames_queue s /\
     dev_connected s' = dev_connected s) /\
  (forall hz uvc_stream (f : uvc_host_frame_t) n rest (t : state),
     g_user_frame_callback t = process_frame_addr ->
     g_user_callback_ctx t = NULL ->
     dev_connected t = true ->
     rx_frames_queue t = Some (Queue.mk n (Some f :: rest)) ->
     exists t',
       task_stream hz uvc_stream t = Done (Streaming uvc_stream, t') /\
       trace (env t') =
         trace (env t) ++
         [(xTickCount (env t),
           user_frame_cb process_frame_addr (data f) (data_len f) NULL);
          (xTickCount (env t), uvc_host_frame_return uvc_stream f)]) /\
  (forall buffer len ctx (t : state),
     AppHttp.process_frame buffer len ctx t = Done (tt, t)).
Proof.
  intros Hp. split; [|split].
  - unfold AppHttp.app_http_init, app_uvc_register_frame_callback.
    destruct (Z.eqb_spec process_frame_addr NULL) as [E|_]; [contradiction|].
    eexists. split; [reflexivity|]. repeat split.
  - intros hz uvc_stream f n rest t Hcb Hctx Hd Hq.
    destruct (task_stream_head hz uvc_stream f n rest t Hd Hq)
      as [t' [E [_ [_ [_ Htr]]]]].
    exists t'. split; [exact E|]. rewrite Htr, Hcb, Hctx.
    destruct (Z.eqb_spec process_frame_addr NULL) as [E0|_]; [contradiction|].
    reflexivity.
  - reflexivity.
Qed.

Lemma app_http_init_dispatch_witness :
  let f := mk_frame 1 (Some [xff; xd8; xd9]%byte) 3 in
  let s := mk_state (Some (Queue.mk 3 [Some f])) true NULL NULL (mk_world 0 []) in
  exists s' t',
    AppHttp.app_http_init 20480 s = Done (ESP_OK, s') /\
    g_user_frame_callback s' = 20480 /\
    task_stream 100 4096 s' = Done (Streaming 4096, t') /\
    trace (env t') =
      trace (env s') ++
      [(xTickCount (env s'),
        user_frame_cb 20480 (Some [xff; xd8; xd9]%byte) 3 NULL);
       (xTickCount (env s'), uvc_host_frame_return 4096 f)].
Proof.
  intros f s.
  assert (Hp : 20480 <> NULL) by discriminate.
  destruct (app_http_init_dispatch 20480 s Hp)
    as [[s' [E [Hcb [Hctx [Hq Hd]]]]] [Hpass _]].
  destruct (Hpass 100 4096 f 3%nat [] s' Hcb Hctx Hd Hq) as [t' [E' Htr]].
  exists s', t'. repeat split; assumption.
Defined.

(** ** [app_uvc_init] *)

(** X5.  [app_uvc_init] never returns an error code: it returns [ESP_OK]
    when the queue was allocated, both installs answered [ESP_OK] and both
    tasks were created, and aborts in every other case.  When it returns,
    the queue is new, empty and of length 3; the connection flag and the
    registered handler are as they were. *)
Theorem app_uvc_init_all_or_abort (e : init_env) (s : state) :
  exists s',
    app_uvc_init e s =
      (if queue_allocated e
          && (usb_host_install_ret e =? ESP_OK)
          && (usb_lib_task_created e =? pdTRUE)
          && (uvc_host_install_ret e =? ESP_OK)
          && (frame_hdl_task_created e =? pdTRUE)
       then Done (ESP_OK, s') else Aborted) /\
    rx_frames_queue s' = Some (Queue.xQueueCreate 3) /\
    dev_connected s' = dev_connected s /\
    g_user_frame_callback s' = g_user_frame_callback s /\
    g_user_callback_ctx s' = g_user_callback_ctx s.
Proof.
  unfold app_uvc_init, ESP_ERROR_CHECK.
  destruct (queue_allocated e);
    destruct (usb_host_install_ret e =? ESP_OK);
    destruct (usb_lib_task_created e =? pdTRUE);
    destruct (uvc_host_install_ret e =? ESP_OK);
    destruct (frame_hdl_task_created e =? pdTRUE);
    cbn [andb];
    first [ solve [ exists (set_rx_frames_queue (Some (Queue.xQueueCreate 3)) s);
                    split; [reflexivity|]; repeat split ]
          | solve [ eexists; split; [reflexivity|]; repeat split ] ].
Qed.

End AppUvcMore.

(** * Properties of [app_wifi.c] of [src/main] *)
Module AppWifiProofs.
Import AppWifi.

#[local] Arguments Z.ltb : simpl never.
#[local] Arguments Z.eqb : simpl never.
#[local] Arguments Z.lor : simpl never.
#[local] Arguments Z.land : simpl never.
#[local] Arguments Libc.as_int : simpl never.

Ltac run_prog :=
  unfold ESP_LOGx, checked, emit, xEventGroupSetBits, ESP_ERROR_CHECK, assert,
    bind, ret, gets, modify, abort in *;
  cbn in *.

Lemma calls_of_app name tr1 tr2 :
  calls_of name (tr1 ++ tr2) = (calls_of name tr1 + calls_of name tr2)%nat.
Proof. unfold calls_of. rewrite filter_app, length_app. reflexivity. Qed.

Ltac count_calls :=
  unfold connects, calls_of; cbn;
  rewrite ?filter_app, ?length_app; cbn; lia.

(** The handler, case by case. *)
Lemma on_start (s : state) :
  exists s',
    event_handler WIFI_EVENT_STA_START s = Done (tt, s') /\
    wifi_event_group s' = wifi_event_group s /\
    s_retry_num s' = s_retry_num s /\
    init_connection_done s' = init_connection_done s /\
    ap_connected s' = ap_connected s /\
    connects s' = S (connects s).
Proof.
  eexists. split; [reflexivity|]. cbn. repeat split.
  count_calls.
Qed.

Lemma on_other id (s : state) :
  exists s',
    event_handler (WIFI_EVENT_OTHER id) s = Done (tt, s') /\
    wifi_event_group s' = wifi_event_group s /\
    s_retry_num s' = s_retry_num s /\
    init_connection_done s' = init_connection_done s /\
    ap_connected s' = ap_connected s /\
    connects s' = connects s.
Proof.
  eexists. split; [reflexivity|]. cbn. repeat split.
  count_calls.
Qed.

Lemma on_disconnect_retry (s : state) :
  init_connection_done s = false ->
  0 <= s_retry_num s < 5 ->
  exists s',
    event_handler WIFI_EVENT_STA_DISCONNECTED s = Done (tt, s') /\
    wifi_event_group s' = wifi_event_group s /\
    s_retry_num s' = s_retry_num s + 1 /\
    init_connection_done s' = false /\
    ap_connected s' = false /\
    connects s' = S (connects s).
Proof.
  intros Hd Hn. unfold event_handler. run_prog. rewrite Hd. cbn.
  replace (s_retry_num s <? EXAMPLE_ESP_MAXIMUM_RETRY) with true
    by (symmetry; apply Z.ltb_lt; unfold EXAMPLE_ESP_MAXIMUM_RETRY; lia).
  eexists. split; [reflexivity|]. cbn.
  rewrite LibcProofs.as_int_small by lia. repeat split; try assumption.
  count_calls.
Qed.

Lemma on_disconnect_give_up (s : state) bits :
  init_connection_done s = false ->
  5 <= s_retry_num s ->
  wifi_event_group s = Some bits ->
  exists s',
    event_handler WIFI_EVENT_STA_DISCONNECTED s = Done (tt, s') /\
    wifi_event_group s' = Some (Z.lor bits WIFI_FAIL_BIT) /\
    s_retry_num s' = s_retry_num s /\
    init_connection_done s' = false /\
    ap_connected s' = false /\
    connects s' = connects s.
Proof.
  intros Hd Hn Hg. unfold event_handler. run_prog. rewrite Hd. cbn.
  replace (s_retry_num s <? EXAMPLE_ESP_MAXIMUM_RETRY) with false
    by (symmetry; apply Z.ltb_ge; unfold EXAMPLE_ESP_MAXIMUM_RETRY; lia).
  cbn. rewrite Hg. cbn.
  eexists. split; [reflexivity|]. cbn. repeat split; try assumption.
  count_calls.
Qed.

Lemma on_disconnect_later (s : state) :
  init_connection_done s = true ->
  exists s',
    event_handler WIFI_EVENT_STA_DISCONNECTED s = Done (tt, s') /\
    wifi_event_group s' = wifi_event_group s /\
    s_retry_num s' = s_retry_num s /\
    init_connection_done s' = true /\
    ap_connected s' = false /\
    connects s' = S (connects s).
Proof.
  intros Hd. unfold event_handler. run_prog. rewrite Hd. cbn.
  eexists. split; [reflexivity|]. cbn. repeat split; try assumption.
  count_calls.
Qed.

Lemma on_got_ip a b c d (s : state) bits :
  wifi_event_group s = Some bits ->
  exists s',
    event_handler (IP_EVENT_STA_GOT_IP a b c d) s = Done (tt, s') /\
    wifi_event_group s' = Some (Z.lor bits WIFI_CONNECTED_BIT) /\
    s_retry_num s' = 0 /\
    init_connection_done s' = true /\
    ap_connected s' = ap_connected s /\
    connects s' = connects s.
Proof.
  intros Hg. unfold event_handler. run_prog. rewrite Hg. cbn.
  eexists. split; [reflexivity|]. cbn. repeat split.
  count_calls.
Qed.

Lemma handle_events_cons event evs (s s1 : state) :
  event_handler event s = Done (tt, s1) ->
  handle_events (event :: evs) s = handle_events evs s1.
Proof. intros E. cbn [handle_events]. unfold bind. rewrite E. reflexivity. Qed.

Lemma lor_fail_twice bits :
  Z.lor (Z.lor bits WIFI_FAIL_BIT) WIFI_FAIL_BIT = Z.lor bits WIFI_FAIL_BIT.
Proof. rewrite <- Z.lor_assoc, Z.lor_diag. reflexivity. Qed.

(** The handler over events with no got-IP among them, before an address
    has been obtained: the retry counter, the connect calls and the bits of
    the event group. *)
Lemma retries_before_address (evs : list wifi_event) (s : state) bits :
  forallb (fun e => negb (is_got_ip e)) evs = true ->
  init_connection_done s = false ->
  wifi_event_group s = Some bits ->
  0 <= s_retry_num s <= 5 ->
  exists s',
    handle_events evs s = Done (tt, s') /\
    init_connection_done s' = false /\
    s_retry_num s' = Z.min 5 (s_retry_num s + Z.of_nat (n_disconnected evs)) /\
    connects s' =
      (connects s + n_start evs +
       Z.to_nat (Z.min (Z.of_nat (n_disconnected evs)) (5 - s_retry_num s)))%nat /\
    wifi_event_group s' =
      Some (if 5 - s_retry_num s <? Z.of_nat (n_disconnected evs)
            then Z.lor bits WIFI_FAIL_BIT else bits).
Proof.
  revert s bits. induction evs as [|ev evs IH]; intros s bits Hno Hd Hg Hr.
  - exists s. split; [reflexivity|]. split; [exact Hd|].
    unfold n_disconnected, n_start. cbn [filter length].
    change (Z.of_nat 0) with 0.
    split; [lia|]. split; [lia|].
    replace (5 - s_retry_num s <? 0) with false
      by (symmetry; apply Z.ltb_ge; lia).
    exact Hg.
  - cbn [forallb] in Hno. apply andb_true_iff in Hno. destruct Hno as [Hev Hno].
    destruct ev as [| |a b c d|id]; [| | discriminate Hev |].
    + destruct (on_start s) as [s1 [E [Hg1 [Hr1 [Hd1 [_ Hc1]]]]]].
      rewrite (handle_events_cons _ _ _ _ E).
      destruct (IH s1 bits Hno) as [s' [E' [Hd' [Hr' [Hc' Hg']]]]];
        try congruence.
      exists s'. split; [exact E'|]. split; [exact Hd'|].
      unfold n_start, n_disconnected in *. cbn [filter is_sta_start
        is_sta_disconnected length].
      rewrite Hr', Hc', Hg', Hr1, Hc1. repeat split; lia.
    + destruct (Z.lt_ge_cases (s_retry_num s) 5) as [Hlt|Hge].
      * destruct (on_disconnect_retry s Hd ltac:(lia))
          as [s1 [E [Hg1 [Hr1 [Hd1 [_ Hc1]]]]]].
        rewrite (handle_events_cons _ _ _ _ E).
        destruct (IH s1 bits Hno Hd1) as [s' [E' [Hd' [Hr' [Hc' Hg']]]]];
          try congruence; try lia.
        exists s'. split; [exact E'|]. split; [exact Hd'|].
        unfold n_start, n_disconnected in *. cbn [filter is_sta_start
          is_sta_disconnected length].
        rewrite Hr', Hc', Hg', Hr1, Hc1. rewrite Nat2Z.inj_succ.
        split; [lia|]. split; [lia|].
        destruct (Z.ltb_spec (5 - (s_retry_num s + 1))
                             (Z.of_nat (length (filter is_sta_disconnected evs))));
          destruct (Z.ltb_spec (5 - s_retry_num s)
                      (Z.succ (Z.of_nat (length (filter is_sta_disconnected evs)))));
          try lia; reflexivity.
      * destruct (on_disconnect_give_up s bits Hd Hge Hg)
          as [s1 [E [Hg1 [Hr1 [Hd1 [_ Hc1]]]]]].
        rewrite (handle_events_cons _ _ _ _ E).
        destruct (IH s1 (Z.lor bits WIFI_FAIL_BIT) Hno Hd1 Hg1)
          as [s' [E' [Hd' [Hr' [Hc' Hg']]]]]; try lia.
        exists s'. split; [exact E'|]. split; [exact Hd'|].
        unfold n_start, n_disconnected in *. cbn [filter is_sta_start
          is_sta_disconnected length].
        rewrite Hr', Hc', Hg', Hr1, Hc1, lor_fail_twice. rewrite Nat2Z.inj_succ.
        split; [lia|]. split; [lia|].
        replace (5 - s_retry_num s <?
                 Z.succ (Z.of_nat (length (filter is_sta_disconnected evs))))
          with true by (symmetry; apply Z.ltb_lt; lia).
        destruct (5 - s_retry_num s <?
                  Z.of_nat (length (filter is_sta_disconnected evs)));
          reflexivity.
    + destruct (on_other id s) as [s1 [E [Hg1 [Hr1 [Hd1 [_ Hc1]]]]]].
      rewrite (handle_events_cons _ _ _ _ E).
      destruct (IH s1 bits Hno) as [s' [E' [Hd' [Hr' [Hc' Hg']]]]];
        try congruence.
      exists s'. split; [exact E'|]. split; [exact Hd'|].
      unfold n_start, n_disconnected in *. cbn [filter is_sta_start
        is_sta_disconnected length].
      rewrite Hr', Hc', Hg', Hr1, Hc1. repeat split; lia.
Qed.

(** X6.  While no IP address has been obtained, the handler answers
    disconnects with at most [EXAMPLE_ESP_MAXIMUM_RETRY] reconnects in
    all: with [r] retries already made and [d] disconnect events, it calls
    [esp_wifi_connect] once per start event and [min d (5 - r)] times for
    the disconnects, the counter ends at [min 5 (r + d)], and
    [WIFI_FAIL_BIT] is set exactly when there were more than [5 - r]
    disconnects.  The handler never aborts on such events. *)
Theorem initial_retries_bounded (evs : list wifi_event) (s : state) bits :
  forallb (fun e => negb (is_got_ip e)) evs = true ->
  init_connection_done s = false ->
  wifi_event_group s = Some bits ->
  0 <= s_retry_num s <= 5 ->
  exists s',
    handle_events evs s = Done (tt, s') /\
    init_connection_done s' = false /\
    s_retry_num s' = Z.min 5 (s_retry_num s + Z.of_nat (n_disconnected evs)) /\
    connects s' =
      (connects s + n_start evs +
       Z.to_nat (Z.min (Z.of_nat (n_disconnected evs)) (5 - s_retry_num s)))%nat /\
    (connects s' <= connects s + n_start evs + 5)%nat /\
    wifi_event_group s' =
      Some (if 5 - s_retry_num s <? Z.of_nat (n_disconnected evs)
            then Z.lor bits WIFI_FAIL_BIT else bits).
Proof.
  intros Hno Hd Hg Hr.
  destruct (retries_before_address evs s bits Hno Hd Hg Hr)
    as [s' [E [Hd' [Hr' [Hc' Hg']]]]].
  exists s'. split; [exact E|]. split; [exact Hd'|]. split; [exact Hr'|].
  split; [exact Hc'|]. split; [|exact Hg'].
  rewrite Hc'. apply Nat.add_le_mono_l.
  destruct (Z.min_spec (Z.of_nat (n_disconnected evs)) (5 - s_retry_num s))
    as [[Hm ->]|[Hm ->]]; lia.
Qed.

(** The station starts and is refused seven times: one connect for the
    start, five retries, the fail bit set. *)
Lemma initial_retries_bounded_witness :
  let evs := WIFI_EVENT_STA_START :: repeat WIFI_EVENT_STA_DISCONNECTED 7 in
  let s := mk_state (Some 0) 0 false false (mk_world 0 []) in
  exists s',
    handle_events evs s = Done (tt, s') /\
    init_connection_done s' = false /\
    s_retry_num s' = 5 /\
    connects s' = 6%nat /\
    wifi_event_group s' = Some WIFI_FAIL_BIT.
Proof.
  intros evs s.
  assert (Hr0 : 0 <= s_retry_num s <= 5) by (split; discriminate).
  destruct (initial_retries_bounded evs s 0 eq_refl eq_refl eq_refl Hr0)
    as [s' [E [Hd [Hr [Hc [_ Hg]]]]]].
  exists s'. split; [exact E|]. split; [exact Hd|].
  split; [rewrite Hr; vm_compute; reflexivity|].
  split; [rewrite Hc; vm_compute; reflexivity|].
  rewrite Hg. vm_compute. reflexivity.
Defined.

(** X7.  Once an IP address has been obtained the handler never gives up:
    whatever events follow, it calls [esp_wifi_connect] once for every
    disconnect (and every start), [init_connection_done] stays set and
    [WIFI_FAIL_BIT] is not touched. *)
Theorem reconnects_forever (evs : list wifi_event) (s : state) bits :
  init_connection_done s = true ->
  wifi_event_group s = Some bits ->
  exists s' bits',
    handle_events evs s = Done (tt, s') /\
    init_connection_done s' = true /\
    connects s' = (connects s + n_start evs + n_disconnected evs)%nat /\
    wifi_event_group s' = Some bits' /\
    Z.land bits' WIFI_FAIL_BIT = Z.land bits WIFI_FAIL_BIT.
Proof.
  revert s bits. induction evs as [|ev evs IH]; intros s bits Hd Hg.
  - exists s, bits. split; [reflexivity|]. split; [exact Hd|].
    unfold n_disconnected, n_start. cbn [filter length].
    split; [lia|]. split; [exact Hg|reflexivity].
  - destruct ev as [| |a b c d|id].
    + destruct (on_start s) as [s1 [E [Hg1 [_ [Hd1 [_ Hc1]]]]]].
      rewrite (handle_events_cons _ _ _ _ E).
      destruct (IH s1 bits) as [s' [bits' [E' [Hd' [Hc' [Hg' Hb']]]]]];
        try congruence.
      exists s', bits'. split; [exact E'|]. split; [exact Hd'|].
      unfold n_start, n_disconnected in *. cbn [filter is_sta_start
        is_sta_disconnected length].
      rewrite Hc', Hc1. repeat split; try assumption; lia.
    + destruct (on_disconnect_later s Hd) as [s1 [E [Hg1 [_ [Hd1 [_ Hc1]]]]]].
      rewrite (handle_events_cons _ _ _ _ E).
      destruct (IH s1 bits) as [s' [bits' [E' [Hd' [Hc' [Hg' Hb']]]]]];
        try congruence.
      exists s', bits'. split; [exact E'|]. split; [exact Hd'|].
      unfold n_start, n_disconnected in *. cbn [filter is_sta_start
        is_sta_disconnected length].
      rewrite Hc', Hc1. repeat split; try assumption; lia.
    + destruct (on_got_ip a b c d s bits Hg) as [s1 [E [Hg1 [_ [Hd1 [_ Hc1]]]]]].
      rewrite (handle_events_cons _ _ _ _ E).
      destruct (IH s1 _ Hd1 Hg1) as [s' [bits' [E' [Hd' [Hc' [Hg' Hb']]]]]].
      exists s', bits'. split; [exact E'|]. split; [exact Hd'|].
      unfold n_start, n_disconnected in *. cbn [filter is_sta_start
        is_sta_disconnected length].
      rewrite Hc', Hc1. split; [lia|]. split; [exact Hg'|].
      rewrite Hb', Z.land_lor_distr_l.
      change (Z.land WIFI_CONNECTED_BIT WIFI_FAIL_BIT) with 0.
      apply Z.lor_0_r.
    + destruct (on_other id s) as [s1 [E [Hg1 [_ [Hd1 [_ Hc1]]]]]].
      rewrite (handle_events_cons _ _ _ _ E).
      destruct (IH s1 bits) as [s' [bits' [E' [Hd' [Hc' [Hg' Hb']]]]]];
        try congruence.
      exists s', bits'. split; [exact E'|]. split; [exact Hd'|].
      unfold n_start, n_disconnected in *. cbn [filter is_sta_start
        is_sta_disconnected length].
      rewrite Hc', Hc1. repeat split; try assumption; lia.
Qed.

(** Connected, then dropped eight times: eight reconnects, no fail bit. *)
Lemma reconnects_forever_witness :
  let evs := repeat WIFI_EVENT_STA_DISCONNECTED 8 in
  let s := mk_state (Some WIFI_CONNECTED_BIT) 0 true true (mk_world 0 []) in
  exists s' bits',
    handle_events evs s = Done (tt, s') /\
    init_connection_done s' = true /\
    connects s' = 8%nat /\
    wifi_event_group s' = Some bits' /\
    Z.land bits' WIFI_FAIL_BIT = 0.
Proof.
  intros evs s.
  destruct (reconnects_forever evs s WIFI_CONNECTED_BIT eq_refl eq_refl)
    as [s' [bits' [E [Hd [Hc [Hg Hb]]]]]].
  exists s', bits'. split; [exact E|]. split; [exact Hd|].
  split; [rewrite Hc; vm_compute; reflexivity|].
  split; [exact Hg|]. rewrite Hb. vm_compute. reflexivity.
Defined.

(** ** The connected flag *)

Lemma event_handler_keeps_down event :
  respects (keeps is_down) (event_handler event).
Proof.
  unfold event_handler, ESP_LOGx, emit, xEventGroupSetBits.
  repeat first
    [ apply respects_modify; intros ? H; first [exact H | reflexivity]
    | respects_step ].
Qed.

Lemma handle_events_keeps_down evs :
  respects (keeps is_down) (handle_events evs).
Proof.
  induction evs as [|ev evs IH]; cbn [handle_events].
  - respects_step.
  - respects_step; [apply event_handler_keeps_down|exact IH].
Qed.

(** X8.  The event handler never raises [ap_connected]: after a disconnect
    event [app_wifi_is_connected] answers [false], and it goes on answering
    [false] whatever events follow, a later got-IP event included. *)
Theorem connected_flag_not_restored (evs : list wifi_event) (s s' : state) :
  handle_events (WIFI_EVENT_STA_DISCONNECTED :: evs) s = Done (tt, s') ->
  app_wifi_is_connected s' = false.
Proof.
  intros H. cbn [handle_events] in H.
  apply bind_done in H. destruct H as [u [s1 [E1 E2]]].
  apply (handle_events_keeps_down evs s1 tt s' E2).
  unfold event_handler in E1.
  apply bind_done in E1. destruct E1 as [u0 [s0 [_ E1]]].
  apply bind_done in E1. destruct E1 as [u1 [s2 [Em E1]]].
  inversion Em; subst. revert E1.
  match goal with
  | |- ?c ?t = _ -> _ => assert (K : respects (keeps is_down) c)
  end.
  { unfold ESP_LOGx, emit, xEventGroupSetBits.
    repeat first
      [ apply respects_modify; intros ? H; first [exact H | reflexivity]
      | respects_step ]. }
  intros E1. apply (K _ _ _ E1). reflexivity.
Qed.

(** Connected, dropped, and an address obtained again: still reported as
    not connected. *)
Lemma connected_flag_not_restored_witness :
  let s := mk_state (Some WIFI_CONNECTED_BIT) 0 true true (mk_world 0 []) in
  exists s',
    handle_events [WIFI_EVENT_STA_DISCONNECTED; IP_EVENT_STA_GOT_IP 192 168 1 7] s
      = Done (tt, s') /\
    app_wifi_is_connected s = true /\
    app_wifi_is_connected s' = false.
Proof.
  intros s. eexists. split; [vm_compute; reflexivity|]. split; [reflexivity|].
  eapply (connected_flag_not_restored [IP_EVENT_STA_GOT_IP 192 168 1 7] s).
  vm_compute. reflexivity.
Defined.

(** ** Start-up *)

Lemma app_wifi_init_setup_started e now s :
  event_group_created e = true ->
  app_wifi_init_setup e (boot now) = Done (tt, s) ->
  started s.
Proof.
  intros Hc H. unfold app_wifi_init_setup in H.
  apply bind_done in H. destruct H as [u0 [s0 [E0 H]]].
  apply bind_done in H. destruct H as [r [s1 [E1 H]]].
  apply bind_done in H. destruct H as [u2 [s2 [E2 H]]].
  unfold wifi_init_setup in H.
  apply bind_done in H. destruct H as [u3 [s3 [E3 H]]].
  assert (K0 : forall c : @M state unit,
             respects (keeps (fun t => s_retry_num t = 0 /\
                                       init_connection_done t = false)) c ->
             forall t u t', c t = Done (u, t') ->
             s_retry_num t = 0 /\ init_connection_done t = false ->
             s_retry_num t' = 0 /\ init_connection_done t' = false).
  { intros c K t u t' E. exact (K t u t' E). }
  assert (Hs2 : s_retry_num s2 = 0 /\ init_connection_done s2 = false).
  { assert (Hs0 : s_retry_num s0 = 0 /\ init_connection_done s0 = false).
    { inversion E0; subst. split; reflexivity. }
    assert (Hs1 : s_retry_num s1 = 0 /\ init_connection_done s1 = false).
    { revert E1.
      match goal with
      | |- ?c _ = _ -> _ =>
          assert (K : respects (keeps (fun t => s_retry_num t = 0 /\
                                                init_connection_done t = false)) c)
      end.
      { unfold checked, emit.
        repeat first
          [ apply respects_modify; intros ? K; exact K | respects_step ]. }
      intros E1. exact (K _ _ _ E1 Hs0). }
    unfold ESP_ERROR_CHECK in E2. destruct (r =? ESP_OK); [|discriminate].
    inversion E2; subst. exact Hs1. }
  inversion E3; subst. rewrite Hc in H.
  revert H.
  match goal with
  | |- ?c _ = _ -> _ => assert (K : respects (keeps started) c)
  end.
  { unfold checked, ESP_LOGx, emit.
    repeat first
      [ apply respects_modify; intros ? K; exact K | respects_step ]. }
  intros H. apply (K _ _ _ H). destruct Hs2 as [Hr Hd].
  split; [reflexivity|]. split; [exact Hr|exact Hd].
Qed.

(** Once [WIFI_CONNECTED_BIT] is set it stays set. *)
Lemma land_lor_connected bits :
  Z.land (Z.lor bits WIFI_CONNECTED_BIT) WIFI_CONNECTED_BIT = WIFI_CONNECTED_BIT.
Proof.
  rewrite Z.land_lor_distr_l, Z.land_diag.
  apply Z.bits_inj'. intros n Hn.
  rewrite Z.lor_spec, Z.land_spec.
  destruct (Z.testbit WIFI_CONNECTED_BIT n); [apply orb_true_r|].
  rewrite andb_false_r. reflexivity.
Qed.

Lemma land_lor_fail_connected bits :
  Z.land bits WIFI_CONNECTED_BIT = WIFI_CONNECTED_BIT ->
  Z.land (Z.lor bits WIFI_FAIL_BIT) WIFI_CONNECTED_BIT = WIFI_CONNECTED_BIT.
Proof.
  intros H. rewrite Z.land_lor_distr_l, H.
  change (Z.land WIFI_FAIL_BIT WIFI_CONNECTED_BIT) with 0. apply Z.lor_0_r.
Qed.

Lemma events_reach_connected_bit (evs : list wifi_event) : forall (s : state) bits,
  wifi_event_group s = Some bits ->
  (Z.land bits WIFI_CONNECTED_BIT = WIFI_CONNECTED_BIT \/
   existsb is_got_ip evs = true) ->
  exists s', handle_events evs s = Done (tt, s') /\ connected_bit_set s'.
Proof.
  induction evs as [|ev evs IH]; intros s bits Hg Hor.
  - exists s. split; [reflexivity|]. exists bits. split; [exact Hg|].
    destruct Hor as [H|H]; [exact H|discriminate H].
  - destruct ev as [| |a b c d|id].
    + destruct (on_start s) as [s1 [E [Hg1 _]]].
      rewrite (handle_events_cons _ _ _ _ E).
      apply (IH s1 bits); [congruence|exact Hor].
    + destruct (init_connection_done s) eqn:Hd.
      * destruct (on_disconnect_later s Hd) as [s1 [E [Hg1 _]]].
        rewrite (handle_events_cons _ _ _ _ E).
        apply (IH s1 bits); [congruence|exact Hor].
      * destruct (Z.lt_ge_cases (s_retry_num s) 5) as [Hlt|Hge].
        -- destruct (Z.lt_ge_cases (s_retry_num s) 0) as [Hneg|Hpos].
           ++ (* a negative counter still counts as below the maximum *)
              assert (E : exists s1,
                         event_handler WIFI_EVENT_STA_DISCONNECTED s = Done (tt, s1)
                         /\ wifi_event_group s1 = Some bits).
              { unfold event_handler. run_prog. rewrite Hd. cbn.
                replace (s_retry_num s <? EXAMPLE_ESP_MAXIMUM_RETRY) with true
                  by (symmetry; apply Z.ltb_lt;
                      unfold EXAMPLE_ESP_MAXIMUM_RETRY; lia).
                eexists. split; [reflexivity|exact Hg]. }
              destruct E as [s1 [E Hg1]].
              rewrite (handle_events_cons _ _ _ _ E).
              apply (IH s1 bits); [exact Hg1|exact Hor].
           ++ destruct (on_disconnect_retry s Hd ltac:(lia)) as [s1 [E [Hg1 _]]].
              rewrite (handle_events_cons _ _ _ _ E).
              apply (IH s1 bits); [congruence|exact Hor].
        -- destruct (on_disconnect_give_up s bits Hd Hge Hg) as [s1 [E [Hg1 _]]].
           rewrite (handle_events_cons _ _ _ _ E).
           apply (IH s1 _ Hg1). destruct Hor as [H|H]; [|right; exact H].
           left. apply land_lor_fail_connected, H.
    + destruct (on_got_ip a b c d s bits Hg) as [s1 [E [Hg1 _]]].
      rewrite (handle_events_cons _ _ _ _ E).
      apply (IH s1 _ Hg1). left. apply land_lor_connected.
    + destruct (on_other id s) as [s1 [E [Hg1 _]]].
      rewrite (handle_events_cons _ _ _ _ E).
      apply (IH s1 bits); [congruence|exact Hor].
Qed.

(** X9.  [app_wifi_init] after its set-up, with the events that arrive
    while it waits: if a got-IP event is among them it returns [ESP_OK] with
    [ap_connected] set; if there is none and the station was dropped more
    than five times it returns [ESP_OK] all the same, with [ap_connected]
    clear; with at most five drops and no address it is still blocked.  It
    never returns anything but [ESP_OK]. *)
Theorem wifi_start_up_outcome now (e : init_env) (evs : list wifi_event) (s0 : state) :
  event_group_created e = true ->
  app_wifi_init_setup e (boot now) = Done (tt, s0) ->
  exists s1,
    handle_events evs s0 = Done (tt, s1) /\
    if existsb is_got_ip evs then
      exists s2, app_wifi_init_finish s1 = Done (Some ESP_OK, s2) /\
                 app_wifi_is_connected s2 = true
    else if (5 <? n_disconnected evs)%nat then
      exists s2, app_wifi_init_finish s1 = Done (Some ESP_OK, s2) /\
                 app_wifi_is_connected s2 = false
    else
      app_wifi_init_finish s1 = Done (None, s1).
Proof.
  intros Hc Hsetup.
  destruct (app_wifi_init_setup_started e now s0 Hc Hsetup) as [Hg [Hr Hd]].
  destruct (existsb is_got_ip evs) eqn:Hip.
  - destruct (events_reach_connected_bit evs s0 0 Hg (or_intror Hip))
      as [s1 [E [bits [Hg1 Hb]]]].
    exists s1. split; [exact E|].
    unfold app_wifi_init_finish, wifi_init_wait. run_prog. rewrite Hg1.
    assert (H3 : Z.land bits (Z.lor WIFI_CONNECTED_BIT WIFI_FAIL_BIT) <> 0).
    { rewrite Z.land_lor_distr_r, Hb. intros H0.
      apply Z.lor_eq_0_iff in H0. destruct H0 as [H0 _]. discriminate H0. }
    destruct (Z.eqb_spec (Z.land bits (Z.lor WIFI_CONNECTED_BIT WIFI_FAIL_BIT)) 0)
      as [E0|_]; [contradiction|].
    rewrite Hb. change (WIFI_CONNECTED_BIT =? 0) with false. cbn.
    eexists. split; reflexivity.
  - assert (Hno : forallb (fun ev => negb (is_got_ip ev)) evs = true).
    { clear - Hip. induction evs as [|ev evs IH]; [reflexivity|].
      cbn in Hip |- *. apply orb_false_iff in Hip. destruct Hip as [H1 H2].
      rewrite H1, (IH H2). reflexivity. }
    destruct (retries_before_address evs s0 0 Hno Hd Hg ltac:(lia))
      as [s1 [E [_ [_ [_ Hg1]]]]].
    exists s1. split; [exact E|]. rewrite Hr in Hg1.
    unfold app_wifi_init_finish, wifi_init_wait, bind, gets.
    destruct (Nat.ltb_spec 5 (n_disconnected evs)) as [Hmany|Hfew].
    + replace (5 - 0 <? Z.of_nat (n_disconnected evs)) with true in Hg1
        by (symmetry; apply Z.ltb_lt; lia).
      rewrite Hg1. eexists. split; reflexivity.
    + replace (5 - 0 <? Z.of_nat (n_disconnected evs)) with false in Hg1
        by (symmetry; apply Z.ltb_ge; lia).
      rewrite Hg1. reflexivity.
Qed.

(** Start-up with every answer favourable, then the access point refusing
    the station six times: [app_wifi_init] returns [ESP_OK], not
    connected. *)
Lemma wifi_start_up_outcome_witness :
  let e := mk_init_env 0 0 0 true 0 0 0 0 0 0 0 0 in
  let evs := WIFI_EVENT_STA_START :: repeat WIFI_EVENT_STA_DISCONNECTED 6 in
  exists s0 s1 s2,
    app_wifi_init_setup e (boot 0) = Done (tt, s0) /\
    handle_events evs s0 = Done (tt, s1) /\
    app_wifi_init_finish s1 = Done (Some ESP_OK, s2) /\
    app_wifi_is_connected s2 = false.
Proof.
  intros e evs.
  assert (Hsetup : exists s0, app_wifi_init_setup e (boot 0) = Done (tt, s0)).
  { eexists. vm_compute. reflexivity. }
  destruct Hsetup as [s0 Hsetup].
  destruct (wifi_start_up_outcome 0 e evs s0 eq_refl Hsetup) as [s1 [E H]].
  change (existsb is_got_ip evs) with false in H.
  change (5 <? n_disconnected evs)%nat with true in H.
  destruct H as [s2 [E2 H2]].
  exists s0, s1, s2. repeat split; assumption.
Defined.

End AppWifiProofs.

(** * Properties of the WiFi side of [src/unnamed/part_001] *)
Module StreamerProofs.
Import Streamer.

#[local] Arguments Z.ltb : simpl never.
#[local] Arguments Z.eqb : simpl never.
#[local] Arguments Libc.as_int : simpl never.
#[local] Arguments Libc.snprintf : simpl never.
#[local] Arguments ip_text : simpl never.

Ltac run_prog :=
  unfold start_webserver, stop_webserver, ESP_LOGx, emit, ESP_ERROR_CHECK,
    bind, ret, gets, modify, abort in *;
  cbn in *.

Ltac count_calls :=
  unfold connects, calls_of; cbn;
  rewrite ?filter_app, ?length_app; cbn; lia.

(** The handler, case by case. *)
Lemma streamer_on_start h (s : state) :
  exists s',
    wifi_event_handler WIFI_EVENT_STA_START h s = Done (tt, s') /\
    server s' = server s /\
    wifi_connected s' = wifi_connected s /\
    ip_addr s' = ip_addr s /\
    retry_count s' = retry_count s /\
    connects s' = S (connects s).
Proof.
  eexists. split; [reflexivity|]. cbn. repeat split. count_calls.
Qed.

Lemma streamer_on_other id h (s : state) :
  wifi_event_handler (WIFI_EVENT_OTHER id) h s = Done (tt, s).
Proof. reflexivity. Qed.

Lemma streamer_on_disconnect h (s : state) :
  0 <= retry_count s <= 5 ->
  exists s',
    wifi_event_handler WIFI_EVENT_STA_DISCONNECTED h s = Done (tt, s') /\
    server s' = NULL /\
    wifi_connected s' = false /\
    ip_addr s' = ip_addr s /\
    retry_count s' = Z.min 5 (retry_count s + 1) /\
    connects s' = (connects s + if (retry_count s <? 5)%Z then 1 else 0)%nat /\
    calls_of "httpd_stop" (trace (env s')) =
      (calls_of "httpd_stop" (trace (env s)) +
       if (server s =? NULL)%Z then 0 else 1)%nat.
Proof.
  intros Hr. unfold wifi_event_handler. run_prog.
  destruct (server s =? NULL); cbn;
    change WIFI_MAX_RETRY with 5;
    destruct (Z.ltb_spec (retry_count s) 5); cbn;
    (eexists; split; [reflexivity|]; cbn;
     rewrite ?LibcProofs.as_int_small by lia;
     repeat split; try lia; count_calls).
Qed.

Lemma streamer_on_got_ip a b c d h (s : state) :
  exists s',
    wifi_event_handler (IP_EVENT_STA_GOT_IP a b c d) h s = Done (tt, s') /\
    server s' = (if httpd_start_ret h =? ESP_OK then httpd_start_hdl h else NULL) /\
    wifi_connected s' = true /\
    ip_addr s' = fst (Libc.snprintf 16 (ip_text a b c d)) /\
    retry_count s' = 0 /\
    connects s' = connects s /\
    calls_of "httpd_stop" (trace (env s')) = calls_of "httpd_stop" (trace (env s)).
Proof.
  unfold wifi_event_handler. run_prog.
  destruct (httpd_start_ret h =? ESP_OK); cbn;
    (eexists; split; [reflexivity|]; cbn; repeat split; count_calls).
Qed.

Lemma streamer_events_cons event h evs (s s1 : state) :
  wifi_event_handler event h s = Done (tt, s1) ->
  handle_events ((event, h) :: evs) s = handle_events evs s1.
Proof. intros E. cbn [handle_events]. unfold bind. rewrite E. reflexivity. Qed.

(** Events other than got-IP leave the address text alone. *)
Lemma streamer_address_kept (evs : list (wifi_event * httpd_env)) : forall s : state,
  forallb (fun p => negb (is_got_ip (fst p))) evs = true ->
  0 <= retry_count s <= 5 ->
  exists s',
    handle_events evs s = Done (tt, s') /\ ip_addr s' = ip_addr s.
Proof.
  induction evs as [|[ev h] evs IH]; intros s Hno Hr.
  - exists s. split; reflexivity.
  - cbn [forallb fst] in Hno. apply andb_true_iff in Hno. destruct Hno as [Hev Hno].
    destruct ev as [| |a b c d|id]; [| | discriminate Hev |].
    + destruct (streamer_on_start h s) as [s1 [E [_ [_ [Hi1 [Hr1 _]]]]]].
      rewrite (streamer_events_cons _ _ _ _ _ E).
      destruct (IH s1 Hno ltac:(lia)) as [s' [E' Hi']].
      exists s'. split; [exact E'|congruence].
    + destruct (streamer_on_disconnect h s Hr) as [s1 [E [_ [_ [Hi1 [Hr1 _]]]]]].
      rewrite (streamer_events_cons _ _ _ _ _ E).
      destruct (IH s1 Hno ltac:(lia)) as [s' [E' Hi']].
      exists s'. split; [exact E'|congruence].
    + rewrite (streamer_events_cons _ _ _ _ _ (streamer_on_other id h s)).
      exact (IH s Hno Hr).
Qed.

(** X10.  The streamer's handler retries a lost link at most
    [WIFI_MAX_RETRY] times between two got-IP events: over events with no
    got-IP among them, with [r] retries already made and [d] disconnects,
    it calls [esp_wifi_connect] once per start event and [min d (5 - r)]
    times for the disconnects, and the counter ends at [min 5 (r + d)];
    after the fifth retry a disconnect makes no connect call.  The address
    text is left as it was. *)
Theorem streamer_retries_bounded (evs : list (wifi_event * httpd_env)) (s : state) :
  forallb (fun p => negb (is_got_ip (fst p))) evs = true ->
  0 <= retry_count s <= 5 ->
  exists s',
    handle_events evs s = Done (tt, s') /\
    retry_count s' = Z.min 5 (retry_count s + Z.of_nat (n_disconnected evs)) /\
    connects s' =
      (connects s + n_start evs +
       Z.to_nat (Z.min (Z.of_nat (n_disconnected evs)) (5 - retry_count s)))%nat /\
    ip_addr s' = ip_addr s.
Proof.
  revert s. induction evs as [|[ev h] evs IH]; intros s Hno Hr.
  - exists s. split; [reflexivity|].
    unfold n_disconnected, n_start. cbn [filter length].
    change (Z.of_nat 0) with 0. repeat split; lia.
  - cbn [forallb fst] in Hno. apply andb_true_iff in Hno. destruct Hno as [Hev Hno].
    destruct ev as [| |a b c d|id]; [| | discriminate Hev |].
    + destruct (streamer_on_start h s) as [s1 [E [_ [_ [Hi1 [Hr1 Hc1]]]]]].
      rewrite (streamer_events_cons _ _ _ _ _ E).
      destruct (IH s1 Hno ltac:(lia)) as [s' [E' [Hr' [Hc' Hi']]]].
      exists s'. split; [exact E'|].
      unfold n_start, n_disconnected in *.
      cbn [filter fst is_sta_start is_sta_disconnected length].
      rewrite Hr', Hc', Hi', Hr1, Hc1, Hi1. repeat split; lia.
    + destruct (streamer_on_disconnect h s Hr)
        as [s1 [E [_ [_ [Hi1 [Hr1 [Hc1 _]]]]]]].
      rewrite (streamer_events_cons _ _ _ _ _ E).
      destruct (IH s1 Hno ltac:(lia)) as [s' [E' [Hr' [Hc' Hi']]]].
      exists s'. split; [exact E'|].
      unfold n_start, n_disconnected in *.
      cbn [filter fst is_sta_start is_sta_disconnected length].
      rewrite Hr', Hc', Hi', Hr1, Hc1, Hi1. rewrite Nat2Z.inj_succ.
      destruct (Z.ltb_spec (retry_count s) 5); repeat split; lia.
    + rewrite (streamer_events_cons _ _ _ _ _ (streamer_on_other id h s)).
      destruct (IH s Hno Hr) as [s' [E' [Hr' [Hc' Hi']]]].
      exists s'. split; [exact E'|].
      unfold n_start, n_disconnected in *.
      cbn [filter fst is_sta_start is_sta_disconnected length].
      rewrite Hr', Hc', Hi'. repeat split; lia.
Qed.

Lemma streamer_retries_bounded_witness :
  let h := mk_httpd_env ESP_OK 12288 in
  let evs := (WIFI_EVENT_STA_START, h)
             :: repeat (WIFI_EVENT_STA_DISCONNECTED, h) 7 in
  exists s',
    handle_events evs (boot 0) = Done (tt, s') /\
    retry_count s' = 5 /\
    connects s' = 6%nat /\
    ip_addr s' = text "0.0.0.0".
Proof.
  intros h evs.
  assert (Hr0 : 0 <= retry_count (boot 0) <= 5) by (split; discriminate).
  destruct (streamer_retries_bounded evs (boot 0) eq_refl Hr0)
    as [s' [E [Hr [Hc Hi]]]].
  exists s'. split; [exact E|].
  split; [rewrite Hr; vm_compute; reflexivity|].
  split; [rewrite Hc; vm_compute; reflexivity|].
  rewrite Hi. reflexivity.
Defined.

(** X11.  The streamer's handler never aborts, and after any events
    [app_wifi_is_connected] tells whether the last of the disconnect and
    got-IP events was a got-IP.  A server handle is held only while the
    link is up: every disconnect leaves [server] NULL. *)
Theorem link_flag_follows_events (evs : list (wifi_event * httpd_env)) (s : state) :
  0 <= retry_count s <= 5 ->
  served_only_when_up s ->
  exists s',
    handle_events evs s = Done (tt, s') /\
    app_wifi_is_connected s' = link_after evs (wifi_connected s) /\
    served_only_when_up s' /\
    0 <= retry_count s' <= 5.
Proof.
  revert s. induction evs as [|[ev h] evs IH]; intros s Hr Hup.
  - exists s. split; [reflexivity|]. split; [reflexivity|]. split; assumption.
  - unfold link_after. cbn [fold_left fst]. fold (link_after evs).
    destruct ev as [| |a b c d|id].
    + destruct (streamer_on_start h s) as [s1 [E [Hs1 [Hw1 [_ [Hr1 _]]]]]].
      rewrite (streamer_events_cons _ _ _ _ _ E).
      destruct (IH s1) as [s' [E' [Hw' [Hup' Hr']]]].
      * lia.
      * unfold served_only_when_up. rewrite Hs1, Hw1. exact Hup.
      * exists s'. split; [exact E'|]. rewrite Hw', Hw1.
        split; [reflexivity|]. split; [exact Hup'|exact Hr'].
    + destruct (streamer_on_disconnect h s Hr) as [s1 [E [Hs1 [Hw1 [_ [Hr1 _]]]]]].
      rewrite (streamer_events_cons _ _ _ _ _ E).
      destruct (IH s1) as [s' [E' [Hw' [Hup' Hr']]]].
      * lia.
      * unfold served_only_when_up. rewrite Hs1. intros K. contradiction.
      * exists s'. split; [exact E'|]. rewrite Hw', Hw1.
        split; [reflexivity|]. split; [exact Hup'|exact Hr'].
    + destruct (streamer_on_got_ip a b c d h s) as [s1 [E [Hs1 [Hw1 [_ [Hr1 _]]]]]].
      rewrite (streamer_events_cons _ _ _ _ _ E).
      destruct (IH s1) as [s' [E' [Hw' [Hup' Hr']]]].
      * lia.
      * unfold served_only_when_up. intros _. exact Hw1.
      * exists s'. split; [exact E'|]. rewrite Hw', Hw1.
        split; [reflexivity|]. split; [exact Hup'|exact Hr'].
    + rewrite (streamer_events_cons _ _ _ _ _ (streamer_on_other id h s)).
      exact (IH s Hr Hup).
Qed.

Lemma link_flag_follows_events_witness :
  let h := mk_httpd_env ESP_OK 12288 in
  let evs := [(WIFI_EVENT_STA_START, h); (IP_EVENT_STA_GOT_IP 10 0 0 7, h);
              (WIFI_EVENT_STA_DISCONNECTED, h);
              (IP_EVENT_STA_GOT_IP 10 0 0 9, h)] in
  exists s',
    handle_events evs (boot 0) = Done (tt, s') /\
    app_wifi_is_connected s' = true /\
    served_only_when_up s' /\
    0 <= retry_count s' <= 5.
Proof.
  intros h evs.
  assert (Hr0 : 0 <= retry_count (boot 0) <= 5) by (split; discriminate).
  assert (Hup : served_only_when_up (boot 0)).
  { intros K. exfalso. apply K. reflexivity. }
  exact (link_flag_follows_events evs (boot 0) Hr0 Hup).
Defined.

(** ** The address text *)

Lemma digits_length_pow10 fuel : forall k n acc,
  0 <= n < 10 ^ Z.of_nat (S k) ->
  (length (Libc.digits fuel n acc) <= S k + length acc)%nat.
Proof.
  induction fuel as [|fuel IH]; intros k n acc Hn; cbn [Libc.digits].
  - lia.
  - destruct (Z.eqb_spec (n / 10) 0) as [E|E].
    + cbn [length]. lia.
    + destruct k as [|k].
      * exfalso. apply E. apply Z.div_small. cbn in Hn. lia.
      * specialize (IH k (n / 10)
                      (ascii_of_N (Z.to_N (48 + n mod 10)) :: acc)).
        cbn [length] in IH.
        assert (0 <= n / 10 < 10 ^ Z.of_nat (S k)).
        { rewrite (Nat2Z.inj_succ (S k)), Z.pow_succ_r in Hn by lia.
          split; [apply Z.div_pos; lia|].
          apply Z.div_lt_upper_bound; lia. }
        specialize (IH H). lia.
Qed.

Lemma utoa_byte_length x : 0 <= x < 256 -> (length (Libc.utoa x) <= 3)%nat.
Proof.
  intros Hx. unfold Libc.utoa.
  pose proof (digits_length_pow10 (S (Z.to_nat (Z.log2 x))) 2 x []) as H.
  cbn [length] in H. rewrite Nat.add_0_r in H. apply H.
  change (10 ^ Z.of_nat 3) with 1000. lia.
Qed.

Lemma fmt_d_byte x : 0 <= x < 256 -> Libc.fmt_d (Libc.as_int x) = Libc.utoa x.
Proof.
  intros Hx. rewrite LibcProofs.as_int_small by lia. unfold Libc.fmt_d.
  destruct (Z.ltb_spec x 0); [lia|reflexivity].
Qed.

Lemma digit_is_no_dot c : Libc.is_digit c = true -> Ascii.eqb c "."%char = false.
Proof.
  intros H. destruct (Ascii.eqb_spec c "."%char) as [->|]; [|reflexivity].
  discriminate H.
Qed.

Lemma split_dots_digits ds : forall l piece,
  forallb Libc.is_digit ds = true ->
  split_dots (ds ++ l) piece = split_dots l (rev ds ++ piece).
Proof.
  induction ds as [|c ds IH]; intros l piece H; cbn [app rev].
  - reflexivity.
  - cbn [forallb] in H. apply andb_true_iff in H. destruct H as [Hc Hds].
    cbn [split_dots]. rewrite (digit_is_no_dot c Hc), (IH _ _ Hds).
    rewrite <- app_assoc. reflexivity.
Qed.

(** X12.  A got-IP event whose address has the byte values [a], [b], [c],
    [d] leaves in [ip_addr] the text [a.b.c.d] in decimal: the 16-byte
    buffer never truncates it (at most 15 characters), and reading the
    four numbers back gives the four bytes.  The text is not touched by
    later start or disconnect events, so [app_wifi_get_ip] goes on
    returning the last address after the link is lost. *)
Theorem ip_text_round_trip a b c d h (evs : list (wifi_event * httpd_env))
    (s : state) :
  0 <= a < 256 -> 0 <= b < 256 -> 0 <= c < 256 -> 0 <= d < 256 ->
  forallb (fun p => negb (is_got_ip (fst p))) evs = true ->
  exists s',
    handle_events ((IP_EVENT_STA_GOT_IP a b c d, h) :: evs) s = Done (tt, s') /\
    app_wifi_get_ip s' =
      Libc.utoa a ++ text "." ++ Libc.utoa b ++ text "." ++
      Libc.utoa c ++ text "." ++ Libc.utoa d /\
    (length (app_wifi_get_ip s') <= 15)%nat /\
    parse_dotted (app_wifi_get_ip s') = [a; b; c; d].
Proof.
  intros Ha Hb Hc Hd Hno.
  destruct (streamer_on_got_ip a b c d h s) as [s1 [E [_ [_ [Hi1 [Hr1 _]]]]]].
  rewrite (streamer_events_cons _ _ _ _ _ E).
  destruct (streamer_address_kept evs s1 Hno ltac:(lia)) as [s' [E' Hi']].
  exists s'. split; [exact E'|]. unfold app_wifi_get_ip. rewrite Hi', Hi1.
  assert (Htext : ip_text a b c d =
                  Libc.utoa a ++ text "." ++ Libc.utoa b ++ text "." ++
                  Libc.utoa c ++ text "." ++ Libc.utoa d).
  { unfold ip_text. rewrite !fmt_d_byte by assumption. reflexivity. }
  assert (Hlen : (length (ip_text a b c d) <= 15)%nat).
  { rewrite Htext, !length_app. change (length (text ".")) with 1%nat.
    pose proof (utoa_byte_length a Ha). pose proof (utoa_byte_length b Hb).
    pose proof (utoa_byte_length c Hc). pose proof (utoa_byte_length d Hd). lia. }
  assert (Hbuf : fst (Libc.snprintf 16 (ip_text a b c d)) = ip_text a b c d).
  { unfold Libc.snprintf. cbn [fst]. apply firstn_all2.
    change (Z.to_nat (16 - 1)) with 15%nat. exact Hlen. }
  rewrite Hbuf. split; [exact Htext|]. split; [exact Hlen|].
  rewrite Htext. unfold parse_dotted. change (text ".") with ["."%char].
  cbn [app].
  rewrite (split_dots_digits (Libc.utoa a)) by apply LibcProofs.utoa_digits.
  cbn [split_dots]. change (Ascii.eqb "." ".") with true. cbv iota.
  rewrite (split_dots_digits (Libc.utoa b)) by apply LibcProofs.utoa_digits.
  cbn [split_dots]. change (Ascii.eqb "." ".") with true. cbv iota.
  rewrite (split_dots_digits (Libc.utoa c)) by apply LibcProofs.utoa_digits.
  cbn [split_dots]. change (Ascii.eqb "." ".") with true. cbv iota.
  rewrite <- (app_nil_r (Libc.utoa d)).
  rewrite (split_dots_digits (Libc.utoa d)) by apply LibcProofs.utoa_digits.
  cbn [split_dots map]. rewrite !app_nil_r, !rev_involutive.
  rewrite !LibcProofs.utoa_value by lia. reflexivity.
Qed.

Lemma ip_text_round_trip_witness :
  let h := mk_httpd_env ESP_OK 12288 in
  exists s',
    handle_events [(IP_EVENT_STA_GOT_IP 192 168 4 255, h);
                   (WIFI_EVENT_STA_DISCONNECTED, h)] (boot 0) = Done (tt, s') /\
    app_wifi_get_ip s' = text "192.168.4.255" /\
    (length (app_wifi_get_ip s') <= 15)%nat /\
    parse_dotted (app_wifi_get_ip s') = [192; 168; 4; 255].
Proof.
  intros h.
  assert (Hbyte : forall x, (0 <=? x) && (x <? 256) = true -> 0 <= x < 256).
  { intros x H. apply andb_true_iff in H. destruct H as [H1 H2].
    apply Z.leb_le in H1. apply Z.ltb_lt in H2. split; assumption. }
  destruct (ip_text_round_trip 192 168 4 255 h [(WIFI_EVENT_STA_DISCONNECTED, h)]
              (boot 0) (Hbyte 192 eq_refl) (Hbyte 168 eq_refl) (Hbyte 4 eq_refl)
              (Hbyte 255 eq_refl) eq_refl)
    as [s' [E [Hi [Hl Hp]]]].
  exists s'. split; [exact E|]. split; [rewrite Hi; vm_compute; reflexivity|].
  split; [exact Hl|exact Hp].
Defined.

(** X13.  A got-IP event starts a server whatever [server] holds and
    overwrites the handle, and the disconnect that follows stops the new
    server only: over the two events [httpd_start] is called once, and
    [httpd_stop] once if that start gave a handle and not at all
    otherwise.  Neither count depends on [server] before the events, so a
    server running when the got-IP event arrives (a second got-IP with no
    disconnect in between) is never stopped. *)
Theorem got_ip_overwrites_server a b c d h h' (s : state) :
  exists s',
    handle_events [(IP_EVENT_STA_GOT_IP a b c d, h);
                   (WIFI_EVENT_STA_DISCONNECTED, h')] s = Done (tt, s') /\
    server s' = NULL /\
    app_wifi_is_connected s' = false /\
    calls_of "httpd_start" (trace (env s')) =
      S (calls_of "httpd_start" (trace (env s))) /\
    calls_of "httpd_stop" (trace (env s')) =
      (calls_of "httpd_stop" (trace (env s)) +
       if ((httpd_start_ret h =? ESP_OK) && negb (httpd_start_hdl h =? NULL))%Z
       then 1 else 0)%nat.
Proof.
  unfold handle_events, wifi_event_handler. run_prog.
  change (0 <? WIFI_MAX_RETRY) with true.
  destruct (httpd_start_ret h =? ESP_OK); cbn;
    [destruct (httpd_start_hdl h =? NULL); cbn|];
    (eexists; split; [reflexivity|]; cbn; repeat split; count_calls).
Qed.

End StreamerProofs.

(** * More on the two-queue program *)

Module TwoQueueMore.
Import TwoQueue TwoQueueProofs.

#[local] Arguments Nat.ltb : simpl never.
#[local] Arguments Z.ltb : simpl never.
#[local] Arguments Z.gtb : simpl never.
#[local] Arguments Z.eqb : simpl never.
#[local] Arguments Z.min : simpl never.
#[local] Arguments Z.to_nat : simpl never.
#[local] Arguments Z.of_nat : simpl never.
#[local] Arguments Libc.snprintf : simpl never.
#[local] Arguments firstn : simpl never.
#[local] Arguments frame_header_text : simpl never.
#[local] Arguments bytes_of : simpl never.
#[local] Arguments header : simpl never.

Lemma tq_returned_app tr1 tr2 :
  returned (tr1 ++ tr2) = returned tr1 ++ returned tr2.
Proof. unfold returned. apply flat_map_app. Qed.

(** One pass of the loop on a writable frame whose writes go out in full. *)
Lemma stream_pass_full hz (e : http_env) (f : uvc_host_frame_t) n rest
    (s : state) :
  writable f ->
  sent_in_full f e ->
  frame_queue s = Some (Queue.mk n (Some f :: rest)) ->
  exists s1,
    stream_handler_body hz e s = Done (Continue, s1) /\
    frame_queue s1 = Some (Queue.mk n rest) /\
    http_output (trace (env s1)) = http_output (trace (env s)) ++ part f /\
    returned (trace (env s1)) = returned (trace (env s)) ++ [f] /\
    xTickCount (env s1) = xTickCount (env s).
Proof.
  intros [bytes [Hd [Hlen Hl]]] [H1 [H2 [H3 H4]]] Hq.
  rewrite (stream_handler_body_frame hz e f bytes n rest s Hd (proj1 Hl) Hq).
  cbv zeta.
  pose proof (frame_header_fits (data_len f)) as Hfit.
  assert (E1 : (ret_header e <? 0) = false) by (apply Z.ltb_ge; lia).
  assert (E2 : (ret_data e <? 0) = false) by (apply Z.ltb_ge; lia).
  assert (E3 : (ret_separator e <? 0) = false) by (apply Z.ltb_ge; lia).
  assert (E4 : (host_hdr_len e =? 0) = false) by (apply Z.eqb_neq; exact H4).
  rewrite E1, E2, E3, E4.
  rewrite !firstn_all2;
    [ | change (length (bytes_of CRLF)) with 2%nat; lia
      | lia
      | unfold bytes_of; rewrite length_map; lia ].
  eexists. split; [reflexivity|].
  split; [reflexivity|].
  cbn [env set_env trace xTickCount].
  split; [|split; [|reflexivity]].
  - rewrite http_output_app. unfold http_output at 2. cbn [flat_map snd].
    unfold part, frame_bytes. rewrite Hd.
    rewrite ?app_nil_r, <- ?app_assoc. reflexivity.
  - rewrite tq_returned_app. reflexivity.
Qed.

(** The loop over a queue holding writable frames. *)
Lemma stream_loop_full hz (fs : list uvc_host_frame_t) : forall es n (s : state),
  Forall writable fs ->
  Forall2 sent_in_full fs es ->
  frame_queue s = Some (Queue.mk n (map Some fs)) ->
  exists s',
    stream_handler_loop hz es s = Done (None, s') /\
    frame_queue s' = Some (Queue.mk n []) /\
    http_output (trace (env s')) =
      http_output (trace (env s)) ++ concat (map part fs) /\
    returned (trace (env s')) = returned (trace (env s)) ++ fs /\
    xTickCount (env s') = xTickCount (env s).
Proof.
  induction fs as [|f fs IH]; intros es n s Hw Hs Hq.
  - inversion Hs; subst. exists s. cbn [map concat].
    rewrite !app_nil_r. repeat split; try reflexivity. exact Hq.
  - inversion Hs as [|f' e fs' es' He Hes]; subst.
    inversion Hw as [|f' fs' Hf Hfs]; subst.
    destruct (stream_pass_full hz e f n (map Some fs) s Hf He Hq)
      as [s1 [E [Hq1 [Ho1 [Hr1 Ht1]]]]].
    destruct (IH es' n s1 Hfs Hes Hq1) as [s' [E' [Hq' [Ho' [Hr' Ht']]]]].
    exists s'. split.
    { cbn [stream_handler_loop]. unfold bind at 1. rewrite E. exact E'. }
    split; [exact Hq'|].
    rewrite Ho', Ho1, Hr', Hr1, Ht', Ht1. cbn [map concat].
    rewrite <- !app_assoc. repeat split; reflexivity.
Qed.

(** X14.  A streaming session over a queue of writable frames, every write
    reported sent in full and the request keeping its Host header: the
    handler sends the multipart preamble once, then one part per frame in
    queue order and nothing else; it hands each frame to
    [uvc_host_frame_return] once, in that order; it empties the queue
    without waiting, and is still in its loop. *)
Theorem stream_session hz ret_preamble (fs : list uvc_host_frame_t)
    (es : list http_env) n (s : state) :
  Forall writable fs ->
  Forall2 sent_in_full fs es ->
  frame_queue s = Some (Queue.mk n (map Some fs)) ->
  Z.of_nat (length header) <= ret_preamble ->
  exists s',
    stream_handler hz ret_preamble es s = Done (None, s') /\
    frame_queue s' = Some (Queue.mk n []) /\
    http_output (trace (env s')) =
      http_output (trace (env s)) ++ bytes_of header ++ concat (map part fs) /\
    returned (trace (env s')) = returned (trace (env s)) ++ fs /\
    xTickCount (env s') = xTickCount (env s).
Proof.
  intros Hw Hs Hq Hp.
  set (now := xTickCount (env s)).
  set (s0 := set_env (mk_world now
                (trace (env s) ++
                 [(now, ESP_LOG LOG_I TAG_wifi "Stream client connected");
                  (now, httpd_send (bytes_of header) ret_preamble)])) s).
  assert (E0 : stream_handler hz ret_preamble es s = stream_handler_loop hz es s0).
  { unfold stream_handler, send, ESP_LOGx, emit, bind, ret, gets, modify.
    cbn [env set_env trace xTickCount emit_w].
    replace (ret_preamble <? 0) with false by (symmetry; apply Z.ltb_ge; lia).
    rewrite firstn_all2 by (unfold bytes_of; rewrite length_map; lia).
    unfold s0, set_env, emit_w, now. cbn [env trace xTickCount].
    rewrite <- !app_assoc. reflexivity. }
  rewrite E0.
  destruct (stream_loop_full hz fs es n s0 Hw Hs Hq)
    as [s' [E' [Hq' [Ho' [Hr' Ht']]]]].
  exists s'. split; [exact E'|]. split; [exact Hq'|].
  rewrite Ho', Hr', Ht'. unfold s0. cbn [env set_env trace xTickCount].
  rewrite http_output_app, tq_returned_app.
  unfold http_output at 2. unfold returned at 2. cbn [flat_map snd].
  rewrite ?app_nil_r, <- ?app_assoc. repeat split; reflexivity.
Qed.

Lemma stream_session_witness :
  let f1 := mk_frame 1 (Some [xff; xd8; xd9]%byte) 3 in
  let f2 := mk_frame 2 (Some [xff; xd8; x00; xd9]%byte) 4 in
  let s := mk_state (Some (Queue.xQueueCreate 3))
                    (Some (Queue.mk 3 [Some f1; Some f2]))
                    true 4096 (mk_world 0 []) in
  let e := mk_http_env 56 4 2 9 in
  exists s',
    stream_handler 100 76 [e; e] s = Done (None, s') /\
    frame_queue s' = Some (Queue.mk 3 []) /\
    http_output (trace (env s')) = bytes_of header ++ part f1 ++ part f2 /\
    returned (trace (env s')) = [f1; f2] /\
    xTickCount (env s') = 0.
Proof.
  intros f1 f2 s e.
  assert (W1 : writable f1).
  { exists [xff; xd8; xd9]%byte. repeat split; vm_compute; reflexivity. }
  assert (W2 : writable f2).
  { exists [xff; xd8; x00; xd9]%byte. repeat split; vm_compute; reflexivity. }
  assert (S1 : sent_in_full f1 e).
  { repeat split; vm_compute; discriminate. }
  assert (S2 : sent_in_full f2 e).
  { repeat split; vm_compute; discriminate. }
  assert (Hp : Z.of_nat (length header) <= 76) by (vm_compute; discriminate).
  destruct (stream_session 100 76 [f1; f2] [e; e] 3%nat s
              (Forall_cons _ W1 (Forall_cons _ W2 (Forall_nil _)))
              (Forall2_cons _ _ S1 (Forall2_cons _ _ S2 (Forall2_nil _)))
              eq_refl Hp)
    as [s' [E [Hq [Ho [Hr Ht]]]]].
  exists s'. split; [exact E|]. split; [exact Hq|].
  split; [rewrite Ho; cbn [map concat]; rewrite app_nil_r; reflexivity|].
  split; [exact Hr|exact Ht].
Defined.

Ltac run_prog :=
  unfold ESP_LOGx, task_delay, emit, elapse, ESP_ERROR_CHECK, assert,
    bind, ret, gets, modify, abort in *;
  cbn in *.

(** X15.  A frame taken from the streamer's queue that has no data or a
    length that is not positive is skipped: the pass removes it from the
    queue, sends nothing, and does not hand it to [uvc_host_frame_return];
    the pointer is gone from the queue without a release. *)
Theorem unwritable_frame_not_returned hz (e : http_env) (f : uvc_host_frame_t)
    n rest (s : state) :
  frame_queue s = Some (Queue.mk n (Some f :: rest)) ->
  data f = None \/ data_len f <= 0 ->
  exists ctl s',
    stream_handler_body hz e s = Done (ctl, s') /\
    frame_queue s' = Some (Queue.mk n rest) /\
    http_output (trace (env s')) = http_output (trace (env s)) /\
    returned (trace (env s')) = returned (trace (env s)).
Proof.
  intros Hq Hbad.
  assert (Hskip : match data f with
                  | Some _ => (data_len f >? 0) = false
                  | None => True
                  end).
  { destruct Hbad as [Hd|Hl]; [rewrite Hd; exact I|].
    destruct (data f); [|exact I].
    destruct (Z.gtb_spec (data_len f) 0); [lia|reflexivity]. }
  unfold stream_handler_body, queue_receive, Queue.xQueueReceive, send.
  run_prog. rewrite Hq. cbn. change (pdPASS =? pdTRUE) with true. cbn.
  destruct (data f) as [bytes|]; [rewrite Hskip|]; cbn;
    (destruct (host_hdr_len e =? 0); cbn;
     eexists _, _; (split; [reflexivity|]); cbn;
     (split; [reflexivity|]);
     rewrite ?http_output_app, ?tq_returned_app;
     unfold http_output at 2 3, returned at 2 3; cbn [flat_map snd];
     rewrite ?app_nil_r; split; reflexivity).
Qed.

Lemma unwritable_frame_not_returned_witness :
  let f := mk_frame 1 (Some [xff; xd8; xd9]%byte) 0 in
  let s := mk_state (Some (Queue.xQueueCreate 3)) (Some (Queue.mk 3 [Some f]))
                    true 4096 (mk_world 0 []) in
  exists ctl s',
    stream_handler_body 100 (mk_http_env 56 3 2 9) s = Done (ctl, s') /\
    frame_queue s' = Some (Queue.mk 3 []) /\
    http_output (trace (env s')) = [] /\
    returned (trace (env s')) = [].
Proof.
  intros f s.
  assert (Hl : data_len f <= 0) by (vm_compute; discriminate).
  exact (unwritable_frame_not_returned 100 (mk_http_env 56 3 2 9) f 3%nat [] s
           eq_refl (or_intror Hl)).
Defined.

(** X16.  In the two-queue program a disconnect closes the stream twice.
    While the task is in its streaming loop, the disconnect event makes
    [stream_callback] call [uvc_host_stream_close] on the event's handle;
    the task's next step leaves the loop and calls [uvc_host_stream_close]
    again, on [uvc_stream], before it sets [uvc_stream] to NULL and goes
    back to searching. *)
Theorem stream_closed_twice hz hdl (o : open_env) (x : sys) :
  pc x = Streaming ->
  exists x',
    run hz [StreamEvent (UVC_HOST_DEVICE_DISCONNECTED hdl) ESP_OK; TaskStep o] x
      = Done x' /\
    pc x' = Searching /\
    dev_connected (st x') = false /\
    uvc_stream (st x') = NULL /\
    rx_frames_queue (st x') = rx_frames_queue (st x) /\
    frame_queue (st x') = frame_queue (st x) /\
    map snd (filter is_stream_close (trace (env (st x')))) =
      map snd (filter is_stream_close (trace (env (st x)))) ++
      [uvc_host_stream_close hdl; uvc_host_stream_close (uvc_stream (st x))].
Proof.
  intros Hpc. destruct x as [s p srv]. cbn [pc] in Hpc. subst p.
  cbn [run step lift st pc serving frame_handling_task].
  unfold stream_callback, task_stream. run_prog.
  eexists. split; [reflexivity|]. cbn.
  repeat (split; [reflexivity|]).
  unfold emit_w. cbn [trace].
  rewrite !filter_app, !map_app. cbn. rewrite <- !app_assoc. reflexivity.
Qed.

Lemma stream_closed_twice_witness :
  let s := mk_state (Some (Queue.xQueueCreate 3)) (Some (Queue.xQueueCreate 3))
                    true 4096 (mk_world 0 []) in
  exists x',
    run 100 [StreamEvent (UVC_HOST_DEVICE_DISCONNECTED 4096) ESP_OK;
             TaskStep (mk_open_env ESP_OK 8192 0)] (mk_sys s Streaming true)
      = Done x' /\
    pc x' = Searching /\
    dev_connected (st x') = false /\
    uvc_stream (st x') = NULL /\
    rx_frames_queue (st x') = Some (Queue.xQueueCreate 3) /\
    frame_queue (st x') = Some (Queue.xQueueCreate 3) /\
    map snd (filter is_stream_close (trace (env (st x')))) =
      [uvc_host_stream_close 4096; uvc_host_stream_close 4096].
Proof.
  intros s.
  exact (stream_closed_twice 100 4096 (mk_open_env ESP_OK 8192 0)
           (mk_sys s Streaming true) eq_refl).
Defined.

(** X17.  [app_main] of the two-queue program gets through start-up
    exactly when the local queue was allocated, the installs and task
    creations succeeded and, if the streamer's queue was allocated, every
    network call succeeded; in every other case it aborts.  A failed
    allocation of the streamer's queue is not fatal: start-up goes on with
    [wifi_frame_queue] NULL, and neither [esp_netif_init] nor
    [esp_wifi_start] is called. *)
Theorem two_queue_start_up (e : init_env) (now : Z) :
  match app_main e (boot now) with
  | Done (_, s) =>
      start_up_passes e = true /\
      rx_frames_queue s = Some (Queue.xQueueCreate 3) /\
      frame_queue s =
        (if wifi_queue_allocated e then Some (Queue.xQueueCreate 3) else None) /\
      calls_of "esp_netif_init" (trace (env s)) =
        (if wifi_queue_allocated e then 1 else 0)%nat /\
      calls_of "esp_wifi_start" (trace (env s)) =
        (if wifi_queue_allocated e then 1 else 0)%nat /\
      dev_connected s = false /\
      xTickCount (env s) = now
  | Aborted => start_up_passes e = false
  end.
Proof.
  unfold start_up_passes, app_main, app_wifi_init, app_wifi_start, checked,
    ESP_ERROR_CHECK, assert.
  destruct (rx_queue_allocated e); [|vm_compute; reflexivity].
  destruct (wifi_queue_allocated e).
  - destruct (esp_netif_init_ret e =? ESP_OK); [|vm_compute; reflexivity].
    destruct (esp_event_loop_create_default_ret e =? ESP_OK);
      [|vm_compute; reflexivity].
    destruct (sta_netif e =? NULL); [vm_compute; reflexivity|].
    destruct (esp_wifi_init_ret e =? ESP_OK); [|vm_compute; reflexivity].
    destruct (register_wifi_event_ret e =? ESP_OK); [|vm_compute; reflexivity].
    destruct (register_ip_event_ret e =? ESP_OK); [|vm_compute; reflexivity].
    destruct (esp_wifi_set_mode_ret e =? ESP_OK); [|vm_compute; reflexivity].
    destruct (esp_wifi_set_config_ret e =? ESP_OK); [|vm_compute; reflexivity].
    destruct (esp_wifi_start_ret e =? ESP_OK); [|vm_compute; reflexivity].
    destruct (usb_host_install_ret e =? ESP_OK); [|vm_compute; reflexivity].
    destruct (usb_lib_task_created e =? pdTRUE); [|vm_compute; reflexivity].
    destruct (uvc_host_install_ret e =? ESP_OK); [|vm_compute; reflexivity].
    destruct (frame_hdl_task_created e =? pdTRUE); [|vm_compute; reflexivity].
    vm_compute. repeat split.
  - destruct (usb_host_install_ret e =? ESP_OK); [|vm_compute; reflexivity].
    destruct (usb_lib_task_created e =? pdTRUE); [|vm_compute; reflexivity].
    destruct (uvc_host_install_ret e =? ESP_OK); [|vm_compute; reflexivity].
    destruct (frame_hdl_task_created e =? pdTRUE); [|vm_compute; reflexivity].
    vm_compute. repeat split.
Qed.

(** ** Without the streamer's queue *)

Lemma tq_recycled_app tr1 tr2 :
  recycled (tr1 ++ tr2) = recycled tr1 ++ recycled tr2.
Proof. unfold recycled. apply flat_map_app. Qed.

Ltac frames_of_trace :=
  cbn [env set_env trace xTickCount rx_frames_queue frame_queue
       set_rx_frames_queue set_frame_queue set_dev_connected set_uvc_stream];
  unfold emit_w, elapse_w; cbn [trace xTickCount];
  rewrite ?tq_returned_app, ?tq_recycled_app;
  unfold returned, recycled; cbn [flat_map snd app];
  rewrite ?app_nil_r.

(** A capture while [wifi_frame_queue] is NULL: the fan-out is skipped. *)
Lemma tq_driver_capture_cases (f : uvc_host_frame_t) (q : Queue.t frame_ptr)
    (s : state) :
  rx_frames_queue s = Some q ->
  frame_queue s = None ->
  exists s' q',
    driver_capture f s = Done (tt, s') /\
    rx_frames_queue s' = Some q' /\
    frame_queue s' = None /\
    returned (trace (env s')) = returned (trace (env s)) /\
    ((Queue.items q' = Queue.items q ++ [Some f] /\
      recycled (trace (env s')) = recycled (trace (env s))) \/
     (Queue.items q' = Queue.items q /\
      recycled (trace (env s')) = recycled (trace (env s)) ++ [f])).
Proof.
  intros Hq Hw.
  unfold driver_capture, frame_callback, queue_send, Queue.xQueueSendToBack,
    wifi_frame_queue.
  run_prog. rewrite Hq. cbn.
  destruct (length (Queue.items q) <? Queue.uxLength q)%nat; cbn;
    rewrite Hw; cbn.
  - eexists _, _. split; [reflexivity|]. frames_of_trace.
    split; [reflexivity|]. split; [exact Hw|]. split; [reflexivity|].
    left. split; reflexivity.
  - eexists _, _. split; [reflexivity|]. frames_of_trace.
    split; [reflexivity|]. split; [exact Hw|]. split; [reflexivity|].
    right. split; reflexivity.
Qed.

Lemma tq_stream_callback_frames event user_ctx close_ret (s s' : state) :
  stream_callback event user_ctx close_ret s = Done (tt, s') ->
  rx_frames_queue s' = rx_frames_queue s /\
  frame_queue s' = frame_queue s /\
  returned (trace (env s')) = returned (trace (env s)) /\
  recycled (trace (env s')) = recycled (trace (env s)).
Proof.
  unfold stream_callback. destruct event; run_prog; intros H;
    try discriminate H;
    try (destruct (close_ret =? ESP_OK); [|discriminate H]);
    inversion H; subst; frames_of_trace; repeat split; reflexivity.
Qed.

Lemma tq_task_search_frames hz o (s s' : state) p :
  task_search hz o s = Done (p, s') ->
  rx_frames_queue s' = rx_frames_queue s /\
  frame_queue s' = frame_queue s /\
  returned (trace (env s')) = returned (trace (env s)) /\
  recycled (trace (env s')) = recycled (trace (env s)).
Proof.
  unfold task_search. run_prog.
  destruct (ESP_OK =? open_err o); cbn; intros H; inversion H; subst;
    frames_of_trace; repeat split; reflexivity.
Qed.

Lemma tq_task_stream_cases hz (q : Queue.t frame_ptr) (s s' : state) p :
  rx_frames_queue s = Some q ->
  task_stream hz s = Done (p, s') ->
  frame_queue s' = frame_queue s /\
  recycled (trace (env s')) = recycled (trace (env s)) /\
  ((rx_frames_queue s' = Some q /\
    returned (trace (env s')) = returned (trace (env s))) \/
   (exists f rest,
      Queue.items q = Some f :: rest /\
      rx_frames_queue s' = Some (Queue.mk (Queue.uxLength q) rest) /\
      returned (trace (env s')) = returned (trace (env s)) ++ [f])).
Proof.
  intros Hq. unfold task_stream, queue_receive, Queue.xQueueReceive.
  run_prog. destruct (dev_connected s); cbn.
  - rewrite Hq. cbn. destruct q as [n [|[f|] rest]]; cbn; intros H;
      [ | | discriminate H ]; inversion H; subst; frames_of_trace.
    + split; [reflexivity|]. split; [reflexivity|]. left. split; reflexivity.
    + split; [reflexivity|]. split; [reflexivity|]. right.
      exists f, rest. repeat split; reflexivity.
  - intros H. inversion H; subst. frames_of_trace.
    split; [reflexivity|]. split; [reflexivity|]. left. split; [exact Hq|reflexivity].
Qed.

Lemma tq_step_frames hz a x x' (q : Queue.t frame_ptr) :
  rx_frames_queue (st x) = Some q ->
  frame_queue (st x) = None ->
  step hz a x = Done x' ->
  exists q',
    rx_frames_queue (st x') = Some q' /\
    frame_queue (st x') = None /\
    let R := returned (trace (env (st x))) in
    let D := recycled (trace (env (st x))) in
    let R' := returned (trace (env (st x'))) in
    let D' := recycled (trace (env (st x'))) in
    match a with
    | Capture f =>
        R' = R /\
        ((Queue.items q' = Queue.items q ++ [Some f] /\ D' = D) \/
         (Queue.items q' = Queue.items q /\ D' = D ++ [f]))
    | HttpPass _ => serving x = false /\ x' = x
    | _ =>
        D' = D /\ map Some R' ++ Queue.items q' = map Some R ++ Queue.items q
    end.
Proof.
  intros Hq Hw H. destruct a; unfold step, lift in H; cbv zeta.
  - destruct (tq_driver_capture_cases frame q (st x) Hq Hw)
      as [s' [q' [E [Hq' [Hw' [HR HD]]]]]].
    rewrite E in H. inversion H; subst. exists q'. cbn [st]. auto.
  - destruct (stream_callback event NULL close_ret (st x)) as [[[] s']|] eqn:E;
      [|discriminate].
    inversion H; subst. cbn [st].
    destruct (tq_stream_callback_frames _ _ _ _ _ E) as [Hq' [Hw' [HR HD]]].
    exists q. rewrite Hq', Hw', HR, HD. auto.
  - destruct (frame_handling_task hz (pc x) o (st x)) as [[p s']|] eqn:E;
      [|discriminate].
    inversion H; subst. cbn [st]. unfold frame_handling_task in E.
    destruct (pc x).
    + destruct (tq_task_search_frames _ _ _ _ _ E) as [Hq' [Hw' [HR HD]]].
      exists q. rewrite Hq', Hw', HR, HD. auto.
    + destruct (tq_task_stream_cases hz q (st x) s' p Hq E)
        as [Hw' [HD [[Hq' HR]|[f [rest [Hi [Hq' HR]]]]]]].
      * exists q. rewrite Hw', HR, HD. auto.
      * eexists. split; [exact Hq'|]. rewrite Hw'. split; [exact Hw|].
        split; [exact HD|].
        rewrite HR, Hi, map_app, <- app_assoc. reflexivity.
  - destruct (serving x).
    + inversion H; subst. exists q. auto.
    + unfold stream_handler, send in H. run_prog.
      inversion H; subst. cbn [st]. exists q. frames_of_trace. auto.
  - destruct (serving x).
    + exfalso. unfold stream_handler_loop, stream_handler_body, queue_receive in H.
      run_prog. rewrite Hw in H. discriminate H.
    + inversion H; subst. exists q. auto.
  - unfold elapse in H. run_prog. inversion H; subst. cbn [st].
    exists q. frames_of_trace. auto.
Qed.

Lemma tq_run_frames hz acts : forall x x' (q : Queue.t frame_ptr) before,
  rx_frames_queue (st x) = Some q ->
  frame_queue (st x) = None ->
  Merge (map Some (returned (trace (env (st x)))) ++ Queue.items q)
        (map Some (recycled (trace (env (st x)))))
        before ->
  run hz acts x = Done x' ->
  exists q',
    rx_frames_queue (st x') = Some q' /\
    frame_queue (st x') = None /\
    Merge (map Some (returned (trace (env (st x')))) ++ Queue.items q')
          (map Some (recycled (trace (env (st x')))))
          (before ++ map Some (tq_captures acts)).
Proof.
  induction acts as [|a acts IH]; intros x x' q before Hq Hw HM H; cbn [run] in H.
  - inversion H; subst. exists q. cbn. rewrite app_nil_r. auto.
  - destruct (step hz a x) as [x1|] eqn:E; [|discriminate].
    destruct (tq_step_frames hz a x x1 q Hq Hw E) as [q1 [Hq1 [Hw1 Hstep]]].
    cbv zeta in Hstep.
    assert (HM1 :
      Merge (map Some (returned (trace (env (st x1)))) ++ Queue.items q1)
            (map Some (recycled (trace (env (st x1)))))
            (before ++ map Some (tq_captures [a]))).
    { destruct a; cbn [tq_captures flat_map map app];
        try (destruct Hstep as [HD HRQ]; rewrite HD, HRQ, app_nil_r; exact HM).
      - destruct Hstep as [HR [[Hi HD]|[Hi HD]]]; rewrite HR, Hi, HD.
        + rewrite app_assoc. apply AppUvcMore.Merge_snoc_left, HM.
        + rewrite map_app. apply AppUvcMore.Merge_snoc_right, HM.
      - destruct Hstep as [_ ->]. rewrite Hq in Hq1. inversion Hq1; subst.
        rewrite app_nil_r. exact HM. }
    destruct (IH x1 x' q1 _ Hq1 Hw1 HM1 H) as [q' [Hq' [Hw' HM']]].
    exists q'. split; [exact Hq'|]. split; [exact Hw'|].
    change (a :: acts) with ([a] ++ acts).
    unfold tq_captures in *. rewrite flat_map_app, map_app, app_assoc. exact HM'.
Qed.

Lemma start_up_leaves_no_frames e now (s : state) :
  wifi_queue_allocated e = false ->
  app_main e (boot now) = Done (tt, s) ->
  rx_frames_queue s = Some (Queue.xQueueCreate 3) /\
  frame_queue s = None /\
  returned (trace (env s)) = [] /\
  recycled (trace (env s)) = [].
Proof.
  intros Hno.
  unfold app_main, app_wifi_init, app_wifi_start, checked,
    ESP_ERROR_CHECK, assert.
  rewrite Hno.
  destruct (rx_queue_allocated e); [|vm_compute; discriminate].
  destruct (usb_host_install_ret e =? ESP_OK); [|vm_compute; discriminate].
  destruct (usb_lib_task_created e =? pdTRUE); [|vm_compute; discriminate].
  destruct (uvc_host_install_ret e =? ESP_OK); [|vm_compute; discriminate].
  destruct (frame_hdl_task_created e =? pdTRUE); [|vm_compute; discriminate].
  vm_compute. intros H. inversion H; subst. repeat split.
Qed.

(** X18.  When the streamer's queue could not be allocated, the two-queue
    program handles frames as the single-queue program does: in every run
    after start-up [wifi_frame_queue] stays NULL, and the captured frames
    are, in capture order, an interleaving of the frames the driver took
    back at once and the frames handed to [uvc_host_frame_return] followed
    by the frames still queued.  No frame is returned twice; the double
    return needs the second queue. *)
Theorem streamerless_frames_accounted hz now e s acts x :
  wifi_queue_allocated e = false ->
  app_main e (boot now) = Done (tt, s) ->
  run hz acts (mk_sys s Searching false) = Done x ->
  exists q,
    rx_frames_queue (st x) = Some q /\
    frame_queue (st x) = None /\
    Merge (map Some (returned (trace (env (st x)))) ++ Queue.items q)
          (map Some (recycled (trace (env (st x)))))
          (map Some (tq_captures acts)).
Proof.
  intros Hno Hinit Hrun.
  pose proof (start_up_leaves_no_frames e now s Hno Hinit)
    as [Hq [Hw [HR HD]]].
  apply (tq_run_frames hz acts (mk_sys s Searching false) x
           (Queue.xQueueCreate 3) []).
  - exact Hq.
  - exact Hw.
  - cbn [st]. rewrite HR, HD. cbn. apply Merge_nil.
  - exact Hrun.
Qed.

(** Start-up without the streamer's queue, five captures with no consumer
    step, then the camera found and two passes of the streaming loop:
    frames 1 and 2 are returned, 3 is queued, 4 and 5 were taken back by
    the driver. *)
Lemma streamerless_frames_accounted_witness :
  let f k := mk_frame k (Some [xff; xd8; xd9]%byte) 3 in
  let cam := mk_open_env ESP_OK 4096 10 in
  let e := mk_init_env true false 0 0 1 0 0 0 0 0 0 0 1 0 1 in
  let acts := [Capture (f 1%nat); Capture (f 2%nat); Capture (f 3%nat);
               Capture (f 4%nat); Capture (f 5%nat);
               TaskStep cam; TaskStep cam; TaskStep cam] in
  exists s x,
    app_main e (boot 0) = Done (tt, s) /\
    run 100 acts (mk_sys s Searching false) = Done x /\
    returned (trace (env (st x))) = [f 1%nat; f 2%nat] /\
    recycled (trace (env (st x))) = [f 4%nat; f 5%nat] /\
    exists q,
      rx_frames_queue (st x) = Some q /\
      frame_queue (st x) = None /\
      Merge (map Some (returned (trace (env (st x)))) ++ Queue.items q)
            (map Some (recycled (trace (env (st x)))))
            (map Some (tq_captures acts)).
Proof.
  intros f cam e acts. eexists _, _.
  split; [vm_compute; reflexivity|].
  split; [vm_compute; reflexivity|].
  split; [vm_compute; reflexivity|].
  split; [vm_compute; reflexivity|].
  eapply (streamerless_frames_accounted 100 0 e _ acts);
    vm_compute; reflexivity.
Defined.

End TwoQueueMore.
